(** * Digital Twin Data Integration Platform: ingestion, health and analytics

    A shallow embedding of the Python backend:
    - [app/services/protocols/mqtt/client.py] and
      [app/services/protocols/opc_ua/client.py] (ingestion),
    - [app/api/v1/endpoints/monitoring.py] (real-time status, equipment health),
    - [app/api/v1/endpoints/data.py] (aggregation, anomaly detection),
    - [app/models/__init__.py] (the tables).

    Modelling conventions.
    - A Python [float] / [np.float64] is a [PyFloat.t]: an exact real number
      or one of the three non-finite values, with NaN and infinity
      propagation, truthiness, comparisons that are false on NaN and numpy's
      division by zero written out.  The rounding of binary64 and the sign
      of zero are not in this type.  What is proved over it rests on what
      binary64 shares with it: comparisons, the difference of a value and
      itself, sums and means of zeros, quantities that are computed without
      rounding.  Where a property needs a mean that is computed without
      rounding, this is a hypothesis of the theorem.  [Binary64] carries out
      the arithmetic of anomaly detection on IEEE 754 doubles, to run it
      where rounding decides the outcome.
    - [db.query(SensorData).join(Equipment).join(Sensor)] has one row for
      every reading and every sensor of the equipment of the reading; a query
      for entities returns every reading once, a query for columns works on
      the rows.
    - A [datetime] is an integer number of microseconds ([Z]).
    - A table is the list of its rows in insertion order; a query without
      [order_by] returns rows in that order.
    - A Python dict with insertion order is an association list.
    - [datetime.utcnow()] is an explicit argument. *)

From Stdlib Require Import Reals Lra Lia List String Ascii ZArith Bool.
From Stdlib Require Import Sorted Permutation.
From Stdlib Require SpecFloat.
Import ListNotations.

Local Open Scope R_scope.

(** ** Decisions on real numbers as booleans *)

Definition Rltb (x y : R) : bool := if Rlt_dec x y then true else false.
Definition Reqb (x y : R) : bool := if Req_dec_T x y then true else false.

(** ** Python floats *)

Module PyFloat.

Inductive t : Type :=
| Fin (x : R)
| PInf
| NInf
| NaN.

Definition Rsgn (x : R) : comparison :=
  if Rlt_dec x 0 then Lt else if Rlt_dec 0 x then Gt else Eq.

Definition sgn_mul (a b : comparison) : comparison :=
  match a, b with
  | Eq, _ | _, Eq => Eq
  | Lt, Lt | Gt, Gt => Gt
  | _, _ => Lt
  end.

(** Infinity of a given sign; the sign [Eq] stands for [0 * inf]. *)
Definition inf_of_sign (c : comparison) : t :=
  match c with Gt => PInf | Lt => NInf | Eq => NaN end.

Definition is_finite (a : t) : bool :=
  match a with Fin _ => true | _ => false end.

Definition neg (a : t) : t :=
  match a with
  | Fin x => Fin (- x)
  | PInf => NInf
  | NInf => PInf
  | NaN => NaN
  end.

Definition add (a b : t) : t :=
  match a, b with
  | NaN, _ | _, NaN => NaN
  | Fin x, Fin y => Fin (x + y)
  | PInf, NInf | NInf, PInf => NaN
  | PInf, _ | _, PInf => PInf
  | NInf, _ | _, NInf => NInf
  end.

Definition sub (a b : t) : t := add a (neg b).

Definition mul (a b : t) : t :=
  match a, b with
  | NaN, _ | _, NaN => NaN
  | Fin x, Fin y => Fin (x * y)
  | Fin x, PInf | PInf, Fin x => inf_of_sign (Rsgn x)
  | Fin x, NInf | NInf, Fin x => inf_of_sign (sgn_mul (Rsgn x) Lt)
  | PInf, PInf | NInf, NInf => PInf
  | PInf, NInf | NInf, PInf => NInf
  end.

(** True division of [np.float64]: a zero divisor gives an infinity or
    NaN (with a RuntimeWarning), never an exception. *)
Definition div (a b : t) : t :=
  match a, b with
  | NaN, _ | _, NaN => NaN
  | Fin x, Fin y =>
      if Reqb y 0 then inf_of_sign (Rsgn x) else Fin (x / y)
  | Fin _, _ => Fin 0
  | PInf, Fin y => if Rltb y 0 then NInf else PInf
  | NInf, Fin y => if Rltb y 0 then PInf else NInf
  | _, _ => NaN
  end.

Definition abs (a : t) : t :=
  match a with
  | Fin x => Fin (Rabs x)
  | PInf | NInf => PInf
  | NaN => NaN
  end.

Definition sqrt (a : t) : t :=
  match a with
  | Fin x => if Rltb x 0 then NaN else Fin (R_sqrt.sqrt x)
  | PInf => PInf
  | NInf | NaN => NaN
  end.

(** [a < b]; false as soon as one side is NaN. *)
Definition ltb (a b : t) : bool :=
  match a, b with
  | NaN, _ | _, NaN => false
  | Fin x, Fin y => Rltb x y
  | NInf, NInf | PInf, _ | _, NInf => false
  | _, _ => true
  end.

(** [a > b] *)
Definition gtb (a b : t) : bool := ltb b a.

(** [bool(a)]: only zero is falsy; NaN and the infinities are truthy. *)
Definition truthy (a : t) : bool :=
  match a with
  | Fin x => negb (Reqb x 0)
  | _ => true
  end.

Definition of_nat (n : nat) : t := Fin (INR n).
Definition of_Z (z : Z) : t := Fin (IZR z).

Definition zero : t := Fin 0.

End PyFloat.

Definition pyfloat : Type := PyFloat.t.

(** ** Exceptions *)

Inductive exn : Type :=
| ValueError
| TypeError
| AttributeError
| JSONDecodeError
| StoreError
| OverflowError.

Inductive result (A : Type) : Type :=
| Ok (a : A)
| Raise (e : exn).

Arguments Ok {A} a.
Arguments Raise {A} e.

(** ** Tables ([app/models/__init__.py]) *)

Definition datetime := Z.

(** Microseconds in [timedelta(hours=h)]. *)
Definition timedelta_hours (h : Z) : Z := (h * 3600 * 1000000)%Z.

(** [timedelta.total_seconds()] *)
Definition total_seconds (td : Z) : pyfloat :=
  PyFloat.Fin (IZR td / 1000000).

Module Equipment.
Record t : Type := mk {
  id : Z;
  equipment_id : string;
  name : string;
  type : string;
  protocol : string;
  is_active : bool;
  is_connected : bool;
  last_heartbeat : option datetime
}.

Definition set_seen (e : t) (now : datetime) : t :=
  mk (id e) (equipment_id e) (name e) (type e) (protocol e) (is_active e)
     true (Some now).
End Equipment.

Module Sensor.
Record t : Type := mk {
  id : Z;
  sensor_id : string;
  equipment_id : Z;
  type : string;
  unit : option string;
  min_value : option pyfloat;
  max_value : option pyfloat;
  warning_threshold : option pyfloat;
  critical_threshold : option pyfloat;
  is_active : bool
}.
End Sensor.

Module SensorData.
Record t : Type := mk {
  equipment_id : Z;
  sensor_id : Z;
  value : pyfloat;
  quality : string;
  timestamp : datetime;
  source_protocol : string
}.

Arguments mk equipment_id%_Z sensor_id%_Z value quality%_string timestamp%_Z
  source_protocol%_string.
End SensorData.

(** The database: three tables. *)
Record DB : Type := mkDB {
  equipment : list Equipment.t;
  sensors : list Sensor.t;
  sensor_data : list SensorData.t
}.

(** A reading with an equipment row and a sensor row.  A [Point] stands
    for a row of the join [db.query(SensorData).join(Equipment).join(Sensor)],
    where the sensor is the joined row of [sensors] (the columns
    [Sensor.type] of a filter or of a GROUP BY), and for a [SensorData]
    entity as the ORM hands it out, where the sensor is [point.sensor], the
    row that the foreign key [sensor_id] points to. *)
Record Point : Type := mkPoint {
  data : SensorData.t;
  p_equipment : Equipment.t;
  p_sensor : Sensor.t
}.

Definition find_equipment_by_pk (db : DB) (pk : Z) : option Equipment.t :=
  find (fun e => Z.eqb (Equipment.id e) pk) (equipment db).

Definition find_sensor_by_pk (db : DB) (pk : Z) : option Sensor.t :=
  find (fun s => Z.eqb (Sensor.id s) pk) (sensors db).

(** A [SensorData] entity with its relationship objects [point.equipment]
    and [point.sensor].  Both foreign keys of [sensor_data] are enforced by
    the database, so the two rows exist for every stored reading; a reading
    without them cannot be in the table, and is left out here. *)
Definition load_entity (db : DB) (d : SensorData.t) : option Point :=
  match find_equipment_by_pk db (SensorData.equipment_id d),
        find_sensor_by_pk db (SensorData.sensor_id d) with
  | Some e, Some s => Some (mkPoint d e s)
  | _, _ => None
  end.

(** The rows of [sensors] that belong to an equipment. *)
Definition sensors_of (db : DB) (e : Equipment.t) : list Sensor.t :=
  filter (fun s => Z.eqb (Sensor.equipment_id s) (Equipment.id e)) (sensors db).

(** [db.query(SensorData).join(Equipment).join(Sensor)].  Neither join
    is given an ON clause.  SQLAlchemy joins [equipment] on the foreign key
    [sensor_data.equipment_id = equipment.id], and then joins [sensors] to
    the table joined last, on [sensors.equipment_id = equipment.id].  A
    reading therefore comes once for every sensor of its equipment, whichever
    sensor took it, and not at all when its equipment has no sensor.  Each
    row carries the position of its reading in the table, which stands for
    the identity of the [SensorData] entity. *)
Definition join_reading (db : DB) (i : nat) (d : SensorData.t)
  : list (nat * Point) :=
  match find_equipment_by_pk db (SensorData.equipment_id d) with
  | Some e => map (fun s => (i, mkPoint d e s)) (sensors_of db e)
  | None => []
  end.

Fixpoint join_from (db : DB) (i : nat) (ds : list SensorData.t)
  : list (nat * Point) :=
  match ds with
  | [] => []
  | d :: ds' => join_reading db i d ++ join_from db (S i) ds'
  end.

Definition joined_entities (db : DB) : list (nat * Point) :=
  join_from db 0 (sensor_data db).

(** The rows of the join, for the queries that select columns. *)
Definition joined (db : DB) : list Point := map snd (joined_entities db).

(** The first row of every entity, in the order of the rows. *)
Fixpoint unique_entities (seen : list nat) (rows : list (nat * Point))
  : list (nat * Point) :=
  match rows with
  | [] => []
  | r :: rows' =>
      if existsb (Nat.eqb (fst r)) seen then unique_entities seen rows'
      else r :: unique_entities (fst r :: seen) rows'
  end.

(** [Query.all()] for a query of [SensorData] entities: the ORM returns
    every entity once, however many rows of the join it has, at the place of
    its first row; the attributes [.equipment] and [.sensor] are then read
    through the relationships. *)
Definition all_entities (db : DB) (rows : list (nat * Point)) : list Point :=
  flat_map (fun r => match load_entity db (data (snd r)) with
                     | Some p => [p]
                     | None => []
                     end)
    (unique_entities [] rows).

Definition string_in (s : string) (l : list string) : bool :=
  existsb (String.eqb s) l.

(** [if ids: query = query.filter(column.in_(ids))]: [None] and the empty
    list are both falsy and leave the query unfiltered. *)
Definition filter_in {A : Type} (ids : option (list string))
  (col : A -> string) (rows : list A) : list A :=
  match ids with
  | None | Some [] => rows
  | Some l => filter (fun r => string_in (col r) l) rows
  end.

Definition p_value (p : Point) : pyfloat := SensorData.value (data p).
Definition p_equipment_id (p : Point) : string :=
  Equipment.equipment_id (p_equipment p).
Definition p_sensor_type (p : Point) : string := Sensor.type (p_sensor p).
Definition p_timestamp (p : Point) : datetime := SensorData.timestamp (data p).

(** ** Anomaly detection ([detect_anomalies], data.py) *)

Record AnomalyDetectionRequest : Type := mkAnomalyDetectionRequest {
  equipment_ids : option (list string);
  sensor_types : option (list string);
  lookback_hours : Z;
  threshold_multiplier : pyfloat
}.

(** One entry of the [anomalies] list (a dict with fixed keys). *)
Record Anomaly : Type := mkAnomaly {
  a_equipment_id : string;
  a_sensor_type : string;
  a_value : pyfloat;
  a_expected_range : pyfloat * pyfloat;
  a_deviation : pyfloat;
  a_timestamp : datetime;
  a_severity : string
}.

(** The values of a response dict. *)
Inductive field : Type :=
| FStr (s : string)
| FInt (n : Z)
| FFloat (x : pyfloat)
| FPeriod (start_time end_time : datetime) (hours : Z)
| FAnomalies (l : list Anomaly).

Arguments FPeriod start_time%_Z end_time%_Z hours%_Z.

Definition response : Type := list (string * field).

Fixpoint dict_get {V : Type} (key : string) (d : list (string * V)) : option V :=
  match d with
  | [] => None
  | (k, v) :: d' => if String.eqb k key then Some v else dict_get key d'
  end.

Definition np_sum (values : list pyfloat) : pyfloat :=
  fold_left PyFloat.add values PyFloat.zero.

(** [np.mean]: the sum divided by the number of items. *)
Definition np_mean (values : list pyfloat) : pyfloat :=
  PyFloat.div (np_sum values) (PyFloat.of_nat (List.length values)).

(** [np.std] with its default [ddof=0]: the population standard deviation,
    the square root of the mean of the squared deviations. *)
Definition np_std (values : list pyfloat) : pyfloat :=
  let arrmean := np_mean values in
  let x := map (fun v => PyFloat.sub v arrmean) values in
  PyFloat.sqrt (np_mean (map (fun d => PyFloat.mul d d) x)).

(** [key = f"{point.equipment.equipment_id}_{point.sensor.type}"] *)
Definition group_key (p : Point) : string :=
  (p_equipment_id p ++ "_" ++ p_sensor_type p)%string.

(** [grouped_data[key].append(point)], creating the entry at the end of the
    dict when the key is new. *)
Fixpoint dict_append (key : string) (p : Point)
  (d : list (string * list Point)) : list (string * list Point) :=
  match d with
  | [] => [(key, [p])]
  | (k, ps) :: d' =>
      if String.eqb k key then (k, ps ++ [p]) :: d'
      else (k, ps) :: dict_append key p d'
  end.

Definition group_points (data_points : list Point) : list (string * list Point) :=
  fold_left (fun g p => dict_append (group_key p) p g) data_points [].

(** The state of the scan: the [anomalies] list built so far, and a ghost
    counter of how many times the division [abs(point.value - mean_val) /
    std_val] of line 270 has been evaluated. *)
Definition scan_state : Type := (list Anomaly * nat)%type.

(** Body of [for point in points] (lines 263-273). *)
Definition check_point (mean_val std_val threshold : pyfloat)
  (st : scan_state) (point : Point) : scan_state :=
  let dist := PyFloat.abs (PyFloat.sub (p_value point) mean_val) in
  if PyFloat.gtb dist threshold then
    (fst st ++
       [mkAnomaly (p_equipment_id point) (p_sensor_type point) (p_value point)
          (PyFloat.sub mean_val threshold, PyFloat.add mean_val threshold)
          (PyFloat.div dist std_val)
          (p_timestamp point)
          (if PyFloat.gtb dist (PyFloat.mul (PyFloat.of_Z 3) std_val)
           then "HIGH" else "MEDIUM")%string],
     S (snd st))
  else st.

(** Body of [for key, points in grouped_data.items()] (lines 253-273). *)
Definition analyze_group (multiplier : pyfloat) (st : scan_state)
  (points : list Point) : scan_state :=
  if (List.length points <? 5)%nat then st
  else
    let values := map p_value points in
    let mean_val := np_mean values in
    let std_val := np_std values in
    let threshold := PyFloat.mul multiplier std_val in
    fold_left (check_point mean_val std_val threshold) points st.

Definition scan_groups (multiplier : pyfloat)
  (grouped_data : list (string * list Point)) : scan_state :=
  fold_left (fun st kv => analyze_group multiplier st (snd kv)) grouped_data
    ([], O).

(** [anomalies.sort(key=lambda x: x["deviation"], reverse=True)]: a stable
    sort by decreasing deviation. Each item goes behind the items whose
    deviation is not smaller than its own. *)
Fixpoint insert_desc (a : Anomaly) (l : list Anomaly) : list Anomaly :=
  match l with
  | [] => [a]
  | b :: l' =>
      if PyFloat.ltb (a_deviation b) (a_deviation a) then a :: b :: l'
      else b :: insert_desc a l'
  end.

Definition sort_by_deviation (l : list Anomaly) : list Anomaly :=
  fold_left (fun acc a => insert_desc a acc) l [].

(** The range of [datetime]: 0001-01-01T00:00:00 to
    9999-12-31T23:59:59.999999, in microseconds since 1970. *)
Definition datetime_min : datetime := (-62135596800000000)%Z.
Definition datetime_max : datetime := 253402300799999999%Z.

(** [timedelta(hours=h)]: OverflowError beyond 999999999 days. *)
Definition timedelta_of_hours (h : Z) : result Z :=
  let td := timedelta_hours h in
  if ((-999999999 * 86400000000 <=? td) && (td <? 1000000000 * 86400000000))%Z
  then Ok td else Raise OverflowError.

(** [t - td] on a datetime: OverflowError outside the range of [datetime]. *)
Definition datetime_sub (t : datetime) (td : Z) : result datetime :=
  let r := (t - td)%Z in
  if ((datetime_min <=? r) && (r <=? datetime_max))%Z
  then Ok r else Raise OverflowError.

(** [start_time = end_time - timedelta(hours=request.lookback_hours)]
    (line 222); [lookback_hours] is any integer, the request model does not
    bound it. *)
Definition window_start (end_time : datetime) (lookback_hours : Z)
  : result datetime :=
  match timedelta_of_hours lookback_hours with
  | Ok td => datetime_sub end_time td
  | Raise e => Raise e
  end.

(** The data points of the request (lines 224-235): the entities of the
    rows of the join that pass the filters.  The filter on [Sensor.type]
    reads the joined sensor row. *)
Definition anomaly_query (request : AnomalyDetectionRequest)
  (start_time : datetime) (db : DB) : list Point :=
  let q := filter (fun r => (start_time <=? p_timestamp (snd r))%Z)
             (joined_entities db) in
  let q := filter_in (equipment_ids request)
             (fun r => p_equipment_id (snd r)) q in
  let q := filter_in (sensor_types request)
             (fun r => p_sensor_type (snd r)) q in
  all_entities db q.

Definition insufficient_data : response :=
  [("message", FStr "Insufficient data for anomaly detection");
   ("anomalies", FAnomalies [])]%string.

Definition detect_anomalies (request : AnomalyDetectionRequest)
  (now : datetime) (db : DB) : result response :=
  let end_time := now in
  match window_start end_time (lookback_hours request) with
  | Raise e => Raise e
  | Ok start_time =>
      let data_points := anomaly_query request start_time db in
      if (List.length data_points <? 10)%nat then Ok insufficient_data
      else
        let grouped_data := group_points data_points in
        let anomalies :=
          fst (scan_groups (threshold_multiplier request) grouped_data) in
        let anomalies := sort_by_deviation anomalies in
        Ok [("analysis_period",
             FPeriod start_time end_time (lookback_hours request));
            ("threshold_multiplier", FFloat (threshold_multiplier request));
            ("total_points_analyzed",
             FInt (Z.of_nat (List.length data_points)));
            ("anomalies_detected", FInt (Z.of_nat (List.length anomalies)));
            ("anomalies", FAnomalies (firstn 50 anomalies))]%string
  end.

Arguments anomaly_query request start_time%_Z db.
Arguments detect_anomalies request now%_Z db.

(** ** Real-time status ([get_realtime_data], monitoring.py) *)

(** [threshold and value > threshold]: a threshold that is [None] or zero is
    falsy and short-circuits the comparison. *)
Definition exceeds (value : pyfloat) (threshold : option pyfloat) : bool :=
  match threshold with
  | None => false
  | Some c => PyFloat.truthy c && PyFloat.gtb value c
  end.

(** Lines 90-96: the status of one latest reading. *)
Definition realtime_status (sensor : Sensor.t) (value : pyfloat) : string :=
  if exceeds value (Sensor.critical_threshold sensor) then "CRITICAL"
  else if exceeds value (Sensor.warning_threshold sensor) then "WARNING"
  else "NORMAL".

Record RealtimeEntry : Type := mkRealtimeEntry {
  r_equipment_id : string;
  r_equipment_name : string;
  r_sensor_id : string;
  r_sensor_type : string;
  r_value : pyfloat;
  r_unit : option string;
  r_timestamp : datetime;
  r_quality : string;
  r_status : string;
  r_thresholds_warning : option pyfloat;
  r_thresholds_critical : option pyfloat
}.

(** [func.max(SensorData.timestamp)] grouped by [sensor_id]. *)
Definition max_timestamp (sensor_pk : Z) (rows : list SensorData.t)
  : option datetime :=
  fold_left
    (fun acc d =>
       if Z.eqb (SensorData.sensor_id d) sensor_pk then
         match acc with
         | None => Some (SensorData.timestamp d)
         | Some m => Some (Z.max m (SensorData.timestamp d))
         end
       else acc)
    rows None.

Definition is_latest (db : DB) (p : Point) : bool :=
  match max_timestamp (SensorData.sensor_id (data p)) (sensor_data db) with
  | Some m => Z.eqb (p_timestamp p) m
  | None => false
  end.

(** Lines 71-85: the rows of the join whose reading is a latest one of its
    sensor, the filter on the equipment, [limit] on the rows, and the
    entities of the rows that are left. *)
Definition latest_rows (ids : option (list string)) (db : DB)
  : list (nat * Point) :=
  filter_in ids (fun r => p_equipment_id (snd r))
    (filter (fun r => is_latest db (snd r)) (joined_entities db)).

Definition latest_readings (ids : option (list string)) (limit : nat)
  (db : DB) : list Point :=
  all_entities db (firstn limit (latest_rows ids db)).

Definition realtime_entry (reading : Point) : RealtimeEntry :=
  let sensor := p_sensor reading in
  mkRealtimeEntry
    (p_equipment_id reading)
    (Equipment.name (p_equipment reading))
    (Sensor.sensor_id sensor)
    (Sensor.type sensor)
    (p_value reading)
    (Sensor.unit sensor)
    (p_timestamp reading)
    (SensorData.quality (data reading))
    (realtime_status sensor (p_value reading))
    (Sensor.warning_threshold sensor)
    (Sensor.critical_threshold sensor).

(** The ["data"] list of the response. *)
Definition get_realtime_data (ids : option (list string)) (limit : nat)
  (db : DB) : list RealtimeEntry :=
  map realtime_entry (latest_readings ids limit db).

(** ** Equipment health ([get_equipment_health], monitoring.py) *)

(** Lines 186-189. *)
Definition time_since_heartbeat (e : Equipment.t) (now : datetime)
  : option pyfloat :=
  match Equipment.last_heartbeat e with
  | Some hb => Some (total_seconds (now - hb)%Z)
  | None => None
  end.

(** [time_since_heartbeat and time_since_heartbeat < 300] *)
Definition heartbeat_fresh (t : option pyfloat) : bool :=
  match t with
  | None => false
  | Some s => PyFloat.truthy s && PyFloat.ltb s (PyFloat.of_Z 300)
  end.

(** Lines 191-199. *)
Definition health_status (e : Equipment.t) (now : datetime) : string :=
  if Equipment.is_connected e then
    if heartbeat_fresh (time_since_heartbeat e now) then "HEALTHY"
    else "DEGRADED"
  else "OFFLINE".

Arguments health_status e now%_Z.

(** The equipment id and health status of every entry of the response
    (the data-quality keys of the entries are not part of this model). *)
Definition get_equipment_health (now : datetime) (db : DB)
  : list (string * string) :=
  map (fun e => (Equipment.equipment_id e, health_status e now))
    (filter Equipment.is_active (equipment db)).

(** ** Query and aggregation ([query_sensor_data], data.py) *)

Module DataQuery.
Record t : Type := mk {
  equipment_ids : option (list string);
  sensor_types : option (list string);
  start_time : option datetime;
  end_time : option datetime;
  aggregation : option string;
  interval : string
}.
End DataQuery.

(** [s.replace(c, by)] for a one-character pattern. *)
Fixpoint str_replace (c : ascii) (by_ : string) (s : string) : string :=
  match s with
  | EmptyString => EmptyString
  | String a s' =>
      if Ascii.eqb a c then (by_ ++ str_replace c by_ s')%string
      else String a (str_replace c by_ s')
  end.

(** The first argument given to [date_trunc] (line 91). *)
Definition trunc_unit (interval : string) : string :=
  str_replace "d" " day"
    (str_replace "m" " minute" (str_replace "h" " hour" interval)).

(** Lines 47-60: the rows of the join that pass the filters.  The filter
    on [Sensor.type] reads the joined sensor row. *)
Definition base_rows (query : DataQuery.t) (db : DB) : list (nat * Point) :=
  let q := joined_entities db in
  let q := filter_in (DataQuery.equipment_ids query)
             (fun r => p_equipment_id (snd r)) q in
  let q := filter_in (DataQuery.sensor_types query)
             (fun r => p_sensor_type (snd r)) q in
  let q := match DataQuery.start_time query with
           | Some t => filter (fun r => (t <=? p_timestamp (snd r))%Z) q
           | None => q
           end in
  match DataQuery.end_time query with
  | Some t => filter (fun r => (p_timestamp (snd r) <=? t)%Z) q
  | None => q
  end.

(** The same rows without the identity of their entities, for the
    aggregation, which selects columns. *)
Definition base_query (query : DataQuery.t) (db : DB) : list Point :=
  map snd (base_rows query db).

(** The total order PostgreSQL puts on [double precision]: NaN is greater
    than every other value. *)
Definition pg_ltb (a b : pyfloat) : bool :=
  match a, b with
  | PyFloat.NaN, _ => false
  | _, PyFloat.NaN => true
  | _, _ => PyFloat.ltb a b
  end.

Definition pg_min (a b : pyfloat) : pyfloat := if pg_ltb b a then b else a.
Definition pg_max (a b : pyfloat) : pyfloat := if pg_ltb a b then b else a.

(** SQL aggregates over the values of one group; [None] is SQL NULL, the
    result over no rows. *)
Definition sql_avg (values : list pyfloat) : option pyfloat :=
  match values with
  | [] => None
  | _ => Some (PyFloat.div (fold_left PyFloat.add values PyFloat.zero)
                 (PyFloat.of_nat (List.length values)))
  end.

Definition sql_min (values : list pyfloat) : option pyfloat :=
  match values with
  | [] => None
  | v :: vs => Some (fold_left pg_min vs v)
  end.

Definition sql_max (values : list pyfloat) : option pyfloat :=
  match values with
  | [] => None
  | v :: vs => Some (fold_left pg_max vs v)
  end.

Definition sql_count (values : list pyfloat) : option pyfloat :=
  Some (PyFloat.of_nat (List.length values)).

(** Lines 83-88: the dict of aggregate functions, with [avg] as the default
    of [.get]. *)
Definition agg_func (aggregation : option string)
  : list pyfloat -> option pyfloat :=
  match aggregation with
  | None => sql_avg
  | Some a =>
      if String.eqb a "avg" then sql_avg
      else if String.eqb a "min" then sql_min
      else if String.eqb a "max" then sql_max
      else if String.eqb a "count" then sql_count
      else sql_avg
  end.

Definition agg_key : Type := (string * string * datetime)%type.

Definition agg_key_eqb (k1 k2 : agg_key) : bool :=
  match k1, k2 with
  | (e1, t1, b1), (e2, t2, b2) =>
      String.eqb e1 e2 && String.eqb t1 t2 && Z.eqb b1 b2
  end.

(** GROUP BY: the rows of each key, keys in order of first appearance. *)
Fixpoint group_add (k : agg_key) (p : Point)
  (g : list (agg_key * list Point)) : list (agg_key * list Point) :=
  match g with
  | [] => [(k, [p])]
  | (k', ps) :: g' =>
      if agg_key_eqb k' k then (k', ps ++ [p]) :: g'
      else (k', ps) :: group_add k p g'
  end.

Record AggRow : Type := mkAggRow {
  g_equipment_id : string;
  g_sensor_type : string;
  g_time_bucket : datetime;
  g_value : pyfloat
}.

(** ORDER BY time_bucket DESC, as a stable sort. *)
Fixpoint insert_bucket_desc {A : Type} (key : A -> datetime) (a : A)
  (l : list A) : list A :=
  match l with
  | [] => [a]
  | b :: l' =>
      if (key b <? key a)%Z then a :: b :: l'
      else b :: insert_bucket_desc key a l'
  end.

Definition order_by_desc {A : Type} (key : A -> datetime) (l : list A) : list A :=
  fold_left (fun acc a => insert_bucket_desc key a acc) l [].

(** [float(result.aggregated_value)]; [float(None)] raises. *)
Definition agg_row (aggregation : option string)
  (kv : agg_key * list Point) : result AggRow :=
  match kv with
  | ((e, t, b), ps) =>
      match agg_func aggregation (map p_value ps) with
      | Some v => Ok (mkAggRow e t b v)
      | None => Raise TypeError
      end
  end.

Fixpoint collect {A B : Type} (f : A -> result B) (l : list A) : result (list B) :=
  match l with
  | [] => Ok []
  | a :: l' =>
      match f a with
      | Raise e => Raise e
      | Ok b =>
          match collect f l' with
          | Raise e => Raise e
          | Ok bs => Ok (b :: bs)
          end
      end
  end.

Section Aggregation.

(** PostgreSQL's [date_trunc(unit, timestamp)] on the units it accepts.
    It accepts the name of a field (['hour'], ['week'], ...) and rejects
    every other text, ['1 hour'] for instance, which is what the default
    interval ["1h"] becomes in line 91; the query then fails in the
    database.  That failure is not part of this model: the definitions
    below tell what the endpoint returns when [date_trunc] returns. *)
Variable date_trunc : string -> datetime -> datetime.

Definition time_group (query : DataQuery.t) (p : Point) : datetime :=
  date_trunc (trunc_unit (DataQuery.interval query)) (p_timestamp p).

Definition group_rows (query : DataQuery.t) (rows : list Point)
  : list (agg_key * list Point) :=
  fold_left
    (fun g p =>
       group_add (p_equipment_id p, p_sensor_type p, time_group query p) p g)
    rows [].

(** Lines 81-117: the branch taken when [query.aggregation] is not
    ["raw"]; the result is the ["data"] list of the response, or the
    exception that [float(None)] raises. *)
Definition query_aggregated (query : DataQuery.t) (skip limit : nat)
  (db : DB) : result (list AggRow) :=
  let groups := group_rows query (base_query query db) in
  let results :=
    firstn limit
      (skipn skip (order_by_desc (fun kv => snd (fst kv)) groups)) in
  collect (agg_row (DataQuery.aggregation query)) results.

End Aggregation.

(** ** Ingestion ([mqtt/client.py], [opc_ua/client.py]) *)

(** A decoded value as Python sees it: a JSON value of the MQTT payload, or
    the variant value an OPC UA server sends.  [VOther repr] is any other
    object, with its [str()]. *)
Inductive pyval : Type :=
| VNone
| VBool (b : bool)
| VInt (n : Z)
| VFloat (x : pyfloat)
| VStr (s : string)
| VOther (repr : string).

(** What the loggers receive. *)
Inductive log_record : Type :=
| WarnEquipmentNotFound (equipment_id : string)
| WarnSensorNotFound (equipment_id sensor_type : string)
| WarnCannotConvert (value : pyval)
| DebugStored (equipment_id sensor_type : string) (value : pyfloat)
| ErrorStoring (e : exn)
| ErrorHandling (e : exn).

(** The effect of one call on the database: the states made visible by
    each successful [db.commit()], oldest first, and the log. *)
Record outcome : Type := mkOutcome {
  committed : list DB;
  log : list log_record
}.

Definition final_db (db : DB) (o : outcome) : DB := last (committed o) db.

Definition lookup_equipment (db : DB) (equipment_id : string)
  : option Equipment.t :=
  find (fun e => String.eqb (Equipment.equipment_id e) equipment_id)
    (equipment db).

Definition lookup_sensor (db : DB) (e : Equipment.t) (sensor_type : string)
  : option Sensor.t :=
  find (fun s => Z.eqb (Sensor.equipment_id s) (Equipment.id e)
                 && String.eqb (Sensor.type s) sensor_type)
    (sensors db).

Definition add_sensor_data (db : DB) (d : SensorData.t) : DB :=
  mkDB (equipment db) (sensors db) (sensor_data db ++ [d]).

(** The UPDATE flushed for the loaded [equipment] row. *)
Definition update_heartbeat (db : DB) (e : Equipment.t) (now : datetime) : DB :=
  mkDB
    (map (fun x => if Z.eqb (Equipment.id x) (Equipment.id e)
                   then Equipment.set_seen x now else x)
       (equipment db))
    (sensors db) (sensor_data db).

(** [_store_sensor_data], the same in both services.  [now] is the
    [datetime.utcnow()] of line 145; [commit1] and [commit2] tell whether the
    first and the second [db.commit()] succeed (a failing commit raises, the
    session is rolled back and the error is logged). *)
Definition store_sensor_data (db : DB) (now : datetime)
  (commit1 commit2 : bool)
  (equipment_id sensor_type : string) (value : pyfloat)
  (timestamp : datetime) (quality source_protocol : string) : outcome :=
  match lookup_equipment db equipment_id with
  | None => mkOutcome [] [WarnEquipmentNotFound equipment_id]
  | Some equipment =>
      match lookup_sensor db equipment sensor_type with
      | None => mkOutcome [] [WarnSensorNotFound equipment_id sensor_type]
      | Some sensor =>
          let sensor_data :=
            SensorData.mk (Equipment.id equipment) (Sensor.id sensor) value
              quality timestamp source_protocol in
          if commit1 then
            let db1 := add_sensor_data db sensor_data in
            if commit2 then
              mkOutcome [db1; update_heartbeat db1 equipment now]
                [DebugStored equipment_id sensor_type value]
            else mkOutcome [db1] [ErrorStoring StoreError]
          else mkOutcome [] [ErrorStoring StoreError]
      end
  end.

Arguments store_sensor_data db now%_Z commit1 commit2 equipment_id%_string
  sensor_type%_string value timestamp%_Z quality%_string
  source_protocol%_string.

(** [s.split(c)] *)
Fixpoint split_on (c : ascii) (s : string) : list string :=
  match s with
  | EmptyString => [EmptyString]
  | String a s' =>
      if Ascii.eqb a c then EmptyString :: split_on c s'
      else
        match split_on c s' with
        | [] => [String a EmptyString]
        | w :: ws => String a w :: ws
        end
  end.

(** The payload after [json.loads(message.payload.decode())]: not JSON at
    all, a JSON object, or some other JSON value.  In an object, the keys
    read by the handler are kept; ["timestamp"] and ["quality"], when
    present, are taken to be strings. *)
Record mqtt_object : Type := mkObject {
  o_value : option pyval;
  o_timestamp : option string;
  o_quality : option string
}.

Inductive mqtt_payload : Type :=
| NotJson
| JsonObject (o : mqtt_object)
| JsonOther.

Record mqtt_message : Type := mkMessage {
  topic : string;
  payload : mqtt_payload
}.

(** [float(n)] on an [int] raises OverflowError when [n], rounded to 53
    bits, does not fit binary64: from [2^1024 - 2^970] on, in magnitude. *)
Definition float_overflow (n : Z) : bool :=
  (2 ^ 1024 - 2 ^ 970 <=? Z.abs n)%Z.

Section Ingestion.

(** [float(s)] on a [str]: [None] when it raises ValueError. *)
Variable float_of_str : string -> option pyfloat.

(** [datetime.fromisoformat(s)]: [None] when it raises ValueError. *)
Variable fromisoformat : string -> option datetime.

(** [float(value)].  An [int] too large for a float raises OverflowError. *)
Definition py_float (value : pyval) : result pyfloat :=
  match value with
  | VNone => Raise TypeError
  | VBool b => Ok (PyFloat.Fin (if b then 1 else 0))
  | VInt n => if float_overflow n then Raise OverflowError
              else Ok (PyFloat.of_Z n)
  | VFloat x => Ok x
  | VStr s =>
      match float_of_str s with
      | Some x => Ok x
      | None => Raise ValueError
      end
  | VOther _ => Raise TypeError
  end.

(** [MQTTService._handle_message].  [recv] is the [datetime.utcnow()] that
    stands in for a missing timestamp, [now] the one of the heartbeat. *)
Definition handle_message (db : DB) (recv now : datetime)
  (commit1 commit2 : bool) (message : mqtt_message) : outcome :=
  match split_on "/" (topic message) with
  | _ :: equipment_id :: sensor_type :: _ =>
      match payload message with
      | NotJson => mkOutcome [] [ErrorHandling JSONDecodeError]
      | JsonOther => mkOutcome [] [ErrorHandling AttributeError]
      | JsonObject o =>
          let quality := match o_quality o with Some q => q | None => "GOOD"%string end in
          match o_value o with
          | None | Some VNone => mkOutcome [] []
          | Some value =>
              match py_float value with
              | Raise e => mkOutcome [] [ErrorHandling e]
              | Ok x =>
                  let timestamp :=
                    match o_timestamp o with
                    | None => Some recv
                    | Some s => fromisoformat (str_replace "Z" "+00:00" s)
                    end in
                  match timestamp with
                  | None => mkOutcome [] [ErrorHandling ValueError]
                  | Some ts =>
                      store_sensor_data db now commit1 commit2
                        equipment_id sensor_type x ts quality "MQTT"
                  end
              end
          end
      end
  | _ => mkOutcome [] []
  end.

(** Lines 152-161 of [OPCUAService._process_node_data]: [float(value)] for
    an int or a float, [float(str(value))] otherwise; [None] when that
    raises ValueError.  An integer of an OPC UA variant has at most 64 bits,
    so [float(value)] does not overflow on this path. *)
Definition numeric_value (value : pyval) : option pyfloat :=
  match value with
  | VBool b => Some (PyFloat.Fin (if b then 1 else 0))
  | VInt n => Some (PyFloat.of_Z n)
  | VFloat x => Some x
  | VStr s => float_of_str s
  | VNone => float_of_str "None"
  | VOther repr => float_of_str repr
  end.

(** [OPCUAService._process_node_data]; [monitored_nodes] maps a node id to
    its equipment id and sensor type. *)
Definition process_node_data (monitored_nodes : list (string * (string * string)))
  (db : DB) (now : datetime) (commit1 commit2 : bool)
  (node_id : string) (value : pyval) (timestamp : datetime) : outcome :=
  match dict_get node_id monitored_nodes with
  | None => mkOutcome [] []
  | Some (equipment_id, sensor_type) =>
      match numeric_value value with
      | None => mkOutcome [] [WarnCannotConvert value]
      | Some x =>
          store_sensor_data db now commit1 commit2
            equipment_id sensor_type x timestamp "GOOD" "OPC_UA"
      end
  end.

End Ingestion.

Arguments handle_message float_of_str fromisoformat db recv%_Z now%_Z
  commit1 commit2 message.
Arguments process_node_data float_of_str monitored_nodes db now%_Z
  commit1 commit2 node_id%_string value timestamp%_Z.

(** ** Sample rows, used to run the model on concrete inputs *)

Definition pump : Equipment.t :=
  Equipment.mk 1 "pump-1" "Feed pump" "pump" "MQTT" true false None.

Definition pump_temperature : Sensor.t :=
  Sensor.mk 1 "pump-1-temperature" 1 "temperature" (Some "C"%string)
    None None (Some (PyFloat.Fin 80)) (Some (PyFloat.Fin 95)) true.

Definition pump_pressure : Sensor.t :=
  Sensor.mk 2 "pump-1-pressure" 1 "pressure" (Some "bar"%string)
    None None None None true.

Definition pump_vibration : Sensor.t :=
  Sensor.mk 3 "pump-1-vibration" 1 "vibration" (Some "Hz"%string)
    None None None None true.

Definition reading_of (sensor_pk : Z) (quality : string) (ts : datetime)
  (x : R) : SensorData.t :=
  SensorData.mk 1 sensor_pk (PyFloat.Fin x) quality ts "MQTT".

Arguments reading_of sensor_pk%_Z quality%_string ts%_Z x%_R.

Definition temperature_point (ts : datetime) (x : R) : Point :=
  mkPoint (reading_of 1 "GOOD" ts x) pump pump_temperature.

Arguments temperature_point ts%_Z x%_R.

(** The values of the worked example of anomaly detection. *)
Definition example_values : list pyfloat :=
  map PyFloat.Fin [10; 10; 10; 10; 10; 100].

(** A database with ten readings in the last day: four of temperature,
    four of pressure, two of vibration. *)
Definition sample_now : datetime := 100000000000%Z.

Definition sample_db : DB :=
  mkDB [pump] [pump_temperature; pump_pressure; pump_vibration]
    [reading_of 1 "GOOD" 50000000001 20; reading_of 2 "GOOD" 50000000002 3;
     reading_of 1 "GOOD" 50000000003 21; reading_of 2 "GOOD" 50000000004 3;
     reading_of 1 "GOOD" 50000000005 500; reading_of 2 "GOOD" 50000000006 4;
     reading_of 1 "GOOD" 50000000007 22; reading_of 2 "GOOD" 50000000008 90;
     reading_of 3 "GOOD" 50000000009 1; reading_of 3 "GOOD" 50000000010 2].

(** The same database with only its first six readings. *)
Definition short_db : DB :=
  mkDB (equipment sample_db) (sensors sample_db)
    (firstn 6 (sensor_data sample_db)).

Definition default_request : AnomalyDetectionRequest :=
  mkAnomalyDetectionRequest None None 24 (PyFloat.Fin 2).

(** A threshold that is set, is not zero, and lies strictly below the value. *)
Definition breached (value : pyfloat) (threshold : option pyfloat) : Prop :=
  exists c, threshold = Some c /\ c <> PyFloat.Fin 0
            /\ PyFloat.gtb value c = true.

(** The anomaly of the worked example, when [p] is the reading of 100. *)
Definition example_anomaly (p : Point) : Anomaly :=
  mkAnomaly (p_equipment_id p) (p_sensor_type p) (PyFloat.Fin 100)
    (PyFloat.Fin (25 + - (2 * sqrt 1125)), PyFloat.Fin (25 + 2 * sqrt 1125))
    (PyFloat.div (PyFloat.Fin 75) (PyFloat.Fin (sqrt 1125)))
    (p_timestamp p) "MEDIUM".

(** The example group in a database, with four pressure readings beside
    it, and without them. *)
Definition example_db : DB :=
  mkDB [pump] [pump_temperature; pump_pressure]
    [reading_of 1 "GOOD" 50000000001 10; reading_of 2 "GOOD" 50000000002 3;
     reading_of 1 "GOOD" 50000000003 10; reading_of 2 "GOOD" 50000000004 3;
     reading_of 1 "GOOD" 50000000005 10; reading_of 2 "GOOD" 50000000006 4;
     reading_of 1 "GOOD" 50000000007 10; reading_of 2 "GOOD" 50000000008 90;
     reading_of 1 "GOOD" 50000000009 10; reading_of 1 "GOOD" 50000000010 100].

Definition example_short_db : DB :=
  mkDB [pump] [pump_temperature]
    [reading_of 1 "GOOD" 50000000001 10; reading_of 1 "GOOD" 50000000003 10;
     reading_of 1 "GOOD" 50000000005 10; reading_of 1 "GOOD" 50000000007 10;
     reading_of 1 "GOOD" 50000000009 10; reading_of 1 "GOOD" 50000000010 100].

(** A level sensor whose two thresholds are both 0.0 and whose lower bound
    is 2, with one reading of 1. *)
Definition tank_level : Sensor.t :=
  Sensor.mk 4 "tank-1-level" 1 "level" (Some "m"%string)
    (Some (PyFloat.Fin 2)) None (Some (PyFloat.Fin 0)) (Some (PyFloat.Fin 0))
    true.

Definition level_db : DB :=
  mkDB [pump] [tank_level] [reading_of 4 "GOOD" 50000000001 1].

Definition level_entry : RealtimeEntry :=
  realtime_entry (mkPoint (reading_of 4 "GOOD" 50000000001 1) pump tank_level).

(** A connected equipment whose last heartbeat is at [t]. *)
Definition connected_pump (t : datetime) : Equipment.t :=
  Equipment.mk 1 "pump-1" "Feed pump" "pump" "MQTT" true true (Some t).

Arguments connected_pump t%_Z.

(** ** Readings and their quality *)

Definition set_quality (q : string) (d : SensorData.t) : SensorData.t :=
  SensorData.mk (SensorData.equipment_id d) (SensorData.sensor_id d)
    (SensorData.value d) q (SensorData.timestamp d)
    (SensorData.source_protocol d).

(** The database with the quality of every reading [d] replaced by [f d]. *)
Definition requalify (f : SensorData.t -> string) (db : DB) : DB :=
  mkDB (equipment db) (sensors db)
    (map (fun d => set_quality (f d) d) (sensor_data db)).

Definition requalify_point (f : SensorData.t -> string) (p : Point) : Point :=
  mkPoint (set_quality (f (data p)) (data p)) (p_equipment p) (p_sensor p).

Definition requalify_group (f : SensorData.t -> string)
  (kv : agg_key * list Point) : agg_key * list Point :=
  (fst kv, map (requalify_point f) (snd kv)).

(** The database without its BAD and UNCERTAIN readings. *)
Definition good_only (db : DB) : DB :=
  mkDB (equipment db) (sensors db)
    (filter (fun d => String.eqb (SensorData.quality d) "GOOD")
       (sensor_data db)).

(** PostgreSQL's [date_trunc('week', t)]: the Monday, 00:00, of the week
    of [t].  Timestamps count microseconds from 1970-01-01, a Thursday, so
    the Monday before is three days earlier.  ['week'] is one of the few
    units that line 91 leaves as PostgreSQL accepts them (it holds none of
    the letters h, m and d); the stand-in is used at this unit only and
    leaves the timestamp as it is at any other. *)
Definition date_trunc_week (unit_ : string) (t : datetime) : datetime :=
  if String.eqb unit_ "week"
  then (t - (t + 3 * 86400000000) mod (7 * 86400000000))%Z
  else t.

(** Two temperature readings in the same week: 1.0 of quality GOOD and 3.0
    of quality BAD.  The pump has this one sensor. *)
Definition quality_db : DB :=
  mkDB [pump] [pump_temperature]
    [reading_of 1 "GOOD" 3600000001 1; reading_of 1 "BAD" 3600000002 3].

Definition avg_query : DataQuery.t :=
  DataQuery.mk None None None None (Some "avg"%string) "week".

(** The grouping key of a row of the join. *)
Definition key_of (date_trunc : string -> datetime -> datetime)
  (query : DataQuery.t) (p : Point) : agg_key :=
  (p_equipment_id p, p_sensor_type p, time_group date_trunc query p).

(** The rows of a key in the groups of a GROUP BY. *)
Fixpoint agg_get (k : agg_key) (g : list (agg_key * list Point))
  : option (list Point) :=
  match g with
  | [] => None
  | (k', ps) :: g' => if agg_key_eqb k' k then Some ps else agg_get k g'
  end.

(** ** Identity of an event, and sample events *)

(** The hints name an equipment row and one of its sensor rows. *)
Definition resolves (db : DB) (equipment_id sensor_type : string) : Prop :=
  exists e s,
    In e (equipment db) /\ Equipment.equipment_id e = equipment_id
    /\ In s (sensors db) /\ Sensor.equipment_id s = Equipment.id e
    /\ Sensor.type s = sensor_type.

(** The hints name an equipment row and one of its sensor rows, and both
    rows are active. *)
Definition resolves_active (db : DB) (equipment_id sensor_type : string)
  : Prop :=
  exists e s,
    In e (equipment db) /\ Equipment.equipment_id e = equipment_id
    /\ Equipment.is_active e = true
    /\ In s (sensors db) /\ Sensor.equipment_id s = Equipment.id e
    /\ Sensor.type s = sensor_type /\ Sensor.is_active s = true.

(** The reading that [_store_sensor_data] builds. *)
Definition new_reading (e : Equipment.t) (s : Sensor.t) (value : pyfloat)
  (timestamp : datetime) (quality source_protocol : string) : SensorData.t :=
  SensorData.mk (Equipment.id e) (Sensor.id s) value quality timestamp
    source_protocol.

(** Stand-ins for the two library parsers when the model is run: they
    know a few literals, on which they agree with Python, and reject every
    other string. *)
Definition known_floats (s : string) : option pyfloat :=
  if String.eqb s "nan" then Some PyFloat.NaN
  else if String.eqb s "inf" then Some PyFloat.PInf
  else if String.eqb s "-inf" then Some PyFloat.NInf
  else if String.eqb s "21.5" then Some (PyFloat.Fin (43 / 2))
  else None.

Definition known_datetimes (s : string) : option datetime :=
  if String.eqb s "1970-01-01T00:00:01+00:00" then Some 1000000%Z
  else None.

(** An active pump with its temperature sensor and no reading yet. *)
Definition live_db : DB := mkDB [pump] [pump_temperature] [].

(** A deactivated compressor with its deactivated temperature sensor. *)
Definition retired_compressor : Equipment.t :=
  Equipment.mk 7 "compressor-7" "Old compressor" "compressor" "MQTT"
    false false None.

Definition retired_temperature : Sensor.t :=
  Sensor.mk 70 "compressor-7-temperature" 7 "temperature" None
    None None None None false.

Definition retired_db : DB :=
  mkDB [retired_compressor] [retired_temperature] [].

Definition mqtt_event (topic_ : string) (value : pyval) : mqtt_message :=
  mkMessage topic_ (JsonObject (mkObject (Some value) None None)).

Definition monitored_nodes_sample : list (string * (string * string)) :=
  [("ns=2;i=7", ("pump-1", "temperature"))]%string.

(** ** More of the ingestion path *)

(** The timestamp [_handle_message] passes on: the receipt time when the
    payload has none, the parsed string otherwise ([None] when parsing
    raises). *)
Definition event_timestamp (fromisoformat : string -> option datetime)
  (recv : datetime) (o : mqtt_object) : option datetime :=
  match o_timestamp o with
  | None => Some recv
  | Some s => fromisoformat (str_replace "Z" "+00:00" s)
  end.

(** [payload.get('quality', 'GOOD')] *)
Definition event_quality (o : mqtt_object) : string :=
  match o_quality o with Some q => q | None => "GOOD" end.

(** ["/".join(parts)] *)
Fixpoint join_slash (parts : list string) : string :=
  match parts with
  | [] => EmptyString
  | [w] => w
  | w :: ws => (w ++ "/" ++ join_slash ws)%string
  end.

Fixpoint has_char (c : ascii) (s : string) : bool :=
  match s with
  | EmptyString => false
  | String a s' => Ascii.eqb a c || has_char c s'
  end.

(** A database state that extends [db] by at most one reading and keeps
    the sensor table and the identity of every equipment row. *)
Definition extends_store (db S : DB) : Prop :=
  (exists suffix, sensor_data S = sensor_data db ++ suffix
                  /\ (List.length suffix <= 1)%nat)
  /\ sensors S = sensors db
  /\ map Equipment.id (equipment S) = map Equipment.id (equipment db)
  /\ map Equipment.equipment_id (equipment S)
     = map Equipment.equipment_id (equipment db)
  /\ map Equipment.is_active (equipment S)
     = map Equipment.is_active (equipment db).

(** The topic of [publish_command]:
    [f"equipment/{equipment_id}/command/{command}"]. *)
Definition command_topic (equipment_id command : string) : string :=
  ("equipment/" ++ equipment_id ++ "/command/" ++ command)%string.

(** ** The MQTT service object ([MQTTService], mqtt/client.py) *)

(** [settings.MQTT_TOPICS] ([core/config.py]). *)
Definition MQTT_TOPICS : list string :=
  ["equipment/+/temperature"; "equipment/+/pressure";
   "equipment/+/vibration"; "equipment/+/status"]%string.

(** The attributes of the service that its methods read and write:
    whether [self.client] is set, [self.is_connected] and
    [self.subscribed_topics]. *)
Record mqtt_service : Type := mkService {
  has_client : bool;
  svc_is_connected : bool;
  subscribed_topics : list string
}.

(** [MQTTService.__init__] *)
Definition new_service : mqtt_service := mkService false false [].

(** [_subscribe_to_topics]: a topic is recorded when [client.subscribe]
    succeeds for it ([subscribe_ok]); a failure is logged and the loop goes
    on. *)
Definition subscribe_to_topics (subscribe_ok : string -> bool)
  (svc : mqtt_service) : mqtt_service :=
  fold_left
    (fun sv topic_ =>
       if subscribe_ok topic_ then
         mkService (has_client sv) (svc_is_connected sv)
           (subscribed_topics sv ++ [topic_])
       else sv)
    MQTT_TOPICS svc.

(** [connect]: the new state, and whether the call raised.  [broker_ok]
    tells whether entering the client context succeeds. *)
Definition connect (broker_ok : bool) (subscribe_ok : string -> bool)
  (svc : mqtt_service) : mqtt_service * bool :=
  if broker_ok then
    (subscribe_to_topics subscribe_ok
       (mkService true true (subscribed_topics svc)), false)
  else (mkService true false (subscribed_topics svc), true).

(** [disconnect]; [exit_ok] tells whether leaving the client context
    succeeds (a failure is logged, not raised). *)
Definition disconnect (exit_ok : bool) (svc : mqtt_service) : mqtt_service :=
  if has_client svc && svc_is_connected svc then
    if exit_ok then mkService (has_client svc) false (subscribed_topics svc)
    else svc
  else svc.

Inductive publish_result : Type :=
| Published (topic_ message : string)
| NotConnected
| PublishFailed.

(** [publish_command]; [message] is [json.dumps(payload)], [publish_ok]
    tells whether [client.publish] succeeds. *)
Definition publish_command (svc : mqtt_service) (publish_ok : bool)
  (equipment_id command message : string) : publish_result :=
  if negb (svc_is_connected svc) || negb (has_client svc) then NotConnected
  else if publish_ok then Published (command_topic equipment_id command) message
  else PublishFailed.

(** ** Monitoring set-up of the OPC UA service (opc_ua/client.py) *)

(** One entry of [connection_config['node_ids']]: its ['node_id'], when
    the key is there, and its ['sensor_type'], taken to be present. *)
Record node_config : Type := mkNodeConfig {
  nc_node_id : option string;
  nc_sensor_type : string
}.

(** [d[key] = v] *)
Fixpoint dict_set {V : Type} (key : string) (v : V) (d : list (string * V))
  : list (string * V) :=
  match d with
  | [] => [(key, v)]
  | (k, x) :: d' =>
      if String.eqb k key then (k, v) :: d' else (k, x) :: dict_set key v d'
  end.

(** The loop of [_monitor_equipment].  An entry without a node id, or
    with an empty one, is skipped.  [subscribe_ok] tells whether getting
    the node and subscribing to it succeed; a failure raises, is logged, and
    ends the loop for this equipment. *)
Fixpoint monitor_equipment (subscribe_ok : string -> bool)
  (equipment_id : string) (node_ids : list node_config)
  (monitored_nodes : list (string * (string * string)))
  : list (string * (string * string)) :=
  match node_ids with
  | [] => monitored_nodes
  | nc :: rest =>
      match nc_node_id nc with
      | None => monitor_equipment subscribe_ok equipment_id rest monitored_nodes
      | Some node_id =>
          if String.eqb node_id "" then
            monitor_equipment subscribe_ok equipment_id rest monitored_nodes
          else if subscribe_ok node_id then
            monitor_equipment subscribe_ok equipment_id rest
              (dict_set node_id (equipment_id, nc_sensor_type nc)
                 monitored_nodes)
          else monitored_nodes
      end
  end.

Definition is_opcua_active (e : Equipment.t) : bool :=
  String.eqb (Equipment.protocol e) "OPC_UA" && Equipment.is_active e.

(** [_setup_equipment_monitoring]; [connection_config] gives the node list
    stored with an equipment row, by primary key. *)
Definition setup_equipment_monitoring (subscribe_ok : string -> bool)
  (connection_config : Z -> list node_config) (db : DB)
  (monitored_nodes : list (string * (string * string)))
  : list (string * (string * string)) :=
  fold_left
    (fun m e =>
       monitor_equipment subscribe_ok (Equipment.equipment_id e)
         (connection_config (Equipment.id e)) m)
    (filter is_opcua_active (equipment db)) monitored_nodes.

(** An OPC UA compressor, active, with two configured nodes, beside the
    MQTT pump. *)
Definition opcua_compressor : Equipment.t :=
  Equipment.mk 2 "compressor-2" "Compressor" "compressor" "OPC_UA"
    true false None.

Definition plant_db : DB :=
  mkDB [pump; opcua_compressor] [pump_temperature] [].

Definition plant_config (pk : Z) : list node_config :=
  if Z.eqb pk 2 then
    [mkNodeConfig (Some "ns=2;s=Temperature"%string) "temperature";
     mkNodeConfig None "pressure"]
  else if Z.eqb pk 1 then
    [mkNodeConfig (Some "ns=2;s=PumpTemperature"%string) "temperature"]
  else [].

(** ** The raw branch of [query_sensor_data] (data.py, lines 63-79) *)

Record RawRow : Type := mkRawRow {
  w_equipment_id : string;
  w_sensor_type : string;
  w_value : pyfloat;
  w_timestamp : datetime;
  w_quality : string
}.

Definition raw_row (p : Point) : RawRow :=
  mkRawRow (p_equipment_id p) (p_sensor_type p) (p_value p) (p_timestamp p)
    (SensorData.quality (data p)).

(** The rows selected by
    [order_by(SensorData.timestamp.desc()).offset(skip).limit(limit)]. *)
Definition raw_page (query : DataQuery.t) (skip limit : nat) (db : DB)
  : list (nat * Point) :=
  firstn limit
    (skipn skip
       (order_by_desc (fun r => p_timestamp (snd r)) (base_rows query db))).

(** [.all()] on that page: offset and limit count rows of the join, and
    the entities of the rows of the page are returned once each. *)
Definition raw_points (query : DataQuery.t) (skip limit : nat) (db : DB)
  : list Point :=
  all_entities db (raw_page query skip limit db).

(** The ["data"] list of the raw response; ["count"] is its length. *)
Definition query_raw (query : DataQuery.t) (skip limit : nat) (db : DB)
  : list RawRow :=
  map raw_row (raw_points query skip limit db).

Inductive query_response : Type :=
| RawResponse (rows : list RawRow)
| AggregatedResponse (rows : list AggRow).

(** [query_sensor_data]: the raw branch when [query.aggregation == "raw"],
    the aggregation otherwise. *)
Definition query_sensor_data (date_trunc : string -> datetime -> datetime)
  (query : DataQuery.t) (skip limit : nat) (db : DB) : result query_response :=
  let is_raw := match DataQuery.aggregation query with
                | Some a => String.eqb a "raw"
                | None => false
                end in
  if is_raw then Ok (RawResponse (query_raw query skip limit db))
  else
    match query_aggregated date_trunc query skip limit db with
    | Ok rows => Ok (AggregatedResponse rows)
    | Raise e => Raise e
    end.

(** [a] may stand before [b] in an order by decreasing [key]. *)
Definition desc_by {A : Type} (key : A -> datetime) (a b : A) : Prop :=
  (key b <= key a)%Z.

(** The filters of a query, as a condition on one joined row. *)
Definition matches_query (query : DataQuery.t) (p : Point) : Prop :=
  (forall ids, DataQuery.equipment_ids query = Some ids -> ids <> [] ->
               In (p_equipment_id p) ids)
  /\ (forall types, DataQuery.sensor_types query = Some types -> types <> [] ->
                    In (p_sensor_type p) types)
  /\ (forall t, DataQuery.start_time query = Some t -> (t <= p_timestamp p)%Z)
  /\ (forall t, DataQuery.end_time query = Some t -> (p_timestamp p <= t)%Z).

(** A query for the raw readings of the pump since 50000000005. *)
Definition raw_query : DataQuery.t :=
  DataQuery.mk (Some ["pump-1"%string]) None (Some 50000000005%Z) None
    (Some "raw"%string) "1h".

(** The grouping key of a row of the aggregated response. *)
Definition row_key (r : AggRow) : agg_key :=
  (g_equipment_id r, g_sensor_type r, g_time_bucket r).

(** Two rows whose (equipment id, sensor type) pairs differ but whose
    grouping keys coincide. *)
Definition line_a : Equipment.t :=
  Equipment.mk 11 "line_a" "Line A" "line" "MQTT" true false None.

Definition line : Equipment.t :=
  Equipment.mk 12 "line" "Line" "line" "MQTT" true false None.

Definition line_a_temp : Sensor.t :=
  Sensor.mk 111 "s-111" 11 "temp" None None None None None true.

Definition line_a_temp' : Sensor.t :=
  Sensor.mk 121 "s-121" 12 "a_temp" None None None None None true.

Definition colliding_p : Point :=
  mkPoint (SensorData.mk 11 111 (PyFloat.Fin 1) "GOOD" 1 "MQTT")
    line_a line_a_temp.

Definition colliding_q : Point :=
  mkPoint (SensorData.mk 12 121 (PyFloat.Fin 900) "GOOD" 2 "MQTT")
    line line_a_temp'.

(** ** The anomaly test of one point, in closed form *)

(** The condition of line 264. *)
Definition is_flagged (mean_val threshold : pyfloat) (p : Point) : bool :=
  PyFloat.gtb (PyFloat.abs (PyFloat.sub (p_value p) mean_val)) threshold.

(** The dict of lines 265-273. *)
Definition anomaly_of (mean_val std_val threshold : pyfloat) (p : Point)
  : Anomaly :=
  let dist := PyFloat.abs (PyFloat.sub (p_value p) mean_val) in
  mkAnomaly (p_equipment_id p) (p_sensor_type p) (p_value p)
    (PyFloat.sub mean_val threshold, PyFloat.add mean_val threshold)
    (PyFloat.div dist std_val)
    (p_timestamp p)
    (if PyFloat.gtb dist (PyFloat.mul (PyFloat.of_Z 3) std_val)
     then "HIGH" else "MEDIUM")%string.

Definition Rsum (xs : list R) : R := fold_left Rplus xs 0.

(** [a] may stand before [b] in the ranking: the deviation of [a] is not
    smaller than that of [b]. *)
Definition dev_ge (a b : Anomaly) : Prop :=
  PyFloat.ltb (a_deviation a) (a_deviation b) = false.

Definition finite_value (p : Point) : Prop :=
  exists v, p_value p = PyFloat.Fin v.

(** ** Alerts ([get_active_alerts], [acknowledge_alert], monitoring.py) *)

Module Alert.
Record t : Type := mk {
  id : Z;
  alert_id : string;
  equipment_id : Z;
  sensor_id : option Z;
  severity : string;
  title : string;
  message : string;
  is_acknowledged : bool;
  acknowledged_by : option string;
  acknowledged_at : option datetime;
  triggered_at : datetime;
  resolved_at : option datetime;
  created_at : datetime
}.

Definition acknowledge (by_ : string) (now : datetime) (a : t) : t :=
  mk (id a) (alert_id a) (equipment_id a) (sensor_id a) (severity a)
    (title a) (message a) true (Some by_) (Some now) (triggered_at a)
    (resolved_at a) (created_at a).
End Alert.

(** The result of an endpoint: its value, or the [HTTPException] it
    raises. *)
Inductive http_result (A : Type) : Type :=
| Success (a : A)
| HTTPError (status : nat) (detail : string).

Arguments Success {A} a.
Arguments HTTPError {A} status detail.

(** [if text: rows = rows.filter(col == text)]: [None] and the empty
    string leave the rows unfiltered. *)
Definition filter_eq {A : Type} (text : option string) (col : A -> string)
  (rows : list A) : list A :=
  match text with
  | None => rows
  | Some t =>
      if String.eqb t "" then rows
      else filter (fun r => String.eqb (col r) t) rows
  end.

(** [int(td.total_seconds() / 60)]: whole minutes, rounded towards zero. *)
Definition age_minutes (now triggered : datetime) : Z :=
  Z.quot (now - triggered) 60000000.

Record AlertEntry : Type := mkAlertEntry {
  ae_alert_id : string;
  ae_equipment_id : Z;
  ae_severity : string;
  ae_title : string;
  ae_message : string;
  ae_triggered_at : datetime;
  ae_age_minutes : Z
}.

Definition alert_entry (now : datetime) (a : Alert.t) : AlertEntry :=
  mkAlertEntry (Alert.alert_id a) (Alert.equipment_id a) (Alert.severity a)
    (Alert.title a) (Alert.message a) (Alert.triggered_at a)
    (age_minutes now (Alert.triggered_at a)).

(** [query.join(Equipment).filter(Equipment.equipment_id == equipment_id)]
    on alerts. *)
Definition alert_of_equipment (db : DB) (equipment_id : string) (a : Alert.t)
  : bool :=
  match find_equipment_by_pk db (Alert.equipment_id a) with
  | Some e => String.eqb (Equipment.equipment_id e) equipment_id
  | None => false
  end.

(** The alerts that [get_active_alerts] selects, in response order. *)
Definition active_alerts (severity equipment_id : option string)
  (skip limit : nat) (db : DB) (alerts : list Alert.t) : list Alert.t :=
  let q := filter (fun a => negb (Alert.is_acknowledged a)) alerts in
  let q := filter_eq severity Alert.severity q in
  let q := match equipment_id with
           | None => q
           | Some eid =>
               if String.eqb eid "" then q
               else filter (alert_of_equipment db eid) q
           end in
  firstn limit (skipn skip (order_by_desc Alert.triggered_at q)).

(** [get_active_alerts]: the ["alerts"] list; ["total_count"] is its
    length. *)
Definition get_active_alerts (severity equipment_id : option string)
  (skip limit : nat) (now : datetime) (db : DB) (alerts : list Alert.t)
  : list AlertEntry :=
  map (alert_entry now)
    (active_alerts severity equipment_id skip limit db alerts).

Arguments get_active_alerts severity equipment_id skip%_nat limit%_nat now%_Z
  db alerts.

(** [acknowledge_alert]: the new alert table and the response. *)
Definition acknowledge_alert (alert_id acknowledged_by : string)
  (now : datetime) (alerts : list Alert.t)
  : list Alert.t * http_result unit :=
  match find (fun a => String.eqb (Alert.alert_id a) alert_id) alerts with
  | None => (alerts, HTTPError 404 "Alert not found")
  | Some alert =>
      (map (fun a => if Z.eqb (Alert.id a) (Alert.id alert)
                     then Alert.acknowledge acknowledged_by now a else a)
         alerts,
       Success tt)
  end.

Arguments acknowledge_alert alert_id%_string acknowledged_by%_string now%_Z
  alerts.

(** Two open alerts of the pump. *)
Definition overheat_alert : Alert.t :=
  Alert.mk 1 "a-1" 1 (Some 1%Z) "CRITICAL" "Overheat" "Temperature high"
    false None None 1000000%Z None 1000000%Z.

Definition drift_alert : Alert.t :=
  Alert.mk 2 "a-2" 1 (Some 1%Z) "WARNING" "Drift" "Temperature drifting"
    false None None 2000000%Z None 2000000%Z.

(** ** Dashboard ([get_dashboard_overview], monitoring.py) *)

(** One more row under key [k] in the result of a GROUP BY with
    [count]. *)
Fixpoint count_add (k : string) (d : list (string * nat))
  : list (string * nat) :=
  match d with
  | [] => [(k, 1%nat)]
  | (k', n) :: d' =>
      if String.eqb k' k then (k', S n) :: d' else (k', n) :: count_add k d'
  end.

(** [query(col, func.count(...)).group_by(col)] turned into a dict: the
    number of rows under each value of [col], in order of first
    appearance. *)
Definition count_by {A : Type} (col : A -> string) (rows : list A)
  : list (string * nat) :=
  fold_left (fun d r => count_add (col r) d) rows [].

Definition count_where {A : Type} (f : A -> bool) (rows : list A) : nat :=
  List.length (filter f rows).

(** [now.replace(hour=0, minute=0, second=0, microsecond=0)] *)
Definition day_start (now : datetime) : datetime :=
  (now - now mod 86400000000)%Z.

Record DashboardOverview : Type := mkDashboardOverview {
  total_equipment : nat;
  active_equipment : nat;
  connected_equipment : nat;
  total_alerts : nat;
  critical_alerts : nat;
  data_points_today : nat;
  protocols_summary : list (string * nat)
}.

Definition get_dashboard_overview (now : datetime) (db : DB)
  (alerts : list Alert.t) : DashboardOverview :=
  let today := day_start now in
  mkDashboardOverview
    (List.length (equipment db))
    (count_where Equipment.is_active (equipment db))
    (count_where Equipment.is_connected (equipment db))
    (count_where (fun a => negb (Alert.is_acknowledged a)) alerts)
    (count_where (fun a => String.eqb (Alert.severity a) "CRITICAL"
                           && negb (Alert.is_acknowledged a)) alerts)
    (count_where (fun d => (today <=? SensorData.timestamp d)%Z)
       (sensor_data db))
    (count_by Equipment.protocol (filter Equipment.is_active (equipment db))).

(** ** The whole of an equipment-health entry (monitoring.py, 201-239) *)

(** [a >= b] on floats; false as soon as one side is NaN. *)
Definition float_geb (a b : pyfloat) : bool :=
  match a, b with
  | PyFloat.NaN, _ | _, PyFloat.NaN => false
  | _, _ => negb (PyFloat.ltb a b)
  end.

(** Lines 202-205: the readings of the equipment in the last hour. *)
Definition recent_data (e : Equipment.t) (now : datetime) (db : DB)
  : list SensorData.t :=
  filter (fun d => Z.eqb (SensorData.equipment_id d) (Equipment.id e)
                   && (now - timedelta_hours 1 <=? SensorData.timestamp d)%Z)
    (sensor_data db).

Definition good_quality (rows : list SensorData.t) : nat :=
  List.length (filter (fun d => String.eqb (SensorData.quality d) "GOOD") rows).

(** Lines 207-217. *)
Definition data_quality (rows : list SensorData.t) : string :=
  match rows with
  | [] => "UNKNOWN"
  | _ =>
      let quality_ratio :=
        PyFloat.div (PyFloat.of_nat (good_quality rows))
          (PyFloat.of_nat (List.length rows)) in
      if float_geb quality_ratio (PyFloat.Fin (9 / 10)) then "EXCELLENT"
      else if float_geb quality_ratio (PyFloat.Fin (7 / 10)) then "GOOD"
      else "POOR"
  end.

Record HealthEntry : Type := mkHealthEntry {
  h_equipment_id : string;
  h_name : string;
  h_type : string;
  h_protocol : string;
  h_health_status : string;
  h_is_connected : bool;
  h_last_heartbeat : option datetime;
  h_data_quality : string;
  h_recent_data_points : nat
}.

Definition health_entry (now : datetime) (db : DB) (e : Equipment.t)
  : HealthEntry :=
  mkHealthEntry (Equipment.equipment_id e) (Equipment.name e)
    (Equipment.type e) (Equipment.protocol e) (health_status e now)
    (Equipment.is_connected e) (Equipment.last_heartbeat e)
    (data_quality (recent_data e now db))
    (List.length (recent_data e now db)).

Record HealthSummary : Type := mkHealthSummary {
  hs_total : nat;
  hs_healthy : nat;
  hs_degraded : nat;
  hs_offline : nat
}.

Definition health_data (now : datetime) (db : DB) : list HealthEntry :=
  map (health_entry now db) (filter Equipment.is_active (equipment db)).

(** The ["summary"] of the response. *)
Definition health_summary (now : datetime) (db : DB) : HealthSummary :=
  let entries := health_data now db in
  let with_status (st : string) :=
    count_where (fun h => String.eqb (h_health_status h) st) entries in
  mkHealthSummary (List.length entries) (with_status "HEALTHY"%string)
    (with_status "DEGRADED"%string) (with_status "OFFLINE"%string).

(** ** Connection status ([get_connection_status], integration.py) *)

Record ProtocolStatus : Type := mkProtocolStatus {
  ps_total_equipment : nat;
  ps_connected : nat;
  ps_disconnected : nat;
  ps_last_activity : option datetime
}.

(** Lines 122-127: the entry of a protocol seen for the first time. *)
Definition new_protocol_status : ProtocolStatus :=
  mkProtocolStatus 0 0 0 None.

(** Lines 129-140: one equipment counted into the entry of its protocol.
    A datetime is always truthy, so [if equipment.last_heartbeat] tests for
    [None] only. *)
Definition record_equipment (e : Equipment.t) (s : ProtocolStatus)
  : ProtocolStatus :=
  let total := S (ps_total_equipment s) in
  let connected :=
    if Equipment.is_connected e then S (ps_connected s) else ps_connected s in
  let disconnected :=
    if Equipment.is_connected e then ps_disconnected s
    else S (ps_disconnected s) in
  let last_activity :=
    match Equipment.last_heartbeat e with
    | Some hb =>
        match ps_last_activity s with
        | None => Some hb
        | Some la => if (la <? hb)%Z then Some hb else Some la
        end
    | None => ps_last_activity s
    end in
  mkProtocolStatus total connected disconnected last_activity.

(** [if key not in d: d[key] = default] followed by an update in place of
    [d[key]]; a new key goes to the end of the dict. *)
Fixpoint dict_update {V : Type} (key : string) (f : V -> V) (default : V)
  (d : list (string * V)) : list (string * V) :=
  match d with
  | [] => [(key, f default)]
  | (k, v) :: d' =>
      if String.eqb k key then (k, f v) :: d'
      else (k, v) :: dict_update key f default d'
  end.

(** The loop of lines 119-140. *)
Definition protocol_status (equipment_list : list Equipment.t)
  : list (string * ProtocolStatus) :=
  fold_left
    (fun d e =>
       dict_update (Equipment.protocol e) (record_equipment e)
         new_protocol_status d)
    equipment_list [].

Record ConnectionSummary : Type := mkConnectionSummary {
  total_protocols : nat;
  cs_total_equipment : nat;
  total_connected : nat
}.

(** The ["protocols"] and the ["summary"] of the response. *)
Definition get_connection_status (db : DB)
  : list (string * ProtocolStatus) * ConnectionSummary :=
  let equipment_by_protocol := filter Equipment.is_active (equipment db) in
  let protocol_status := protocol_status equipment_by_protocol in
  (protocol_status,
   mkConnectionSummary (List.length protocol_status)
     (list_sum (map (fun kv => ps_total_equipment (snd kv)) protocol_status))
     (list_sum (map (fun kv => ps_connected (snd kv)) protocol_status))).

(** What the loop leaves under one protocol, told without the dict: the
    equipment of that protocol counted into a new entry, in order. *)
Definition status_of (protocol : string) (equipment_list : list Equipment.t)
  : ProtocolStatus :=
  fold_left
    (fun s e =>
       if String.eqb (Equipment.protocol e) protocol
       then record_equipment e s else s)
    equipment_list new_protocol_status.

(** ** Statistics ([get_data_statistics], data.py) *)

(** PostgreSQL's [stddev], an alias of [stddev_samp]: the sample standard
    deviation, NULL over fewer than two rows. *)
Definition sql_stddev (values : list pyfloat) : option pyfloat :=
  match values with
  | [] | [_] => None
  | _ =>
      let n := List.length values in
      let mean :=
        PyFloat.div (fold_left PyFloat.add values PyFloat.zero)
          (PyFloat.of_nat n) in
      let squares :=
        map (fun v => PyFloat.mul (PyFloat.sub v mean) (PyFloat.sub v mean))
          values in
      Some (PyFloat.sqrt
              (PyFloat.div (fold_left PyFloat.add squares PyFloat.zero)
                 (PyFloat.of_nat (n - 1))))
  end.

(** [float(x) if x else 0]: NULL and zero are both falsy and give 0. *)
Definition float_or_zero (x : option pyfloat) : pyfloat :=
  match x with
  | Some v => if PyFloat.truthy v then v else PyFloat.zero
  | None => PyFloat.zero
  end.

Definition p_quality (p : Point) : string := SensorData.quality (data p).

Record Statistics : Type := mkStatistics {
  st_count : nat;
  st_average : pyfloat;
  st_minimum : pyfloat;
  st_maximum : pyfloat;
  st_std_deviation : pyfloat
}.

(** Lines 163-174.  [hours] has been validated by the framework
    ([ge=1, le=168]) before the body runs. *)
Definition statistics_query (equipment_id sensor_type : option string)
  (hours : Z) (now : datetime) (db : DB) : list Point :=
  let end_time := now in
  let start_time := (end_time - timedelta_hours hours)%Z in
  let query := filter (fun p => (start_time <=? p_timestamp p)%Z) (joined db) in
  let query := filter_eq equipment_id p_equipment_id query in
  filter_eq sensor_type p_sensor_type query.

(** The ["statistics"] and the ["quality_distribution"] of the response. *)
Definition get_data_statistics (equipment_id sensor_type : option string)
  (hours : Z) (now : datetime) (db : DB)
  : Statistics * list (string * nat) :=
  let query := statistics_query equipment_id sensor_type hours now db in
  let values := map p_value query in
  (mkStatistics (List.length values)
     (float_or_zero (sql_avg values))
     (float_or_zero (sql_min values))
     (float_or_zero (sql_max values))
     (float_or_zero (sql_stddev values)),
   count_by p_quality query).

Arguments statistics_query equipment_id sensor_type hours%_Z now%_Z db.
Arguments get_data_statistics equipment_id sensor_type hours%_Z now%_Z db.

(** ** Export jobs ([export_data], [get_processing_job], data.py) *)

Module DataExportRequest.
Record t : Type := mk {
  equipment_ids : option (list string);
  sensor_types : option (list string);
  start_time : datetime;
  end_time : datetime;
  format : string;
  include_metadata : bool
}.
End DataExportRequest.

(** A row of the table [data_processing_jobs]; [config] holds the two keys
    that [export_data] writes. *)
Module DataProcessingJob.
Record t : Type := mk {
  id : Z;
  job_id : string;
  job_type : string;
  status : string;
  config_format : string;
  config_include_metadata : bool;
  equipment_filter : option (list string);
  time_range_start : option datetime;
  time_range_end : option datetime;
  records_processed : Z;
  error_message : option string;
  result_file_path : option string;
  started_at : option datetime;
  completed_at : option datetime;
  created_at : datetime
}.
End DataProcessingJob.

Record ExportResponse : Type := mkExportResponse {
  er_job_id : string;
  er_status : string;
  er_message : string;
  er_estimated_completion : datetime
}.

(** [timedelta(minutes=m)] *)
Definition timedelta_minutes (m : Z) : Z := (m * 60 * 1000000)%Z.

(** [export_data].  The column defaults are filled in at the insert:
    [uuid] is the value of [str(uuid.uuid4())], [pk] the primary key and
    [db_now] the value of the server's [now()]; [now] is
    [datetime.utcnow()].  The column [job_id] is unique: a commit that would
    store a second job with the same id fails and stores nothing. *)
Definition export_data (export_request : DataExportRequest.t)
  (uuid : string) (pk : Z) (db_now now : datetime)
  (jobs : list DataProcessingJob.t)
  : list DataProcessingJob.t * result ExportResponse :=
  let job :=
    DataProcessingJob.mk pk uuid "export" "PENDING"
      (DataExportRequest.format export_request)
      (DataExportRequest.include_metadata export_request)
      (DataExportRequest.equipment_ids export_request)
      (Some (DataExportRequest.start_time export_request))
      (Some (DataExportRequest.end_time export_request))
      0 None None None None db_now in
  if existsb (fun j => String.eqb (DataProcessingJob.job_id j) uuid) jobs
  then (jobs, Raise StoreError)
  else
    (jobs ++ [job],
     Ok (mkExportResponse (DataProcessingJob.job_id job) "QUEUED"
           "Export job created and queued for processing"
           (now + timedelta_minutes 5)%Z)).

Record JobView : Type := mkJobView {
  v_job_id : string;
  v_job_type : string;
  v_status : string;
  v_created_at : datetime;
  v_started_at : option datetime;
  v_completed_at : option datetime;
  v_records_processed : Z;
  v_result_file_path : option string;
  v_error_message : option string
}.

Definition get_processing_job (job_id : string)
  (jobs : list DataProcessingJob.t) : http_result JobView :=
  match find (fun j => String.eqb (DataProcessingJob.job_id j) job_id) jobs with
  | None => HTTPError 404 "Job not found"
  | Some job =>
      Success
        (mkJobView (DataProcessingJob.job_id job)
           (DataProcessingJob.job_type job) (DataProcessingJob.status job)
           (DataProcessingJob.created_at job)
           (DataProcessingJob.started_at job)
           (DataProcessingJob.completed_at job)
           (DataProcessingJob.records_processed job)
           (DataProcessingJob.result_file_path job)
           (DataProcessingJob.error_message job))
  end.

Arguments export_data export_request uuid%_string pk%_Z db_now%_Z now%_Z jobs.
Arguments get_processing_job job_id%_string jobs.

(** ** Rate limiter ([RateLimiterMiddleware], middleware/rate_limiter.py) *)

(** The values of [time.time()] are counted in microseconds, as the
    datetimes are; [window_size] is the window of 60 seconds.
    [self.requests] is a [defaultdict(list)]: a client without an entry has
    the empty list. *)
Definition window_size : Z := 60000000%Z.

Definition requests_of (client_ip : string) (requests : list (string * list Z))
  : list Z :=
  match dict_get client_ip requests with
  | Some times => times
  | None => []
  end.

Definition cleanup_old_requests (client_ip : string) (current_time : Z)
  (requests : list (string * list Z)) : list (string * list Z) :=
  let cutoff_time := (current_time - window_size)%Z in
  dict_set client_ip
    (filter (fun req_time => (cutoff_time <? req_time)%Z)
       (requests_of client_ip requests))
    requests.

(** The answer of the middleware: status 429 with its [retry_after], or the
    application's response with the three rate-limit headers. *)
Inductive limiter_response : Type :=
| TooManyRequests (retry_after : Z)
| Forwarded (limit remaining reset : Z).

(** [dispatch].  From the cleanup to the recording of the request nothing
    is awaited, so this part runs as one step.  [remaining] is the header as
    it is when no other request of the client is handled while the
    application answers. *)
Definition dispatch (max_requests : Z) (client_ip : string) (current_time : Z)
  (requests : list (string * list Z))
  : list (string * list Z) * limiter_response :=
  let requests := cleanup_old_requests client_ip current_time requests in
  if (max_requests
      <=? Z.of_nat (List.length (requests_of client_ip requests)))%Z
  then (requests, TooManyRequests 60)
  else
    let requests :=
      dict_set client_ip (requests_of client_ip requests ++ [current_time])
        requests in
    let remaining :=
      Z.max 0 (max_requests
               - Z.of_nat (List.length (requests_of client_ip requests))) in
    (requests,
     Forwarded max_requests remaining
       (Z.quot (current_time + window_size) 1000000)).

Definition is_forwarded (r : limiter_response) : bool :=
  match r with
  | Forwarded _ _ _ => true
  | TooManyRequests _ => false
  end.

(** The middleware over a sequence of requests, each given by its client
    and its time, from the state after start-up; the log keeps every request
    with its answer. *)
Definition limiter_step (max_requests : Z)
  (st : list (string * list Z) * list (string * Z * limiter_response))
  (ev : string * Z)
  : list (string * list Z) * list (string * Z * limiter_response) :=
  let out := dispatch max_requests (fst ev) (snd ev) (fst st) in
  (fst out, snd st ++ [(fst ev, snd ev, snd out)]).

Definition run_limiter (max_requests : Z) (events : list (string * Z))
  : list (string * list Z) * list (string * Z * limiter_response) :=
  fold_left (limiter_step max_requests) events ([], []).

(** The times of the requests of a client that were passed on. *)
Definition forwarded_times (client_ip : string)
  (log : list (string * Z * limiter_response)) : list Z :=
  map (fun e => snd (fst e))
    (filter (fun e => String.eqb (fst (fst e)) client_ip
                      && is_forwarded (snd e)) log).

(** The clock does not go backwards from one request to the next. *)
Definition nondecreasing (events : list (string * Z)) : Prop :=
  StronglySorted (fun a b => (snd a <= snd b)%Z) events.

Arguments dispatch max_requests%_Z client_ip%_string current_time%_Z requests.
Arguments run_limiter max_requests%_Z events.

(** ** Performance metrics ([get_performance_metrics], monitoring.py) *)

Record PerformanceMetrics : Type := mkPerformanceMetrics {
  pm_total_points : nat;
  pm_points_per_hour : pyfloat;
  pm_points_per_minute : pyfloat;
  pm_protocol_breakdown : list (string * nat);
  pm_quality_metrics : list (string * nat);
  pm_active_connections : nat;
  pm_connection_rate : pyfloat
}.

(** [Equipment.last_heartbeat >= start_time]: false for a row without a
    heartbeat (NULL). *)
Definition heartbeat_since (start_time : datetime) (e : Equipment.t) : bool :=
  match Equipment.last_heartbeat e with
  | Some hb => (start_time <=? hb)%Z
  | None => false
  end.

Section PerformanceMetrics.

(** Python's [round(x, 2)]. *)
Variable round2 : pyfloat -> pyfloat.

(** [hours] has been validated by the framework ([ge=1, le=168]) before the
    body runs, so the divisions are by a positive number. *)
Definition get_performance_metrics (hours : Z) (now : datetime) (db : DB)
  : PerformanceMetrics :=
  let end_time := now in
  let start_time := (end_time - timedelta_hours hours)%Z in
  let recent :=
    filter (fun d => (start_time <=? SensorData.timestamp d)%Z)
      (sensor_data db) in
  let data_points := List.length recent in
  let ingestion_rate :=
    PyFloat.div (PyFloat.of_nat data_points) (PyFloat.of_Z hours) in
  let protocol_breakdown := count_by SensorData.source_protocol recent in
  let quality_breakdown := count_by SensorData.quality recent in
  let connection_events :=
    count_where (heartbeat_since start_time) (equipment db) in
  mkPerformanceMetrics data_points
    (round2 ingestion_rate)
    (round2 (PyFloat.div ingestion_rate (PyFloat.of_Z 60)))
    protocol_breakdown quality_breakdown connection_events
    (round2 (PyFloat.div (PyFloat.of_nat connection_events)
               (PyFloat.of_Z hours))).

End PerformanceMetrics.

Arguments get_performance_metrics round2 hours%_Z now%_Z db.

(** ** Anomaly detection: sample requests and databases *)

(** A clock reading of 2023-11-14, a request that looks twenty million
    hours back from it, and one that looks seventeen million hours back. *)
Definition late_now : datetime := 1700000000000000%Z.

Definition far_request : AnomalyDetectionRequest :=
  mkAnomalyDetectionRequest None None 20000000 (PyFloat.Fin 2).

Definition wide_request : AnomalyDetectionRequest :=
  mkAnomalyDetectionRequest None None 17000000 (PyFloat.Fin 2).

(** The data points of one (equipment, sensor) pair. *)
Definition pair_points (equipment_id sensor_type : string)
  (points : list Point) : list Point :=
  filter (fun p => String.eqb (p_equipment_id p) equipment_id
                   && String.eqb (p_sensor_type p) sensor_type) points.

Definition line_reading (ts : datetime) (x : R) : SensorData.t :=
  SensorData.mk 12 121 (PyFloat.Fin x) "GOOD" ts "MQTT".

Definition line_a_reading (ts : datetime) (x : R) : SensorData.t :=
  SensorData.mk 11 111 (PyFloat.Fin x) "GOOD" ts "MQTT".

Arguments line_reading ts%_Z x%_R.
Arguments line_a_reading ts%_Z x%_R.

Definition line_point (ts : datetime) (x : R) : Point :=
  mkPoint (line_reading ts x) line line_a_temp'.

Definition line_a_point (ts : datetime) (x : R) : Point :=
  mkPoint (line_a_reading ts x) line_a line_a_temp.

Definition pressure_point (ts : datetime) (x : R) : Point :=
  mkPoint (reading_of 2 "GOOD" ts x) pump pump_pressure.

Arguments line_point ts%_Z x%_R.
Arguments line_a_point ts%_Z x%_R.
Arguments pressure_point ts%_Z x%_R.

(** Three equipment with one sensor each.  Sensor [a_temp] of equipment
    [line] reads 10 five times, sensor [temp] of equipment [line_a] reads
    100 once, the pressure sensor of the pump reads 3 four times: the
    readings of every (equipment, sensor) pair are all equal. *)
Definition merged_constant_db : DB :=
  mkDB [line; line_a; pump] [line_a_temp'; line_a_temp; pump_pressure]
    [line_reading 50000000001 10; reading_of 2 "GOOD" 50000000002 3;
     line_reading 50000000003 10; reading_of 2 "GOOD" 50000000004 3;
     line_reading 50000000005 10; reading_of 2 "GOOD" 50000000006 3;
     line_reading 50000000007 10; reading_of 2 "GOOD" 50000000008 3;
     line_reading 50000000009 10; line_a_reading 50000000010 100].

(** The same equipment and sensors with four readings of [line], two of
    [line_a] and four of the pump: no (equipment, sensor) pair has five. *)
Definition merged_small_db : DB :=
  mkDB [line; line_a; pump] [line_a_temp'; line_a_temp; pump_pressure]
    [line_reading 50000000001 10; reading_of 2 "GOOD" 50000000002 3;
     line_reading 50000000003 10; reading_of 2 "GOOD" 50000000004 3;
     line_reading 50000000005 10; reading_of 2 "GOOD" 50000000006 4;
     line_reading 50000000007 10; reading_of 2 "GOOD" 50000000008 90;
     line_a_reading 50000000009 10; line_a_reading 50000000010 100].

(** The pump with six temperature readings of 7 and four pressure
    readings. *)
Definition steady_db : DB :=
  mkDB [pump] [pump_temperature; pump_pressure]
    [reading_of 1 "GOOD" 50000000001 7; reading_of 2 "GOOD" 50000000002 3;
     reading_of 1 "GOOD" 50000000003 7; reading_of 2 "GOOD" 50000000004 3;
     reading_of 1 "GOOD" 50000000005 7; reading_of 2 "GOOD" 50000000006 4;
     reading_of 1 "GOOD" 50000000007 7; reading_of 2 "GOOD" 50000000008 90;
     reading_of 1 "GOOD" 50000000009 7; reading_of 1 "GOOD" 50000000010 7].

Definition steady_points : list Point :=
  [temperature_point 50000000001 7; temperature_point 50000000003 7;
   temperature_point 50000000005 7; temperature_point 50000000007 7;
   temperature_point 50000000009 7; temperature_point 50000000010 7].

(** ** The arithmetic of anomaly detection in binary64 *)

(** Lines 257-264 as numpy and Python carry them out, on IEEE 754 binary64
    values (precision 53, exponents up to 1024), each operation rounded to
    nearest even.  [np.sum] adds fewer than eight items from left to right;
    [np.mean] divides the sum by the count; [np.std] is the square root of
    the mean of the squared differences from the mean. *)
Module Binary64.

Definition t : Type := SpecFloat.spec_float.

Definition add : t -> t -> t := SpecFloat.SFadd 53 1024.
Definition sub : t -> t -> t := SpecFloat.SFsub 53 1024.
Definition mul : t -> t -> t := SpecFloat.SFmul 53 1024.
Definition div : t -> t -> t := SpecFloat.SFdiv 53 1024.
Definition sqrt : t -> t := SpecFloat.SFsqrt 53 1024.
Definition abs : t -> t := SpecFloat.SFabs.
Definition gtb (a b : t) : bool := SpecFloat.SFltb b a.

Definition of_nat (n : nat) : t :=
  SpecFloat.binary_normalize 53 1024 (Z.of_nat n) 0 false.

Definition np_sum (values : list t) : t :=
  fold_left add values (SpecFloat.S754_zero false).

Definition np_mean (values : list t) : t :=
  div (np_sum values) (of_nat (List.length values)).

Definition np_std (values : list t) : t :=
  let arrmean := np_mean values in
  let x := map (fun v => sub v arrmean) values in
  sqrt (np_mean (map (fun d => mul d d) x)).

(** The test of line 264 on every value of a group. *)
Definition flagged (multiplier : t) (values : list t) : list bool :=
  let mean_val := np_mean values in
  let std_val := np_std values in
  let threshold := mul multiplier std_val in
  map (fun v => gtb (abs (sub v mean_val)) threshold) values.

(** The doubles nearest to 0.1 and 0.5. *)
Definition tenth : t := SpecFloat.S754_finite false 7205759403792794 (-56).
Definition half : t := SpecFloat.S754_finite false 4503599627370496 (-53).

End Binary64.

(** * Properties *)

(** ** Real-number decisions *)

Lemma Rltb_true (x y : R) : Rltb x y = true <-> x < y.
Proof. unfold Rltb; destruct (Rlt_dec x y); split; intros; try easy. Qed.

Lemma Rltb_false (x y : R) : Rltb x y = false <-> ~ x < y.
Proof. unfold Rltb; destruct (Rlt_dec x y); split; intros; try easy. Qed.

Lemma Reqb_true (x y : R) : Reqb x y = true <-> x = y.
Proof. unfold Reqb; destruct (Req_dec_T x y); split; intros; try easy. Qed.

Lemma Reqb_false (x y : R) : Reqb x y = false <-> x <> y.
Proof. unfold Reqb; destruct (Req_dec_T x y); split; intros; try easy. Qed.

Lemma Rltb_intro_true (x y : R) : x < y -> Rltb x y = true.
Proof. apply Rltb_true. Qed.

Lemma Rltb_intro_false (x y : R) : ~ x < y -> Rltb x y = false.
Proof. apply Rltb_false. Qed.

Lemma sqrt_between (x lo hi : R) :
  0 <= lo -> 0 <= hi -> lo * lo < x < hi * hi -> lo < sqrt x < hi.
Proof.
  intros Hlo Hhi [H1 H2].
  assert (Hx : 0 <= x) by nra.
  split.
  - rewrite <- (sqrt_square lo Hlo) at 1.
    apply sqrt_lt_1_alt; nra.
  - rewrite <- (sqrt_square hi Hhi) at 1.
    apply sqrt_lt_1_alt; nra.
Qed.

(** ** The join and the entities of its rows *)

Lemma join_reading_In (db : DB) (i : nat) (d : SensorData.t)
  (r : nat * Point) :
  In r (join_reading db i d)
  <-> exists e s,
        find_equipment_by_pk db (SensorData.equipment_id d) = Some e
        /\ In s (sensors_of db e) /\ r = (i, mkPoint d e s).
Proof.
  unfold join_reading.
  destruct (find_equipment_by_pk db (SensorData.equipment_id d)) as [e|].
  - rewrite in_map_iff. split.
    + intros (s & <- & Hs). now exists e, s.
    + intros (e' & s & He & Hs & ->). injection He as <-. now exists s.
  - split; [contradiction|]. intros (e & s & He & _). discriminate.
Qed.

Lemma join_from_In (db : DB) (i : nat) (ds : list SensorData.t)
  (r : nat * Point) :
  In r (join_from db i ds)
  <-> exists k d e s,
        nth_error ds k = Some d
        /\ find_equipment_by_pk db (SensorData.equipment_id d) = Some e
        /\ In s (sensors_of db e) /\ r = ((i + k)%nat, mkPoint d e s).
Proof.
  revert i. induction ds as [|d ds IH]; intros i; cbn [join_from].
  - split; [contradiction|]. intros (k & d & e & s & Hk & _).
    destruct k; discriminate.
  - rewrite in_app_iff, join_reading_In, IH. split.
    + intros [(e & s & He & Hs & ->)|(k & d' & e & s & Hk & He & Hs & ->)].
      * exists O, d, e, s. rewrite Nat.add_0_r. now repeat split.
      * exists (S k), d', e, s. rewrite Nat.add_succ_r. now repeat split.
    + intros (k & d' & e & s & Hk & He & Hs & ->). destruct k as [|k].
      * left. injection Hk as <-. exists e, s. rewrite Nat.add_0_r.
        now repeat split.
      * right. exists k, d', e, s. rewrite Nat.add_succ_r. now repeat split.
Qed.

(** A row of the join: a stored reading, the equipment it refers to and
    one of the sensors of that equipment. *)
Lemma joined_entities_In (db : DB) (r : nat * Point) :
  In r (joined_entities db)
  <-> exists d e s,
        nth_error (sensor_data db) (fst r) = Some d
        /\ find_equipment_by_pk db (SensorData.equipment_id d) = Some e
        /\ In s (sensors_of db e) /\ snd r = mkPoint d e s.
Proof.
  unfold joined_entities. rewrite join_from_In. split.
  - intros (k & d & e & s & Hk & He & Hs & ->). now exists d, e, s.
  - intros (d & e & s & Hk & He & Hs & Hr). exists (fst r), d, e, s.
    repeat split; try assumption. destruct r as [i p]. cbn in *. now subst.
Qed.

(** Two rows of one entity hold the same reading and the same equipment. *)
Lemma joined_entities_same (db : DB) (r r' : nat * Point) :
  In r (joined_entities db) -> In r' (joined_entities db) ->
  fst r = fst r' ->
  data (snd r) = data (snd r') /\ p_equipment (snd r) = p_equipment (snd r').
Proof.
  intros H H' E.
  apply joined_entities_In in H as (d & e & s & Hk & He & _ & ->).
  apply joined_entities_In in H' as (d' & e' & s' & Hk' & He' & _ & ->).
  rewrite E in Hk. rewrite Hk in Hk'. injection Hk' as <-.
  rewrite He in He'. injection He' as <-. now split.
Qed.

Lemma load_entity_Some (db : DB) (d : SensorData.t) (p : Point) :
  load_entity db d = Some p
  <-> exists e s,
        find_equipment_by_pk db (SensorData.equipment_id d) = Some e
        /\ find_sensor_by_pk db (SensorData.sensor_id d) = Some s
        /\ p = mkPoint d e s.
Proof.
  unfold load_entity.
  destruct (find_equipment_by_pk db (SensorData.equipment_id d)) as [e|];
    [destruct (find_sensor_by_pk db (SensorData.sensor_id d)) as [s|]|].
  - split.
    + intros H. injection H as <-. now exists e, s.
    + intros (e' & s' & He & Hs & ->). now injection He as <-; injection Hs as <-.
  - split; [discriminate|]. intros (e' & s' & _ & Hs & _). discriminate.
  - split; [discriminate|]. intros (e' & s' & He & _). discriminate.
Qed.

Lemma unique_entities_In (seen : list nat) (rows : list (nat * Point))
  (r : nat * Point) :
  In r (unique_entities seen rows) -> In r rows /\ ~ In (fst r) seen.
Proof.
  revert seen. induction rows as [|a rows IH]; intros seen; [contradiction|].
  cbn [unique_entities].
  destruct (existsb (Nat.eqb (fst a)) seen) eqn:E.
  - intros H. destruct (IH _ H) as [H1 H2]. split; [now right|exact H2].
  - intros [<- | H].
    + split; [now left|]. intros Hin.
      assert (existsb (Nat.eqb (fst a)) seen = true) as Habs.
      { apply existsb_exists. exists (fst a). split; [exact Hin|].
        apply Nat.eqb_refl. }
      congruence.
    + destruct (IH _ H) as [H1 H2]. split; [now right|].
      intros Hin. apply H2. now right.
Qed.

Lemma unique_entities_NoDup (seen : list nat) (rows : list (nat * Point)) :
  NoDup (map fst (unique_entities seen rows)).
Proof.
  revert seen. induction rows as [|a rows IH]; intros seen; [constructor|].
  cbn [unique_entities].
  destruct (existsb (Nat.eqb (fst a)) seen); [apply IH|].
  cbn [map]. constructor; [|apply IH].
  intros Hin. apply in_map_iff in Hin as (r & E & Hr).
  apply unique_entities_In in Hr as [_ Hr]. apply Hr. left. now symmetry.
Qed.

Lemma unique_entities_complete (seen : list nat) (rows : list (nat * Point))
  (r : nat * Point) :
  In r rows -> ~ In (fst r) seen ->
  exists r', In r' (unique_entities seen rows) /\ In r' rows
             /\ fst r' = fst r.
Proof.
  revert seen. induction rows as [|a rows IH]; intros seen; [contradiction|].
  cbn [unique_entities]. intros Hin Hseen.
  destruct (existsb (Nat.eqb (fst a)) seen) eqn:E.
  - destruct Hin as [-> | Hin].
    + exfalso. apply existsb_exists in E as (x & Hx & Ex).
      apply Nat.eqb_eq in Ex. subst x. contradiction.
    + destruct (IH seen Hin Hseen) as (r' & H1 & H2 & H3).
      exists r'. repeat split; [exact H1|now right|exact H3].
  - destruct (Nat.eq_dec (fst a) (fst r)) as [Ea|Ea].
    + exists a. repeat split; [now left|now left|exact Ea].
    + destruct Hin as [-> | Hin]; [contradiction|].
      destruct (IH (fst a :: seen) Hin) as (r' & H1 & H2 & H3).
      { intros [H|H]; [contradiction|contradiction]. }
      exists r'. repeat split; [now right|now right|exact H3].
Qed.

Lemma unique_entities_length (seen : list nat) (rows : list (nat * Point)) :
  (List.length (unique_entities seen rows) <= List.length rows)%nat.
Proof.
  revert seen. induction rows as [|a rows IH]; intros seen; [constructor|].
  cbn [unique_entities]. destruct (existsb (Nat.eqb (fst a)) seen);
    cbn [List.length]; [specialize (IH seen)|specialize (IH (fst a :: seen))];
    lia.
Qed.

Lemma unique_entities_sorted (R : nat * Point -> nat * Point -> Prop)
  (seen : list nat) (rows : list (nat * Point)) :
  StronglySorted R rows -> StronglySorted R (unique_entities seen rows).
Proof.
  intros Hs. revert seen. induction Hs as [|a rows Hs IH Hf]; intros seen;
    [constructor|].
  cbn [unique_entities]. destruct (existsb (Nat.eqb (fst a)) seen); [apply IH|].
  constructor; [apply IH|].
  rewrite Forall_forall in *. intros x Hx. apply Hf.
  now apply unique_entities_In in Hx.
Qed.

(** Rows that all belong to different entities are all kept. *)
Lemma unique_entities_id (rows : list (nat * Point)) (seen : list nat) :
  NoDup (map fst rows) -> (forall r, In r rows -> ~ In (fst r) seen) ->
  unique_entities seen rows = rows.
Proof.
  revert seen. induction rows as [|a rows IH]; intros seen Hn Hs;
    [reflexivity|].
  cbn [unique_entities]. cbn [map] in Hn. inversion Hn as [|? ? Ha Hn']; subst.
  destruct (existsb (Nat.eqb (fst a)) seen) eqn:E.
  - exfalso. apply existsb_exists in E as (x & Hx & Ex).
    apply Nat.eqb_eq in Ex. subst x. exact (Hs a (or_introl eq_refl) Hx).
  - f_equal. apply IH; [exact Hn'|]. intros r Hr [H|H].
    + apply Ha. rewrite H. now apply in_map.
    + exact (Hs r (or_intror Hr) H).
Qed.

Lemma all_entities_In (db : DB) (rows : list (nat * Point)) (p : Point) :
  In p (all_entities db rows)
  <-> exists r, In r (unique_entities [] rows)
                /\ load_entity db (data (snd r)) = Some p.
Proof.
  unfold all_entities. rewrite in_flat_map. split.
  - intros (r & Hr & Hp). exists r. split; [exact Hr|].
    destruct (load_entity db (data (snd r))) as [q|]; [|contradiction].
    destruct Hp as [-> | []]. reflexivity.
  - intros (r & Hr & E). exists r. split; [exact Hr|]. rewrite E. now left.
Qed.

Lemma all_entities_length (db : DB) (rows : list (nat * Point)) :
  (List.length (all_entities db rows) <= List.length rows)%nat.
Proof.
  unfold all_entities.
  pose proof (unique_entities_length [] rows) as H.
  induction (unique_entities [] rows) as [|r l IH]; [cbn; lia|].
  cbn [flat_map]. rewrite length_app. cbn [List.length] in H.
  assert (List.length (match load_entity db (data (snd r)) with
                       | Some p => [p] | None => [] end) <= 1)%nat
    by (destruct (load_entity db (data (snd r))); cbn; lia).
  assert (List.length (flat_map
            (fun r => match load_entity db (data (snd r)) with
                      | Some p => [p] | None => [] end) l)
          <= List.length l)%nat.
  { clear. induction l as [|r l IH]; [constructor|].
    cbn [flat_map]. rewrite length_app.
    destruct (load_entity db (data (snd r))); cbn [List.length] in *; lia. }
  lia.
Qed.

(** The entities come in the order of their first rows: an order of the
    rows by a column of the reading is an order of the entities. *)
Lemma all_entities_sorted (db : DB) (key : SensorData.t -> datetime)
  (rows : list (nat * Point)) :
  StronglySorted (fun a b => (key (data (snd b)) <= key (data (snd a)))%Z) rows ->
  StronglySorted (fun p q => (key (data q) <= key (data p))%Z)
    (all_entities db rows).
Proof.
  intros Hs. unfold all_entities.
  apply (unique_entities_sorted _ []) in Hs.
  induction Hs as [|r l Hs IH Hf]; [constructor|].
  cbn [flat_map].
  destruct (load_entity db (data (snd r))) as [p|] eqn:E; [|exact IH].
  cbn [app]. constructor; [exact IH|].
  apply load_entity_Some in E as (e & s & _ & _ & ->). cbn [data].
  rewrite Forall_forall in *. intros q Hq.
  apply in_flat_map in Hq as (r' & Hr' & Hq).
  destruct (load_entity db (data (snd r'))) as [q'|] eqn:E'; [|contradiction].
  destruct Hq as [<- | []].
  apply load_entity_Some in E' as (e' & s' & _ & _ & ->). cbn [data].
  exact (Hf r' Hr').
Qed.

(** ** Anomaly detection: sums and the scan of one group *)

Lemma fold_add_absorb (v a : pyfloat) (n : nat) :
  PyFloat.add a v = a -> fold_left PyFloat.add (repeat v n) a = a.
Proof.
  intros H; induction n as [|n IH]; [reflexivity|].
  cbn [repeat fold_left]. now rewrite H.
Qed.

Lemma INR_S_neq_0 (n : nat) : INR (S n) <> 0.
Proof. apply not_0_INR; discriminate. Qed.

(** The mean of zeros is zero. *)
Lemma np_mean_zeros (n : nat) :
  np_mean (repeat (PyFloat.Fin 0) (S n)) = PyFloat.Fin 0.
Proof.
  unfold np_mean, np_sum, PyFloat.zero.
  rewrite fold_add_absorb by (cbn [PyFloat.add]; f_equal; lra).
  rewrite repeat_length. unfold PyFloat.of_nat, PyFloat.div.
  rewrite (proj2 (Reqb_false _ _) (INR_S_neq_0 n)).
  f_equal. unfold Rdiv. apply Rmult_0_l.
Qed.

Lemma np_mean_nans (n : nat) :
  np_mean (repeat PyFloat.NaN (S n)) = PyFloat.NaN.
Proof.
  unfold np_mean, np_sum. cbn [repeat fold_left PyFloat.add PyFloat.zero].
  now rewrite fold_add_absorb.
Qed.

Lemma values_of_constant_group (v : pyfloat) (points : list Point) :
  Forall (fun p => p_value p = v) points ->
  map p_value points = repeat v (List.length points).
Proof.
  induction 1 as [|p ps Hp _ IH]; [reflexivity|].
  cbn [map List.length repeat]. now rewrite Hp, IH.
Qed.

Lemma Rsgn_0 : PyFloat.Rsgn 0 = Eq.
Proof.
  unfold PyFloat.Rsgn.
  destruct (Rlt_dec 0 0) as [H|_]; [lra|reflexivity].
Qed.

(** The difference of a value and itself is zero, or NaN when the value is
    not finite. *)
Lemma sub_self (v : pyfloat) :
  PyFloat.sub v v = PyFloat.Fin 0 \/ PyFloat.sub v v = PyFloat.NaN.
Proof.
  destruct v as [x| | |]; cbn [PyFloat.sub PyFloat.neg PyFloat.add];
    [left; f_equal; lra|now right..].
Qed.

(** A product with a zero standard deviation is zero or NaN. *)
Lemma mul_zero_r (m : pyfloat) :
  PyFloat.mul m (PyFloat.Fin 0) = PyFloat.Fin 0
  \/ PyFloat.mul m (PyFloat.Fin 0) = PyFloat.NaN.
Proof.
  destruct m as [y| | |]; cbn [PyFloat.mul].
  - left. f_equal. lra.
  - right. now rewrite Rsgn_0.
  - right. now rewrite Rsgn_0.
  - now right.
Qed.

Lemma gtb_nan_l (a : pyfloat) : PyFloat.gtb PyFloat.NaN a = false.
Proof. now destruct a. Qed.

Lemma gtb_zero_zero_or_nan (d thr : pyfloat) :
  d = PyFloat.Fin 0 \/ d = PyFloat.NaN ->
  thr = PyFloat.Fin 0 \/ thr = PyFloat.NaN ->
  PyFloat.gtb d thr = false.
Proof.
  intros [-> | ->] [-> | ->]; try reflexivity.
  unfold PyFloat.gtb, PyFloat.ltb. apply Rltb_intro_false. lra.
Qed.

Lemma fold_check_point_skip (mean_val std_val threshold : pyfloat)
  (points : list Point) (st : scan_state) :
  Forall (fun p =>
            PyFloat.gtb (PyFloat.abs (PyFloat.sub (p_value p) mean_val))
              threshold = false) points ->
  fold_left (check_point mean_val std_val threshold) points st = st.
Proof.
  induction 1 as [|p ps Hp _ IH]; [reflexivity|].
  cbn [fold_left]. unfold check_point at 2. cbv zeta. now rewrite Hp.
Qed.

(** The standard deviation of values that all equal the mean is zero, or
    NaN when the mean is not finite. *)
Lemma np_std_at_mean (v : pyfloat) (n : nat) :
  np_mean (repeat v (S n)) = v ->
  (PyFloat.sub v v = PyFloat.Fin 0
   /\ np_std (repeat v (S n)) = PyFloat.Fin 0)
  \/ (PyFloat.sub v v = PyFloat.NaN
      /\ np_std (repeat v (S n)) = PyFloat.NaN).
Proof.
  intros Hm. unfold np_std. cbv zeta. rewrite Hm, !map_repeat.
  destruct (sub_self v) as [E|E]; rewrite E; [left|right];
    (split; [reflexivity|]).
  - cbn [PyFloat.mul]. replace (0 * 0) with 0 by lra.
    rewrite np_mean_zeros. unfold PyFloat.sqrt.
    rewrite Rltb_intro_false by lra. now rewrite sqrt_0.
  - cbn [PyFloat.mul]. now rewrite np_mean_nans.
Qed.

(** A group whose values all equal its mean is left by the scan as it was
    found: no point passes the test of line 264, for any multiplier. *)
Lemma analyze_group_at_mean (multiplier v : pyfloat) (points : list Point)
  (st : scan_state) :
  Forall (fun p => p_value p = v) points ->
  np_mean (map p_value points) = v ->
  analyze_group multiplier st points = st.
Proof.
  intros Hall Hm.
  pose proof (values_of_constant_group v points Hall) as Hvals.
  unfold analyze_group.
  destruct (List.length points <? 5)%nat eqn:Hlen; [reflexivity|].
  cbv zeta. rewrite Hm. rewrite Hvals in Hm |- *.
  destruct (List.length points) as [|n] eqn:Hn; [discriminate|].
  apply fold_check_point_skip.
  rewrite Forall_forall in *. intros p Hp. rewrite (Hall p Hp).
  destruct (np_std_at_mean v n Hm) as [[Ed Es]|[Ed Es]]; rewrite Ed, Es.
  - apply gtb_zero_zero_or_nan.
    + left. cbn [PyFloat.abs]. now rewrite Rabs_R0.
    + apply mul_zero_r.
  - cbn [PyFloat.abs]. apply gtb_nan_l.
Qed.

(** ** Anomaly detection: the group 10, 10, 10, 10, 10, 100 *)

Lemma example_mean : np_mean example_values = PyFloat.Fin 25.
Proof.
  unfold np_mean, np_sum, example_values, PyFloat.zero, PyFloat.of_nat.
  cbn [map fold_left PyFloat.add List.length PyFloat.div].
  assert (H6 : INR 6 = 6) by (simpl; lra).
  rewrite H6. rewrite (proj2 (Reqb_false 6 0)) by lra.
  f_equal. lra.
Qed.

Lemma example_std : np_std example_values = PyFloat.Fin (sqrt 1125).
Proof.
  unfold np_std. rewrite example_mean.
  unfold np_mean, np_sum, example_values, PyFloat.zero, PyFloat.of_nat.
  cbn [map fold_left PyFloat.add PyFloat.sub PyFloat.neg PyFloat.mul
       List.length PyFloat.div].
  assert (H6 : INR 6 = 6) by (simpl; lra).
  rewrite H6. rewrite (proj2 (Reqb_false 6 0)) by lra.
  unfold PyFloat.sqrt.
  rewrite Rltb_intro_false by lra.
  do 2 f_equal. lra.
Qed.

Lemma example_sigma_bounds : 33 < sqrt 1125 < 34.
Proof. apply sqrt_between; lra. Qed.

Lemma Rabs_10_mean : Rabs (10 + - (25)) = 15.
Proof. unfold Rabs. destruct (Rcase_abs _); lra. Qed.

Lemma Rabs_100_mean : Rabs (100 + - (25)) = 75.
Proof. unfold Rabs. destruct (Rcase_abs _); lra. Qed.

Lemma check_point_skip (mean_val std_val threshold : pyfloat)
  (st : scan_state) (p : Point) :
  PyFloat.gtb (PyFloat.abs (PyFloat.sub (p_value p) mean_val)) threshold = false ->
  check_point mean_val std_val threshold st p = st.
Proof. intros H. unfold check_point. cbv zeta. now rewrite H. Qed.

Lemma three_sigma_not_exceeded :
  PyFloat.gtb (PyFloat.Fin 75)
    (PyFloat.mul (PyFloat.Fin 3) (PyFloat.Fin (sqrt 1125))) = false.
Proof.
  pose proof example_sigma_bounds as [Hlo Hhi].
  cbn [PyFloat.mul]. unfold PyFloat.gtb, PyFloat.ltb.
  apply Rltb_intro_false. lra.
Qed.

(** The scan of the example group, with the anomaly it finds. *)
Lemma example_group_scan (points : list Point) (st : scan_state) :
  map p_value points = example_values ->
  exists p,
    nth_error points 5 = Some p
    /\ p_value p = PyFloat.Fin 100
    /\ analyze_group (PyFloat.Fin 2) st points
       = (fst st ++ [example_anomaly p], S (snd st)).
Proof.
  intros Hvals.
  destruct points as [|p1 [|p2 [|p3 [|p4 [|p5 [|p6 [|? ?]]]]]]]; try discriminate.
  pose proof Hvals as Hv.
  unfold example_values in Hv. cbn [map] in Hv.
  injection Hv as H1 H2 H3 H4 H5 H6.
  pose proof example_sigma_bounds as [Hlo Hhi].
  assert (Hskip : forall p st, p_value p = PyFloat.Fin 10 ->
            check_point (PyFloat.Fin 25) (PyFloat.Fin (sqrt 1125))
              (PyFloat.Fin (2 * sqrt 1125)) st p = st).
  { intros p st' Hp. apply check_point_skip. rewrite Hp.
    cbn [PyFloat.sub PyFloat.neg PyFloat.add PyFloat.abs].
    rewrite Rabs_10_mean. unfold PyFloat.gtb, PyFloat.ltb.
    apply Rltb_intro_false. lra. }
  exists p6. split; [reflexivity|]. split; [exact H6|].
  unfold analyze_group. cbn [List.length Nat.ltb Nat.leb]. cbv zeta.
  rewrite Hvals, example_mean, example_std. cbn [PyFloat.mul fold_left].
  rewrite (Hskip p1 _ H1), (Hskip p2 _ H2), (Hskip p3 _ H3),
    (Hskip p4 _ H4), (Hskip p5 _ H5).
  unfold check_point. cbv zeta. rewrite H6.
  cbn [PyFloat.sub PyFloat.neg PyFloat.add PyFloat.abs].
  rewrite Rabs_100_mean.
  replace (PyFloat.gtb (PyFloat.Fin 75) (PyFloat.Fin (2 * sqrt 1125)))
    with true
    by (symmetry; unfold PyFloat.gtb, PyFloat.ltb; apply Rltb_intro_true; lra).
  change (PyFloat.of_Z 3) with (PyFloat.Fin 3).
  rewrite three_sigma_not_exceeded.
  reflexivity.
Qed.

(** ** Anomaly detection: groups too small to be analysed *)

Lemma analyze_small_group (multiplier : pyfloat) (st : scan_state)
  (points : list Point) :
  (List.length points < 5)%nat -> analyze_group multiplier st points = st.
Proof.
  intros H. unfold analyze_group.
  now rewrite (proj2 (Nat.ltb_lt _ _) H).
Qed.

Lemma scan_small_groups (multiplier : pyfloat)
  (groups : list (string * list Point)) (st : scan_state) :
  Forall (fun kv => (List.length (snd kv) < 5)%nat) groups ->
  fold_left (fun st kv => analyze_group multiplier st (snd kv)) groups st = st.
Proof.
  induction 1 as [|kv g Hkv _ IH]; [reflexivity|].
  cbn [fold_left]. now rewrite analyze_small_group.
Qed.

(** ** Real-time status *)

Lemma truthy_spec (c : pyfloat) :
  PyFloat.truthy c = true <-> c <> PyFloat.Fin 0.
Proof.
  destruct c as [x| | |]; cbn [PyFloat.truthy]; try (split; [discriminate|reflexivity]).
  rewrite negb_true_iff, Reqb_false. split.
  - intros H E. injection E as E. contradiction.
  - intros H E. apply H. now f_equal.
Qed.

Lemma exceeds_spec (value : pyfloat) (threshold : option pyfloat) :
  exceeds value threshold = true <-> breached value threshold.
Proof.
  unfold exceeds, breached. destruct threshold as [c|].
  - rewrite andb_true_iff, truthy_spec. split.
    + intros [H1 H2]. now exists c.
    + intros (c' & E & H1 & H2). injection E as <-. now split.
  - split; [discriminate|]. intros (c & E & _). discriminate.
Qed.

Lemma exceeds_false (value : pyfloat) (threshold : option pyfloat) :
  exceeds value threshold = false <-> ~ breached value threshold.
Proof.
  rewrite <- exceeds_spec. destruct (exceeds value threshold); split;
    intros H; try easy; try congruence.
Qed.

Lemma realtime_status_spec (sensor : Sensor.t) (value : pyfloat) :
  let crit := breached value (Sensor.critical_threshold sensor) in
  let warn := breached value (Sensor.warning_threshold sensor) in
  (realtime_status sensor value = "CRITICAL"%string <-> crit)
  /\ (realtime_status sensor value = "WARNING"%string <-> ~ crit /\ warn)
  /\ (realtime_status sensor value = "NORMAL"%string <-> ~ crit /\ ~ warn).
Proof.
  cbv zeta. unfold realtime_status.
  pose proof (exceeds_spec value (Sensor.critical_threshold sensor)) as Hc.
  pose proof (exceeds_spec value (Sensor.warning_threshold sensor)) as Hw.
  destruct (exceeds value (Sensor.critical_threshold sensor));
    destruct (exceeds value (Sensor.warning_threshold sensor));
    repeat split; intros; try discriminate; try reflexivity;
    try tauto; try (apply Hc; tauto); try (apply Hw; tauto);
    try (intros Hb; apply Hc in Hb; discriminate);
    try (intros Hb; apply Hw in Hb; discriminate);
    try (exfalso; match goal with H : breached _ _ |- _ => apply Hc in H end;
         discriminate).
Qed.

Lemma zero_threshold_not_breached (value : pyfloat) (threshold : option pyfloat) :
  threshold = None \/ threshold = Some (PyFloat.Fin 0) ->
  ~ breached value threshold.
Proof.
  intros [-> | ->] (c & E & Hc & _); [discriminate|].
  injection E as <-. now apply Hc.
Qed.



(** ** Equipment health *)

Lemma total_seconds_truthy (td : Z) :
  PyFloat.truthy (total_seconds td) = true <-> td <> 0%Z.
Proof.
  unfold total_seconds. cbn [PyFloat.truthy].
  rewrite negb_true_iff, Reqb_false. split.
  - intros H ->. apply H. lra.
  - intros H E. apply H. apply eq_IZR. lra.
Qed.

Lemma total_seconds_lt_300 (td : Z) :
  PyFloat.ltb (total_seconds td) (PyFloat.of_Z 300) = true
  <-> (td < 300000000)%Z.
Proof.
  unfold total_seconds, PyFloat.of_Z. cbn [PyFloat.ltb].
  rewrite Rltb_true. split.
  - intros H. apply lt_IZR. lra.
  - intros H. apply IZR_lt in H. lra.
Qed.

Lemma heartbeat_fresh_spec (e : Equipment.t) (now : datetime) :
  heartbeat_fresh (time_since_heartbeat e now) = true
  <-> exists hb, Equipment.last_heartbeat e = Some hb
                 /\ (now - hb <> 0)%Z /\ (now - hb < 300000000)%Z.
Proof.
  unfold time_since_heartbeat, heartbeat_fresh.
  destruct (Equipment.last_heartbeat e) as [hb|].
  - rewrite andb_true_iff, total_seconds_truthy, total_seconds_lt_300. split.
    + intros [H1 H2]. now exists hb.
    + intros (hb' & E & H1 & H2). injection E as <-. now split.
  - split; [discriminate|]. intros (hb & E & _). discriminate.
Qed.

(** What the code computes: HEALTHY needs a heartbeat whose age is below
    300 seconds and is not exactly zero. *)
Lemma health_status_spec (e : Equipment.t) (now : datetime) :
  let fresh := exists hb, Equipment.last_heartbeat e = Some hb
                          /\ (now - hb <> 0)%Z /\ (now - hb < 300000000)%Z in
  (health_status e now = "HEALTHY"%string
     <-> Equipment.is_connected e = true /\ fresh)
  /\ (health_status e now = "DEGRADED"%string
     <-> Equipment.is_connected e = true /\ ~ fresh)
  /\ (health_status e now = "OFFLINE"%string
     <-> Equipment.is_connected e = false).
Proof.
  cbv zeta. unfold health_status.
  pose proof (heartbeat_fresh_spec e now) as Hf.
  destruct (Equipment.is_connected e).
  - destruct (heartbeat_fresh (time_since_heartbeat e now)).
    + assert (Hy : exists hb, Equipment.last_heartbeat e = Some hb
                     /\ (now - hb <> 0)%Z /\ (now - hb < 300000000)%Z)
        by now apply Hf.
      split; [|split]; split; intros H; try discriminate; try reflexivity.
      * now split.
      * destruct H as [_ H]. contradiction.
    + assert (Hn : ~ exists hb, Equipment.last_heartbeat e = Some hb
                     /\ (now - hb <> 0)%Z /\ (now - hb < 300000000)%Z)
        by (intros H; apply Hf in H; discriminate).
      split; [|split]; split; intros H; try discriminate; try reflexivity.
      * destruct H as [_ H]. contradiction.
      * now split.
  - split; [|split]; split; intros H; try discriminate; try reflexivity.
    + destruct H as [H _]. discriminate.
    + destruct H as [H _]. discriminate.
Qed.

(** C5, at the input where the code leaves the claim.  A connected
    equipment whose heartbeat is at the very instant of the query (age 0.0
    seconds, inside every staleness window) is reported DEGRADED, because
    [time_since_heartbeat and ...] takes 0.0 for a missing value; one
    microsecond later the same equipment is HEALTHY. *)
Theorem health_status_zero_age :
  health_status (connected_pump 1700000000000000) 1700000000000000
    = "DEGRADED"%string
  /\ health_status (connected_pump 1700000000000000) 1700000000000001
    = "HEALTHY"%string.
Proof.
  split.
  - apply (health_status_spec (connected_pump 1700000000000000)
             1700000000000000%Z).
    split; [reflexivity|]. intros (hb & E & H & _).
    injection E as <-. now apply H.
  - apply (health_status_spec (connected_pump 1700000000000000)
             1700000000000001%Z).
    split; [reflexivity|]. exists 1700000000000000%Z.
    split; [reflexivity|]. split; [discriminate | reflexivity].
Qed.

(** ** Ingestion: what a call leaves in the database *)

Lemma lookup_equipment_none (db : DB) (equipment_id : string) :
  lookup_equipment db equipment_id = None
  <-> forall e, In e (equipment db) -> Equipment.equipment_id e <> equipment_id.
Proof.
  unfold lookup_equipment. split.
  - intros H e Hin E.
    pose proof (find_none _ _ H e Hin) as Hf. cbn beta in Hf.
    rewrite E, String.eqb_refl in Hf. discriminate.
  - intros H.
    destruct (find _ (equipment db)) as [e|] eqn:Hf; [|reflexivity].
    apply find_some in Hf as [Hin Heq]. apply String.eqb_eq in Heq.
    now apply H in Hin.
Qed.

Lemma lookup_sensor_none (db : DB) (e : Equipment.t) (sensor_type : string) :
  lookup_sensor db e sensor_type = None
  <-> forall s, In s (sensors db) ->
        ~ (Sensor.equipment_id s = Equipment.id e /\ Sensor.type s = sensor_type).
Proof.
  unfold lookup_sensor. split.
  - intros H s Hin [E1 E2].
    pose proof (find_none _ _ H s Hin) as Hf. cbn beta in Hf.
    rewrite E1, E2, Z.eqb_refl, String.eqb_refl in Hf. discriminate.
  - intros H.
    destruct (find _ (sensors db)) as [s|] eqn:Hf; [|reflexivity].
    apply find_some in Hf as [Hin Heq]. apply andb_true_iff in Heq as [E1 E2].
    apply Z.eqb_eq in E1. apply String.eqb_eq in E2.
    exfalso. now apply (H s Hin).
Qed.

Lemma lookup_equipment_some (db : DB) (equipment_id : string) (e : Equipment.t) :
  lookup_equipment db equipment_id = Some e ->
  In e (equipment db) /\ Equipment.equipment_id e = equipment_id.
Proof.
  unfold lookup_equipment. intros H. apply find_some in H as [Hin Heq].
  now apply String.eqb_eq in Heq.
Qed.

Lemma lookup_sensor_some (db : DB) (e : Equipment.t) (sensor_type : string)
  (s : Sensor.t) :
  lookup_sensor db e sensor_type = Some s ->
  In s (sensors db) /\ Sensor.equipment_id s = Equipment.id e
  /\ Sensor.type s = sensor_type.
Proof.
  unfold lookup_sensor. intros H. apply find_some in H as [Hin Heq].
  apply andb_true_iff in Heq as [E1 E2].
  apply Z.eqb_eq in E1. now apply String.eqb_eq in E2.
Qed.

(** The hints resolve exactly when both lookups succeed. *)
Lemma resolves_lookup (db : DB) (equipment_id sensor_type : string) :
  (exists e s, lookup_equipment db equipment_id = Some e
               /\ lookup_sensor db e sensor_type = Some s)
  -> resolves db equipment_id sensor_type.
Proof.
  intros (e & s & He & Hs).
  apply lookup_equipment_some in He as [Hin1 E1].
  apply lookup_sensor_some in Hs as (Hin2 & E2 & E3).
  exists e, s. tauto.
Qed.

Lemma store_sensor_data_resolved (db : DB) (now : datetime)
  (commit1 commit2 : bool) (equipment_id sensor_type : string)
  (value : pyfloat) (timestamp : datetime) (quality source_protocol : string)
  (e : Equipment.t) (s : Sensor.t) :
  lookup_equipment db equipment_id = Some e ->
  lookup_sensor db e sensor_type = Some s ->
  let db1 := add_sensor_data db
               (new_reading e s value timestamp quality source_protocol) in
  store_sensor_data db now commit1 commit2 equipment_id sensor_type value
    timestamp quality source_protocol
  = if commit1 then
      if commit2 then
        mkOutcome [db1; update_heartbeat db1 e now]
          [DebugStored equipment_id sensor_type value]
      else mkOutcome [db1] [ErrorStoring StoreError]
    else mkOutcome [] [ErrorStoring StoreError].
Proof.
  intros He Hs. cbv zeta. unfold store_sensor_data. now rewrite He, Hs.
Qed.

Lemma unresolved_lookup (db : DB) (equipment_id sensor_type : string) :
  ~ resolves db equipment_id sensor_type ->
  lookup_equipment db equipment_id = None
  \/ exists e, lookup_equipment db equipment_id = Some e
               /\ lookup_sensor db e sensor_type = None.
Proof.
  intros H.
  destruct (lookup_equipment db equipment_id) as [e|] eqn:He; [|now left].
  right. exists e. split; [reflexivity|].
  destruct (lookup_sensor db e sensor_type) as [s|] eqn:Hs; [|reflexivity].
  exfalso. apply H. apply resolves_lookup. now exists e, s.
Qed.

(** C3, as the code has it.  When the hints name no equipment row, or no
    sensor row of that equipment, the call commits nothing: the readings
    and the connectivity columns stay as they were, and one not-found
    warning is logged.  Only the existence of the rows is looked at. *)
Theorem unresolved_identity_dropped (db : DB) (now : datetime)
  (commit1 commit2 : bool) (equipment_id sensor_type : string)
  (value : pyfloat) (timestamp : datetime) (quality source_protocol : string) :
  ~ resolves db equipment_id sensor_type ->
  let o := store_sensor_data db now commit1 commit2 equipment_id sensor_type
             value timestamp quality source_protocol in
  committed o = []
  /\ final_db db o = db
  /\ (log o = [WarnEquipmentNotFound equipment_id]
      \/ log o = [WarnSensorNotFound equipment_id sensor_type]).
Proof.
  intros H. cbv zeta. unfold store_sensor_data, final_db.
  destruct (unresolved_lookup db equipment_id sensor_type H)
    as [He | (e & He & Hs)].
  - rewrite He. cbn. auto.
  - rewrite He, Hs. cbn. auto.
Qed.

Lemma unresolved_identity_dropped_witness :
  ~ resolves live_db "pump-1" "pressure"
  /\ final_db live_db
       (store_sensor_data live_db 2000000 true true "pump-1" "pressure"
          (PyFloat.Fin 3) 1000000 "GOOD" "MQTT") = live_db.
Proof.
  assert (H : ~ resolves live_db "pump-1" "pressure").
  { intros (e & s & _ & _ & [<- | []] & _ & Ht). discriminate. }
  split; [exact H|].
  exact (proj1 (proj2 (unresolved_identity_dropped live_db 2000000%Z true true
                         "pump-1" "pressure" (PyFloat.Fin 3) 1000000%Z
                         "GOOD" "MQTT" H))).
Defined.

(** C3, as stated, fails.  A deactivated equipment with a deactivated
    sensor is no active pair, yet an event for it is stored as a reading
    and marks the equipment connected. *)
Lemma inactive_equipment_is_ingested :
  ~ resolves_active retired_db "compressor-7" "temperature"
  /\ (let o := store_sensor_data retired_db 2000000 true true
                "compressor-7" "temperature" (PyFloat.Fin 40) 1000000
                "GOOD" "MQTT" in
      sensor_data (final_db retired_db o)
        = [SensorData.mk 7 70 (PyFloat.Fin 40) "GOOD" 1000000 "MQTT"]
      /\ equipment (final_db retired_db o)
        = [Equipment.mk 7 "compressor-7" "Old compressor" "compressor" "MQTT"
             false true (Some 2000000%Z)]
      /\ final_db retired_db o <> retired_db).
Proof.
  split.
  - intros (e & s & [<- | []] & _ & Hact & _). discriminate.
  - cbv zeta. cbn. repeat split. discriminate.
Qed.

(** C6. Every database state that a call of [_store_sensor_data] makes
    visible holds the new reading.  With both commits succeeding there are
    two such states, in this order: the first has the reading and the
    equipment table as it was, the second adds the connected flag and the
    heartbeat.  So a state whose equipment table differs from the initial
    one always contains the reading. *)
Theorem reading_committed_before_heartbeat (db : DB) (now : datetime)
  (commit1 commit2 : bool) (equipment_id sensor_type : string)
  (value : pyfloat) (timestamp : datetime) (quality source_protocol : string) :
  let o := store_sensor_data db now commit1 commit2 equipment_id sensor_type
             value timestamp quality source_protocol in
  (forall S, In S (committed o) ->
     exists e s,
       lookup_equipment db equipment_id = Some e
       /\ lookup_sensor db e sensor_type = Some s
       /\ sensor_data S
          = sensor_data db
            ++ [new_reading e s value timestamp quality source_protocol])
  /\ (forall S, In S (committed o) -> equipment S <> equipment db ->
      exists e s,
        In (new_reading e s value timestamp quality source_protocol)
          (sensor_data S))
  /\ (forall e s,
        lookup_equipment db equipment_id = Some e ->
        lookup_sensor db e sensor_type = Some s ->
        commit1 = true -> commit2 = true ->
        exists db1,
          committed o = [db1; update_heartbeat db1 e now]
          /\ equipment db1 = equipment db
          /\ sensor_data db1
             = sensor_data db
               ++ [new_reading e s value timestamp quality source_protocol]).
Proof.
  cbv zeta.
  assert (Hall : forall S,
    In S (committed (store_sensor_data db now commit1 commit2 equipment_id
                       sensor_type value timestamp quality source_protocol)) ->
    exists e s,
      lookup_equipment db equipment_id = Some e
      /\ lookup_sensor db e sensor_type = Some s
      /\ sensor_data S
         = sensor_data db
           ++ [new_reading e s value timestamp quality source_protocol]).
  { intros S HS.
    destruct (lookup_equipment db equipment_id) as [e|] eqn:He.
    - destruct (lookup_sensor db e sensor_type) as [s|] eqn:Hs.
      + rewrite (store_sensor_data_resolved _ _ _ _ _ _ _ _ _ _ e s He Hs) in HS.
        exists e, s. split; [reflexivity|]. split; [exact Hs|].
        destruct commit1, commit2; cbn in HS;
          repeat (destruct HS as [<- | HS]; [reflexivity|]); contradiction.
      + unfold store_sensor_data in HS. rewrite He, Hs in HS. contradiction.
    - unfold store_sensor_data in HS. rewrite He in HS. contradiction. }
  split; [exact Hall|]. split.
  - intros S HS _. destruct (Hall S HS) as (e & s & _ & _ & E).
    exists e, s. rewrite E. apply in_or_app. right. now left.
  - intros e s He Hs -> ->.
    rewrite (store_sensor_data_resolved _ _ _ _ _ _ _ _ _ _ e s He Hs).
    eexists. split; [reflexivity|]. split; reflexivity.
Qed.

Lemma reading_committed_before_heartbeat_witness :
  lookup_equipment live_db "pump-1" = Some pump
  /\ lookup_sensor live_db pump "temperature" = Some pump_temperature
  /\ exists db1,
       committed (store_sensor_data live_db 2000000 true true "pump-1"
                    "temperature" (PyFloat.Fin 40) 1000000 "GOOD" "MQTT")
       = [db1; update_heartbeat db1 pump 2000000%Z]
       /\ equipment db1 = [pump]
       /\ sensor_data db1
          = [SensorData.mk 1 1 (PyFloat.Fin 40) "GOOD" 1000000 "MQTT"].
Proof.
  split; [reflexivity|]. split; [reflexivity|].
  destruct (reading_committed_before_heartbeat live_db 2000000%Z true true
              "pump-1" "temperature" (PyFloat.Fin 40) 1000000%Z "GOOD" "MQTT")
    as (_ & _ & H).
  exact (H pump pump_temperature eq_refl eq_refl eq_refl eq_refl).
Defined.

(** ** Ingestion: the value of an event *)

(** C2, as the code has it.  A value that [float()] cannot convert is
    dropped by both adapters: nothing is committed, the database is as it
    was, and at most one record is logged.  A float is never rejected by
    the conversion, whatever it is, NaN and the infinities included, and a
    converted value is stored as it is. *)
Theorem unconvertible_value_dropped
  (float_of_str : string -> option pyfloat)
  (fromisoformat : string -> option datetime)
  (db : DB) (recv now : datetime) (commit1 commit2 : bool) :
  (forall message o value e,
      payload message = JsonObject o ->
      o_value o = Some value ->
      py_float float_of_str value = Raise e ->
      let out := handle_message float_of_str fromisoformat db recv now
                   commit1 commit2 message in
      committed out = [] /\ final_db db out = db
      /\ (log out = [ErrorHandling e] \/ log out = []))
  /\ (forall monitored_nodes node_id value timestamp,
      numeric_value float_of_str value = None ->
      let out := process_node_data float_of_str monitored_nodes db now
                   commit1 commit2 node_id value timestamp in
      committed out = [] /\ final_db db out = db
      /\ (log out = [WarnCannotConvert value] \/ log out = []))
  /\ (forall x, py_float float_of_str (VFloat x) = Ok x
                /\ numeric_value float_of_str (VFloat x) = Some x)
  /\ (forall equipment_id sensor_type x timestamp quality source_protocol e s,
      lookup_equipment db equipment_id = Some e ->
      lookup_sensor db e sensor_type = Some s ->
      sensor_data
        (final_db db
           (store_sensor_data db now true true equipment_id sensor_type x
              timestamp quality source_protocol))
      = sensor_data db
        ++ [new_reading e s x timestamp quality source_protocol]).
Proof.
  split; [|split; [|split]].
  - intros message o value e Hp Hv He. cbv zeta. unfold handle_message.
    destruct (split_on "/" (topic message)) as [|a [|b [|c l]]];
      try (cbn; auto).
    rewrite Hp, Hv.
    destruct value; try (rewrite He); cbn; auto.
  - intros monitored_nodes node_id value timestamp Hn. cbv zeta.
    unfold process_node_data.
    destruct (dict_get node_id monitored_nodes) as [[eid stype]|];
      [rewrite Hn|]; cbn; auto.
  - intros x. split; reflexivity.
  - intros equipment_id sensor_type x timestamp quality source_protocol e s
      He Hs.
    rewrite (store_sensor_data_resolved _ _ _ _ _ _ _ _ _ _ e s He Hs).
    reflexivity.
Qed.

Lemma unconvertible_value_dropped_witness :
  py_float known_floats (VStr "hot") = Raise ValueError
  /\ handle_message known_floats known_datetimes live_db 1000000 2000000
       true true (mqtt_event "equipment/pump-1/temperature" (VStr "hot"))
     = mkOutcome [] [ErrorHandling ValueError]
  /\ numeric_value known_floats (VStr "hot") = None
  /\ final_db live_db
       (process_node_data known_floats monitored_nodes_sample live_db 2000000
          true true "ns=2;i=7" (VStr "hot") 1000000) = live_db.
Proof.
  destruct (unconvertible_value_dropped known_floats known_datetimes live_db
              1000000%Z 2000000%Z true true) as (Hm & Ho & _ & _).
  split; [reflexivity|]. split; [reflexivity|]. split; [reflexivity|].
  exact (proj1 (proj2 (Ho monitored_nodes_sample "ns=2;i=7"%string
                          (VStr "hot") 1000000%Z eq_refl))).
Defined.

(** C2, as stated, fails.  An MQTT payload whose value is the JSON
    literal NaN, or the string "inf", and an OPC UA value that is the float
    +infinity, each leave a reading with that non-finite value in the
    store. *)
Lemma non_finite_reading_is_stored :
  sensor_data
    (final_db live_db
       (handle_message known_floats known_datetimes live_db 1000000 2000000
          true true
          (mqtt_event "equipment/pump-1/temperature" (VFloat PyFloat.NaN))))
  = [SensorData.mk 1 1 PyFloat.NaN "GOOD" 1000000 "MQTT"]
  /\ sensor_data
       (final_db live_db
          (handle_message known_floats known_datetimes live_db 1000000 2000000
             true true
             (mqtt_event "equipment/pump-1/temperature" (VStr "inf"))))
     = [SensorData.mk 1 1 PyFloat.PInf "GOOD" 1000000 "MQTT"]
  /\ sensor_data
       (final_db live_db
          (process_node_data known_floats monitored_nodes_sample live_db
             2000000 true true "ns=2;i=7" (VFloat PyFloat.PInf) 1000000))
     = [SensorData.mk 1 1 PyFloat.PInf "GOOD" 1000000 "OPC_UA"]
  /\ forallb (fun d => PyFloat.is_finite (SensorData.value d))
       (sensor_data
          (final_db live_db
             (handle_message known_floats known_datetimes live_db 1000000
                2000000 true true
                (mqtt_event "equipment/pump-1/temperature"
                   (VFloat PyFloat.NaN)))))
     = false.
Proof. repeat split. Qed.

(** ** Ingestion: what a handled event becomes *)

Lemma handle_message_resolved
  (float_of_str : string -> option pyfloat)
  (fromisoformat : string -> option datetime)
  (db : DB) (recv now : datetime) (commit1 commit2 : bool)
  (message : mqtt_message) (prefix equipment_id sensor_type : string)
  (rest : list string) (o : mqtt_object) (value : pyval) (x : pyfloat)
  (ts : datetime) :
  split_on "/" (topic message) = prefix :: equipment_id :: sensor_type :: rest ->
  payload message = JsonObject o ->
  o_value o = Some value ->
  py_float float_of_str value = Ok x ->
  event_timestamp fromisoformat recv o = Some ts ->
  handle_message float_of_str fromisoformat db recv now commit1 commit2 message
  = store_sensor_data db now commit1 commit2 equipment_id sensor_type x ts
      (event_quality o) "MQTT".
Proof.
  intros Ht Hp Hv Hx Hts. unfold handle_message.
  unfold event_timestamp in Hts. unfold event_quality.
  rewrite Ht, Hp, Hv.
  destruct value; try (rewrite Hx, Hts; reflexivity).
  cbn in Hx. discriminate.
Qed.

(** X1. An MQTT message on a topic with at least three levels, whose
    payload is an object with a convertible value and a usable timestamp,
    for an equipment and sensor that are found, with both commits
    succeeding: the store gains exactly one reading, with the converted
    value, the payload's timestamp (the receipt time when it has none),
    the payload's quality (GOOD when it has none) and protocol MQTT; one
    debug record is logged. *)
Theorem mqtt_event_stored
  (float_of_str : string -> option pyfloat)
  (fromisoformat : string -> option datetime)
  (db : DB) (recv now : datetime)
  (message : mqtt_message) (prefix equipment_id sensor_type : string)
  (rest : list string) (o : mqtt_object) (value : pyval) (x : pyfloat)
  (ts : datetime) (e : Equipment.t) (s : Sensor.t) :
  split_on "/" (topic message) = prefix :: equipment_id :: sensor_type :: rest ->
  payload message = JsonObject o ->
  o_value o = Some value ->
  py_float float_of_str value = Ok x ->
  event_timestamp fromisoformat recv o = Some ts ->
  lookup_equipment db equipment_id = Some e ->
  lookup_sensor db e sensor_type = Some s ->
  let out := handle_message float_of_str fromisoformat db recv now true true
               message in
  sensor_data (final_db db out)
    = sensor_data db ++ [new_reading e s x ts (event_quality o) "MQTT"]
  /\ log out = [DebugStored equipment_id sensor_type x].
Proof.
  intros Ht Hp Hv Hx Hts He Hs. cbv zeta.
  rewrite (handle_message_resolved _ _ _ _ _ _ _ _ _ _ _ _ _ _ _ _
             Ht Hp Hv Hx Hts).
  rewrite (store_sensor_data_resolved _ _ _ _ _ _ _ _ _ _ e s He Hs).
  split; reflexivity.
Qed.

Lemma mqtt_event_stored_witness :
  sensor_data
    (final_db live_db
       (handle_message known_floats known_datetimes live_db 5000000 6000000
          true true
          (mkMessage "equipment/pump-1/temperature"
             (JsonObject
                (mkObject (Some (VStr "21.5"))
                   (Some "1970-01-01T00:00:01Z"%string)
                   (Some "UNCERTAIN"%string))))))
  = [SensorData.mk 1 1 (PyFloat.Fin (43 / 2)) "UNCERTAIN" 1000000 "MQTT"].
Proof.
  exact (proj1 (mqtt_event_stored known_floats known_datetimes live_db
                  5000000%Z 6000000%Z
                  (mkMessage "equipment/pump-1/temperature"
                     (JsonObject
                        (mkObject (Some (VStr "21.5"))
                           (Some "1970-01-01T00:00:01Z"%string)
                           (Some "UNCERTAIN"%string))))
                  "equipment" "pump-1" "temperature" []
                  (mkObject (Some (VStr "21.5"))
                     (Some "1970-01-01T00:00:01Z"%string)
                     (Some "UNCERTAIN"%string))
                  (VStr "21.5") (PyFloat.Fin (43 / 2)) 1000000%Z
                  pump pump_temperature
                  eq_refl eq_refl eq_refl eq_refl eq_refl eq_refl eq_refl)).
Defined.

(** X2. After a call of [_store_sensor_data] that finds its rows and
    commits twice, every equipment row with the primary key of the
    resolved equipment is connected with its heartbeat at the wall-clock
    time of the call, whatever the timestamp of the event; the rows with
    another key, the order of the rows and the sensor table are as
    before. *)
Theorem heartbeat_is_receipt_time (db : DB) (now : datetime)
  (equipment_id sensor_type : string) (value : pyfloat) (timestamp : datetime)
  (quality source_protocol : string) (e : Equipment.t) (s : Sensor.t) :
  lookup_equipment db equipment_id = Some e ->
  lookup_sensor db e sensor_type = Some s ->
  let db' := final_db db
               (store_sensor_data db now true true equipment_id sensor_type
                  value timestamp quality source_protocol) in
  equipment db'
    = map (fun x => if Z.eqb (Equipment.id x) (Equipment.id e)
                    then Equipment.set_seen x now else x) (equipment db)
  /\ (forall x, In x (equipment db') -> Equipment.id x = Equipment.id e ->
      Equipment.is_connected x = true
      /\ Equipment.last_heartbeat x = Some now)
  /\ (forall x, In x (equipment db) -> Equipment.id x <> Equipment.id e ->
      In x (equipment db'))
  /\ In (Equipment.set_seen e now) (equipment db')
  /\ sensors db' = sensors db.
Proof.
  intros He Hs. cbv zeta.
  rewrite (store_sensor_data_resolved _ _ _ _ _ _ _ _ _ _ e s He Hs).
  cbn [final_db committed last update_heartbeat add_sensor_data equipment
       sensors].
  split; [reflexivity|]. split; [|split; [|split; [|reflexivity]]].
  - intros x Hin Hid. apply in_map_iff in Hin as (y & Hy & _).
    destruct (Z.eqb (Equipment.id y) (Equipment.id e)) eqn:E.
    + subst x. split; reflexivity.
    + subst x. apply Z.eqb_neq in E. contradiction.
  - intros x Hin Hid. apply in_map_iff. exists x. split; [|exact Hin].
    now rewrite (proj2 (Z.eqb_neq _ _) Hid).
  - apply lookup_equipment_some in He as [Hin _].
    apply in_map_iff. exists e. split; [|exact Hin].
    now rewrite Z.eqb_refl.
Qed.

Lemma heartbeat_is_receipt_time_witness :
  equipment
    (final_db live_db
       (store_sensor_data live_db 9000000 true true "pump-1" "temperature"
          (PyFloat.Fin 40) 1000000 "GOOD" "MQTT"))
  = [connected_pump 9000000].
Proof.
  exact (proj1 (heartbeat_is_receipt_time live_db 9000000%Z "pump-1"
                  "temperature" (PyFloat.Fin 40) 1000000%Z "GOOD" "MQTT"
                  pump pump_temperature eq_refl eq_refl)).
Defined.

(** X3. A failing commit never leaves a partial update behind.  When
    the first commit fails the database is as it was.  When the first
    succeeds and the second fails the reading stays stored while the
    equipment table (connected flag, heartbeat) is as it was.  In both
    cases one error record is logged and nothing is raised to the caller. *)
Theorem failed_commit_outcome (db : DB) (now : datetime)
  (equipment_id sensor_type : string) (value : pyfloat) (timestamp : datetime)
  (quality source_protocol : string) (e : Equipment.t) (s : Sensor.t) :
  lookup_equipment db equipment_id = Some e ->
  lookup_sensor db e sensor_type = Some s ->
  (forall commit2,
      let out := store_sensor_data db now false commit2 equipment_id
                   sensor_type value timestamp quality source_protocol in
      final_db db out = db /\ log out = [ErrorStoring StoreError])
  /\ (let out := store_sensor_data db now true false equipment_id sensor_type
                   value timestamp quality source_protocol in
      sensor_data (final_db db out)
        = sensor_data db
          ++ [new_reading e s value timestamp quality source_protocol]
      /\ equipment (final_db db out) = equipment db
      /\ log out = [ErrorStoring StoreError]).
Proof.
  intros He Hs. split.
  - intros commit2. cbv zeta.
    rewrite (store_sensor_data_resolved _ _ _ _ _ _ _ _ _ _ e s He Hs).
    split; reflexivity.
  - cbv zeta.
    rewrite (store_sensor_data_resolved _ _ _ _ _ _ _ _ _ _ e s He Hs).
    repeat split.
Qed.

Lemma failed_commit_outcome_witness :
  equipment
    (final_db live_db
       (store_sensor_data live_db 9000000 true false "pump-1" "temperature"
          (PyFloat.Fin 40) 1000000 "GOOD" "MQTT")) = [pump]
  /\ sensor_data
       (final_db live_db
          (store_sensor_data live_db 9000000 true false "pump-1" "temperature"
             (PyFloat.Fin 40) 1000000 "GOOD" "MQTT"))
     = [SensorData.mk 1 1 (PyFloat.Fin 40) "GOOD" 1000000 "MQTT"].
Proof.
  destruct (failed_commit_outcome live_db 9000000%Z "pump-1" "temperature"
              (PyFloat.Fin 40) 1000000%Z "GOOD" "MQTT" pump pump_temperature
              eq_refl eq_refl) as (_ & H1 & H2 & _).
  split; [exact H2 | exact H1].
Defined.

(** X4. An MQTT message that the handler does not act on leaves no trace:
    when the topic has fewer than three levels, or the payload object has
    no value or a null value, nothing is committed and nothing is logged. *)
Theorem mqtt_silent_drop
  (float_of_str : string -> option pyfloat)
  (fromisoformat : string -> option datetime)
  (db : DB) (recv now : datetime) (commit1 commit2 : bool)
  (message : mqtt_message) :
  (List.length (split_on "/" (topic message)) < 3)%nat
  \/ (exists o, payload message = JsonObject o
                /\ (o_value o = None \/ o_value o = Some VNone)) ->
  handle_message float_of_str fromisoformat db recv now commit1 commit2 message
  = mkOutcome [] [].
Proof.
  intros H. unfold handle_message.
  destruct (split_on "/" (topic message)) as [|a [|b [|c l]]] eqn:Hs;
    try reflexivity.
  destruct H as [H | (o & Hp & Hv)]; [cbn in H; lia|].
  rewrite Hp. destruct Hv as [-> | ->]; reflexivity.
Qed.

Lemma mqtt_silent_drop_witness :
  handle_message known_floats known_datetimes live_db 5000000 6000000 true true
    (mkMessage "equipment/pump-1/temperature"
       (JsonObject (mkObject (Some VNone) None None)))
  = mkOutcome [] []
  /\ handle_message known_floats known_datetimes live_db 5000000 6000000
       true true (mqtt_event "pump-1/temperature" (VInt 3))
     = mkOutcome [] [].
Proof.
  split.
  - apply mqtt_silent_drop. right. eexists. split; [reflexivity|]. now right.
  - apply mqtt_silent_drop. left. cbn. lia.
Defined.

(** X5. A timestamp string that [datetime.fromisoformat] rejects makes
    the MQTT handler drop the event: nothing is committed and one error is
    logged; the receipt time is not used in its place. *)
Theorem mqtt_bad_timestamp_dropped
  (float_of_str : string -> option pyfloat)
  (fromisoformat : string -> option datetime)
  (db : DB) (recv now : datetime) (commit1 commit2 : bool)
  (message : mqtt_message) (prefix equipment_id sensor_type : string)
  (rest : list string) (o : mqtt_object) (value : pyval) (x : pyfloat)
  (text : string) :
  split_on "/" (topic message) = prefix :: equipment_id :: sensor_type :: rest ->
  payload message = JsonObject o ->
  o_value o = Some value ->
  py_float float_of_str value = Ok x ->
  o_timestamp o = Some text ->
  fromisoformat (str_replace "Z" "+00:00" text) = None ->
  handle_message float_of_str fromisoformat db recv now commit1 commit2 message
  = mkOutcome [] [ErrorHandling ValueError].
Proof.
  intros Ht Hp Hv Hx Hts Hbad. unfold handle_message.
  rewrite Ht, Hp, Hv.
  destruct value; try (rewrite Hx, Hts, Hbad; reflexivity).
  cbn in Hx. discriminate.
Qed.

Lemma mqtt_bad_timestamp_dropped_witness :
  handle_message known_floats known_datetimes live_db 5000000 6000000 true true
    (mkMessage "equipment/pump-1/temperature"
       (JsonObject (mkObject (Some (VInt 3)) (Some "yesterday"%string) None)))
  = mkOutcome [] [ErrorHandling ValueError].
Proof.
  exact (mqtt_bad_timestamp_dropped known_floats known_datetimes live_db
           5000000%Z 6000000%Z true true
           (mkMessage "equipment/pump-1/temperature"
              (JsonObject
                 (mkObject (Some (VInt 3)) (Some "yesterday"%string) None)))
           "equipment" "pump-1" "temperature" []
           (mkObject (Some (VInt 3)) (Some "yesterday"%string) None)
           (VInt 3) (PyFloat.of_Z 3) "yesterday"
           eq_refl eq_refl eq_refl eq_refl eq_refl eq_refl).
Defined.

(** X6. A data change of a monitored OPC UA node whose value converts,
    for an equipment and sensor that are found, with both commits
    succeeding, adds exactly one reading: the converted value, the
    timestamp handed in by the subscription handler, quality GOOD and
    protocol OPC_UA.  A data change of a node that is not monitored
    commits nothing and logs nothing. *)
Theorem opcua_value_stored
  (float_of_str : string -> option pyfloat)
  (monitored_nodes : list (string * (string * string)))
  (db : DB) (now : datetime) (commit1 commit2 : bool)
  (node_id : string) (value : pyval) (timestamp : datetime) :
  (forall equipment_id sensor_type x e s,
      dict_get node_id monitored_nodes = Some (equipment_id, sensor_type) ->
      numeric_value float_of_str value = Some x ->
      lookup_equipment db equipment_id = Some e ->
      lookup_sensor db e sensor_type = Some s ->
      let out := process_node_data float_of_str monitored_nodes db now
                   true true node_id value timestamp in
      sensor_data (final_db db out)
        = sensor_data db ++ [new_reading e s x timestamp "GOOD" "OPC_UA"]
      /\ log out = [DebugStored equipment_id sensor_type x])
  /\ (dict_get node_id monitored_nodes = None ->
      process_node_data float_of_str monitored_nodes db now commit1 commit2
        node_id value timestamp = mkOutcome [] []).
Proof.
  split.
  - intros equipment_id sensor_type x e s Hn Hx He Hs. cbv zeta.
    unfold process_node_data. rewrite Hn, Hx.
    rewrite (store_sensor_data_resolved _ _ _ _ _ _ _ _ _ _ e s He Hs).
    split; reflexivity.
  - intros Hn. unfold process_node_data. now rewrite Hn.
Qed.

Lemma opcua_value_stored_witness :
  sensor_data
    (final_db live_db
       (process_node_data known_floats monitored_nodes_sample live_db 6000000
          true true "ns=2;i=7" (VStr "21.5") 5000000))
  = [SensorData.mk 1 1 (PyFloat.Fin (43 / 2)) "GOOD" 5000000 "OPC_UA"]
  /\ process_node_data known_floats monitored_nodes_sample live_db 6000000
       true true "ns=2;i=8" (VInt 3) 5000000 = mkOutcome [] [].
Proof.
  destruct (opcua_value_stored known_floats monitored_nodes_sample live_db
              6000000%Z true true "ns=2;i=7" (VStr "21.5") 5000000%Z)
    as [H _].
  destruct (opcua_value_stored known_floats monitored_nodes_sample live_db
              6000000%Z true true "ns=2;i=8" (VInt 3) 5000000%Z)
    as [_ H'].
  split.
  - exact (proj1 (H "pump-1"%string "temperature"%string
                    (PyFloat.Fin (43 / 2)) pump pump_temperature
                    eq_refl eq_refl eq_refl eq_refl)).
  - exact (H' eq_refl).
Defined.

(** ** Ingestion never rewrites what is stored *)

Lemma extends_store_refl (db : DB) : extends_store db db.
Proof.
  unfold extends_store. repeat split.
  exists []. rewrite app_nil_r. split; [reflexivity|cbn; lia].
Qed.

Lemma map_set_seen_fields (pk : Z) (now : datetime) (l : list Equipment.t) :
  let l' := map (fun x => if Z.eqb (Equipment.id x) pk
                          then Equipment.set_seen x now else x) l in
  map Equipment.id l' = map Equipment.id l
  /\ map Equipment.equipment_id l' = map Equipment.equipment_id l
  /\ map Equipment.is_active l' = map Equipment.is_active l.
Proof.
  cbv zeta. induction l as [|x l (IH1 & IH2 & IH3)]; [repeat split|].
  cbn [map]. rewrite IH1, IH2, IH3.
  destruct (Z.eqb (Equipment.id x) pk); repeat split.
Qed.

Lemma store_sensor_data_extends (db : DB) (now : datetime)
  (commit1 commit2 : bool) (equipment_id sensor_type : string)
  (value : pyfloat) (timestamp : datetime) (quality source_protocol : string)
  (S : DB) :
  In S (committed (store_sensor_data db now commit1 commit2 equipment_id
                     sensor_type value timestamp quality source_protocol)) ->
  extends_store db S.
Proof.
  unfold store_sensor_data.
  destruct (lookup_equipment db equipment_id) as [e|]; [|contradiction].
  destruct (lookup_sensor db e sensor_type) as [s|]; [|contradiction].
  assert (H1 : extends_store db
                 (add_sensor_data db
                    (SensorData.mk (Equipment.id e) (Sensor.id s) value
                       quality timestamp source_protocol))).
  { unfold extends_store. cbn [add_sensor_data sensor_data sensors equipment].
    repeat split. eexists. split; [reflexivity|cbn; lia]. }
  assert (H2 : extends_store db
                 (update_heartbeat
                    (add_sensor_data db
                       (SensorData.mk (Equipment.id e) (Sensor.id s) value
                          quality timestamp source_protocol)) e now)).
  { unfold extends_store.
    cbn [update_heartbeat add_sensor_data sensor_data sensors equipment].
    pose proof (map_set_seen_fields (Equipment.id e) now (equipment db))
      as (E1 & E2 & E3).
    repeat split; try assumption.
    eexists. split; [reflexivity|cbn; lia]. }
  destruct commit1, commit2; cbn [committed In]; intros H;
    repeat (destruct H as [<- | H]; [assumption|]); contradiction.
Qed.

(** X7. Ingestion is append-only.  Whatever message or data change
    comes in and whether the commits succeed or not, every database state
    that either handler makes visible has the old readings as they were,
    followed by at most one new reading; the sensor table is untouched;
    and no equipment row is added, removed, renamed or (de)activated. *)
Theorem ingestion_append_only
  (float_of_str : string -> option pyfloat)
  (fromisoformat : string -> option datetime)
  (monitored_nodes : list (string * (string * string)))
  (db : DB) (recv now : datetime) (commit1 commit2 : bool)
  (message : mqtt_message) (node_id : string) (value : pyval)
  (timestamp : datetime) (S : DB) :
  (In S (committed (handle_message float_of_str fromisoformat db recv now
                      commit1 commit2 message))
   \/ In S (committed (process_node_data float_of_str monitored_nodes db now
                         commit1 commit2 node_id value timestamp))) ->
  extends_store db S.
Proof.
  intros [H | H].
  - unfold handle_message in H.
    destruct (split_on "/" (topic message)) as [|a [|b [|c l]]];
      try contradiction.
    destruct (payload message) as [|o|]; try contradiction.
    destruct (o_value o) as [v|]; [|contradiction].
    destruct v; try contradiction;
      match type of H with
      | context [py_float ?f ?v] => destruct (py_float f v)
      end; try contradiction;
      (destruct (match o_timestamp o with
                 | Some s => fromisoformat (str_replace "Z" "+00:00" s)
                 | None => Some recv
                 end); [|contradiction]);
      eapply store_sensor_data_extends; exact H.
  - unfold process_node_data in H.
    destruct (dict_get node_id monitored_nodes) as [[eid stype]|];
      [|contradiction].
    destruct (numeric_value float_of_str value); [|contradiction].
    eapply store_sensor_data_extends; exact H.
Qed.

Lemma ingestion_append_only_witness :
  extends_store live_db
    (final_db live_db
       (handle_message known_floats known_datetimes live_db 5000000 6000000
          true true (mqtt_event "equipment/pump-1/temperature" (VInt 3)))).
Proof.
  apply (ingestion_append_only known_floats known_datetimes
           monitored_nodes_sample live_db 5000000%Z 6000000%Z true true
           (mqtt_event "equipment/pump-1/temperature" (VInt 3))
           "ns=2;i=7" (VInt 3) 5000000%Z).
  left. cbn. right. left. reflexivity.
Defined.

(** ** Topics *)

Lemma split_on_plain (c : ascii) (w : string) :
  has_char c w = false -> split_on c w = [w].
Proof.
  induction w as [|a w IH]; [reflexivity|].
  cbn [has_char split_on]. intros H. apply orb_false_iff in H as [Ha Hw].
  rewrite Ha, (IH Hw). reflexivity.
Qed.

Lemma split_on_level (c : ascii) (w rest : string) :
  has_char c w = false ->
  split_on c (w ++ String c rest) = w :: split_on c rest.
Proof.
  induction w as [|a w IH]; intros H.
  - cbn [append split_on]. now rewrite Ascii.eqb_refl.
  - cbn [has_char] in H. apply orb_false_iff in H as [Ha Hw].
    cbn [append split_on]. rewrite Ha, (IH Hw). reflexivity.
Qed.

(** X8. Splitting a topic gives back the levels it was joined from,
    as long as no level contains a slash: the handler reads exactly the
    equipment id and channel that were put into the topic.  In particular
    the topic of [publish_command] splits into "equipment", the equipment
    id, "command" and the command. *)
Theorem topic_levels_round_trip (parts : list string) :
  parts <> [] ->
  Forall (fun w => has_char "/" w = false) parts ->
  split_on "/" (join_slash parts) = parts
  /\ (forall equipment_id command,
      parts = [equipment_id; command] ->
      split_on "/" (command_topic equipment_id command)
      = ["equipment"; equipment_id; "command"; command]%string).
Proof.
  intros Hne Hall.
  assert (Hsplit : forall ps, ps <> [] ->
            Forall (fun w => has_char "/" w = false) ps ->
            split_on "/" (join_slash ps) = ps).
  { induction ps as [|w ps IH]; intros Hn Hf; [contradiction|].
    inversion Hf as [|? ? Hw Hps]; subst.
    destruct ps as [|w' ps'].
    - cbn [join_slash]. now apply split_on_plain.
    - change (join_slash (w :: w' :: ps'))
        with (w ++ String "/" (join_slash (w' :: ps')))%string.
      rewrite split_on_level by exact Hw.
      rewrite IH; [reflexivity|discriminate|exact Hps]. }
  split; [now apply Hsplit|].
  intros equipment_id command ->.
  inversion Hall as [|? ? H1 H2]; subst.
  change (command_topic equipment_id command)
    with (join_slash ["equipment"; equipment_id; "command"; command]%string).
  apply Hsplit; [discriminate|].
  repeat constructor; try assumption.
  now inversion H2.
Qed.

Lemma topic_levels_round_trip_witness :
  split_on "/" (join_slash ["equipment"; "pump-1"; "temperature"]%string)
  = ["equipment"; "pump-1"; "temperature"]%string.
Proof.
  apply (topic_levels_round_trip ["equipment"; "pump-1"; "temperature"]%string).
  - discriminate.
  - repeat constructor.
Defined.

(** ** The MQTT service object *)

Lemma subscribe_fold_flags (subscribe_ok : string -> bool)
  (topics : list string) (svc : mqtt_service) :
  let svc' :=
    fold_left
      (fun sv topic_ =>
         if subscribe_ok topic_ then
           mkService (has_client sv) (svc_is_connected sv)
             (subscribed_topics sv ++ [topic_])
         else sv) topics svc in
  has_client svc' = has_client svc
  /\ svc_is_connected svc' = svc_is_connected svc
  /\ subscribed_topics svc'
     = subscribed_topics svc ++ filter subscribe_ok topics.
Proof.
  cbv zeta. revert svc. induction topics as [|t topics IH]; intros svc.
  - cbn. now rewrite app_nil_r.
  - cbn [fold_left filter]. destruct (subscribe_ok t).
    + destruct (IH (mkService (has_client svc) (svc_is_connected svc)
                      (subscribed_topics svc ++ [t]))) as (H1 & H2 & H3).
      rewrite H1, H2, H3. cbn [has_client svc_is_connected subscribed_topics].
      now rewrite <- app_assoc.
    + apply IH.
Qed.

(** X9. [publish_command] publishes only through a connected client.
    After a successful [connect] a command goes out on the topic
    equipment/<id>/command/<command>; after a successful [disconnect],
    after a failed [connect], and on a service that was never connected,
    the call raises "not connected" and nothing is published.  A
    [disconnect] whose transport call fails leaves the service marked
    connected. *)
Theorem publish_needs_connection (subscribe_ok : string -> bool)
  (svc : mqtt_service) (equipment_id command message : string) :
  let up := fst (connect true subscribe_ok svc) in
  publish_command up true equipment_id command message
    = Published (command_topic equipment_id command) message
  /\ publish_command (disconnect true up) true equipment_id command message
     = NotConnected
  /\ publish_command (fst (connect false subscribe_ok svc)) true
       equipment_id command message = NotConnected
  /\ publish_command new_service true equipment_id command message
     = NotConnected
  /\ disconnect false up = up.
Proof.
  cbv zeta. unfold connect, subscribe_to_topics. cbn [fst].
  destruct (subscribe_fold_flags subscribe_ok MQTT_TOPICS
              (mkService true true (subscribed_topics svc)))
    as (H1 & H2 & _).
  cbv zeta in H1, H2. cbn [has_client svc_is_connected] in H1, H2.
  unfold publish_command, disconnect. rewrite H1, H2. cbn.
  repeat split.
Qed.

(** X10. The list of subscribed topics only grows.  A successful
    [connect] appends the configured topics whose subscription succeeded,
    in their configured order; [disconnect] removes none.  So connecting,
    disconnecting and connecting again lists the topics of both rounds. *)
Theorem resubscription_accumulates (ok1 ok2 : string -> bool) (exit_ok : bool)
  (svc : mqtt_service) :
  subscribed_topics (fst (connect true ok1 svc))
    = subscribed_topics svc ++ filter ok1 MQTT_TOPICS
  /\ subscribed_topics (disconnect exit_ok svc) = subscribed_topics svc
  /\ subscribed_topics
       (fst (connect true ok2
               (disconnect exit_ok (fst (connect true ok1 svc)))))
     = subscribed_topics svc ++ filter ok1 MQTT_TOPICS
       ++ filter ok2 MQTT_TOPICS.
Proof.
  assert (Hc : forall ok sv,
            subscribed_topics (fst (connect true ok sv))
            = subscribed_topics sv ++ filter ok MQTT_TOPICS).
  { intros ok sv. unfold connect, subscribe_to_topics. cbn [fst].
    destruct (subscribe_fold_flags ok MQTT_TOPICS
                (mkService true true (subscribed_topics sv)))
      as (_ & _ & H).
    exact H. }
  assert (Hd : forall b sv,
            subscribed_topics (disconnect b sv) = subscribed_topics sv).
  { intros b sv. unfold disconnect.
    destruct (has_client sv && svc_is_connected sv), b; reflexivity. }
  split; [apply Hc|]. split; [apply Hd|].
  rewrite Hc, Hd, Hc. now rewrite app_assoc.
Qed.

(** ** Monitoring set-up of the OPC UA service *)

Lemma dict_get_set {V : Type} (key key' : string) (v : V)
  (d : list (string * V)) :
  dict_get key (dict_set key' v d)
  = if String.eqb key' key then Some v else dict_get key d.
Proof.
  induction d as [|[a x] d IH].
  - cbn. destruct (String.eqb key' key); reflexivity.
  - cbn [dict_set]. destruct (String.eqb a key') eqn:Ea.
    + apply String.eqb_eq in Ea. subst a. cbn [dict_get].
      destruct (String.eqb key' key); reflexivity.
    + cbn [dict_get]. rewrite IH.
      destruct (String.eqb a key) eqn:Ek; [|reflexivity].
      apply String.eqb_eq in Ek. subst a.
      rewrite String.eqb_sym in Ea. now rewrite Ea.
Qed.

(** What every entry of the monitored-node dict must come from. *)
Lemma monitor_equipment_sound (subscribe_ok : string -> bool)
  (P : string -> string -> string -> Prop) (equipment_id : string)
  (node_ids : list node_config)
  (monitored_nodes : list (string * (string * string))) :
  (forall nid eid st, dict_get nid monitored_nodes = Some (eid, st) ->
                      P nid eid st) ->
  (forall nc nid, In nc node_ids -> nc_node_id nc = Some nid ->
                  nid <> ""%string -> subscribe_ok nid = true ->
                  P nid equipment_id (nc_sensor_type nc)) ->
  forall nid eid st,
    dict_get nid (monitor_equipment subscribe_ok equipment_id node_ids
                    monitored_nodes) = Some (eid, st) ->
    P nid eid st.
Proof.
  revert monitored_nodes.
  induction node_ids as [|nc rest IH]; intros m Hm Hnew nid eid st;
    cbn [monitor_equipment]; [apply Hm|].
  assert (Hrest : forall nc' nid', In nc' rest -> nc_node_id nc' = Some nid' ->
            nid' <> ""%string -> subscribe_ok nid' = true ->
            P nid' equipment_id (nc_sensor_type nc'))
    by (intros nc' nid' Hin; apply Hnew; now right).
  destruct (nc_node_id nc) as [node_id|] eqn:Hid; [|now apply IH].
  destruct (String.eqb node_id "") eqn:He; [now apply IH|].
  destruct (subscribe_ok node_id) eqn:Hok; [|apply Hm].
  apply IH; [|exact Hrest].
  intros nid' eid' st'. rewrite dict_get_set.
  destruct (String.eqb node_id nid') eqn:E.
  - apply String.eqb_eq in E. subst nid'. intros H. injection H as <- <-.
    apply (Hnew nc node_id); [now left|exact Hid| |exact Hok].
    intros ->. discriminate.
  - apply Hm.
Qed.

(** X11. After the monitoring set-up, every monitored node belongs to
    an equipment row that is active and speaks OPC UA: the dict maps the
    node id to that row's equipment id and to the sensor type of one of its
    configured nodes, and the subscription to the node succeeded.  A data
    change of any other node is dropped without a log record. *)
Theorem opcua_monitoring_sound (float_of_str : string -> option pyfloat)
  (subscribe_ok : string -> bool)
  (connection_config : Z -> list node_config) (db : DB) (node_id : string) :
  let monitored :=
    setup_equipment_monitoring subscribe_ok connection_config db [] in
  let configured equipment_id sensor_type :=
    exists e,
      In e (equipment db)
      /\ Equipment.protocol e = "OPC_UA"%string
      /\ Equipment.is_active e = true
      /\ Equipment.equipment_id e = equipment_id
      /\ In (mkNodeConfig (Some node_id) sensor_type)
           (connection_config (Equipment.id e))
      /\ subscribe_ok node_id = true in
  (forall equipment_id sensor_type,
      dict_get node_id monitored = Some (equipment_id, sensor_type) ->
      configured equipment_id sensor_type)
  /\ ((forall equipment_id sensor_type, ~ configured equipment_id sensor_type) ->
      forall now commit1 commit2 value timestamp,
        process_node_data float_of_str monitored db now commit1 commit2
          node_id value timestamp = mkOutcome [] []).
Proof.
  cbv zeta.
  set (P := fun nid eid st =>
              exists e,
                In e (equipment db)
                /\ Equipment.protocol e = "OPC_UA"%string
                /\ Equipment.is_active e = true
                /\ Equipment.equipment_id e = eid
                /\ In (mkNodeConfig (Some nid) st)
                     (connection_config (Equipment.id e))
                /\ subscribe_ok nid = true).
  assert (Hall : forall nid eid st,
            dict_get nid
              (setup_equipment_monitoring subscribe_ok connection_config db [])
            = Some (eid, st) -> P nid eid st).
  { unfold setup_equipment_monitoring.
    assert (Hgen : forall l m,
              (forall e, In e l -> In e (equipment db)
                                   /\ is_opcua_active e = true) ->
              (forall nid eid st, dict_get nid m = Some (eid, st) ->
                                  P nid eid st) ->
              forall nid eid st,
                dict_get nid
                  (fold_left
                     (fun m e =>
                        monitor_equipment subscribe_ok
                          (Equipment.equipment_id e)
                          (connection_config (Equipment.id e)) m) l m)
                = Some (eid, st) -> P nid eid st).
    { induction l as [|e l IH]; intros m Hl Hm; [exact Hm|].
      cbn [fold_left]. apply IH; [intros e' He'; apply Hl; now right|].
      apply monitor_equipment_sound; [exact Hm|].
      intros nc nid Hin Hid _ Hok.
      destruct (Hl e (or_introl eq_refl)) as [Hine Hact].
      apply andb_true_iff in Hact as [Hp Ha]. apply String.eqb_eq in Hp.
      exists e. repeat split; try assumption.
      destruct nc as [i t]. cbn in Hid |- *. now subst i. }
    apply Hgen.
    - intros e He. apply filter_In in He. exact He.
    - intros nid eid st H. discriminate. }
  split.
  - intros equipment_id sensor_type H. exact (Hall _ _ _ H).
  - intros Hnone now commit1 commit2 value timestamp.
    unfold process_node_data.
    destruct (dict_get node_id
                (setup_equipment_monitoring subscribe_ok connection_config
                   db [])) as [[eid st]|] eqn:E; [|reflexivity].
    exfalso. exact (Hnone eid st (Hall _ _ _ E)).
Qed.

Lemma opcua_monitoring_sound_witness :
  setup_equipment_monitoring (fun _ => true) plant_config plant_db []
  = [("ns=2;s=Temperature", ("compressor-2", "temperature"))]%string
  /\ exists e,
       In e (equipment plant_db)
       /\ Equipment.protocol e = "OPC_UA"%string
       /\ Equipment.is_active e = true
       /\ Equipment.equipment_id e = "compressor-2"%string
       /\ In (mkNodeConfig (Some "ns=2;s=Temperature"%string) "temperature")
            (plant_config (Equipment.id e))
       /\ (fun _ : string => true) "ns=2;s=Temperature"%string = true.
Proof.
  split; [reflexivity|].
  exact (proj1 (opcua_monitoring_sound known_floats (fun _ => true)
                  plant_config plant_db "ns=2;s=Temperature")
           "compressor-2"%string "temperature"%string eq_refl).
Defined.

(** ** Ordering and paging of query results *)

Lemma insert_bucket_desc_perm {A : Type} (key : A -> datetime) (a : A)
  (l : list A) : Permutation (a :: l) (insert_bucket_desc key a l).
Proof.
  induction l as [|b l IH]; [reflexivity|].
  cbn [insert_bucket_desc]. destruct (key b <? key a)%Z; [reflexivity|].
  rewrite perm_swap. now apply perm_skip.
Qed.

Lemma order_by_desc_perm {A : Type} (key : A -> datetime) (l : list A) :
  Permutation l (order_by_desc key l).
Proof.
  unfold order_by_desc.
  assert (H : forall acc, Permutation (acc ++ l)
                            (fold_left (fun acc a => insert_bucket_desc key a acc)
                               l acc)).
  { induction l as [|a l IH]; intros acc; cbn [fold_left].
    - now rewrite app_nil_r.
    - rewrite <- IH. rewrite <- Permutation_middle.
      change (a :: acc ++ l) with ((a :: acc) ++ l).
      apply Permutation_app_tail. apply insert_bucket_desc_perm. }
  exact (H []).
Qed.

Lemma insert_bucket_desc_sorted {A : Type} (key : A -> datetime) (a : A)
  (l : list A) :
  StronglySorted (desc_by key) l ->
  StronglySorted (desc_by key) (insert_bucket_desc key a l).
Proof.
  induction 1 as [|b l Hs IH Hb]; cbn [insert_bucket_desc].
  - repeat constructor.
  - destruct (key b <? key a)%Z eqn:E.
    + apply Z.ltb_lt in E. constructor; [now constructor|].
      constructor; [unfold desc_by; lia|].
      rewrite Forall_forall in *. intros x Hx.
      specialize (Hb x Hx). unfold desc_by in *. lia.
    + apply Z.ltb_ge in E. constructor; [exact IH|].
      rewrite Forall_forall in *. intros x Hx.
      apply (Permutation_in _ (Permutation_sym (insert_bucket_desc_perm key a l)))
        in Hx.
      destruct Hx as [<- | Hx]; [exact E|now apply Hb].
Qed.

Lemma order_by_desc_sorted {A : Type} (key : A -> datetime) (l : list A) :
  StronglySorted (desc_by key) (order_by_desc key l).
Proof.
  unfold order_by_desc.
  assert (H : forall acc, StronglySorted (desc_by key) acc ->
            StronglySorted (desc_by key)
              (fold_left (fun acc a => insert_bucket_desc key a acc) l acc)).
  { induction l as [|a l IH]; intros acc Hacc; [exact Hacc|].
    cbn [fold_left]. apply IH. now apply insert_bucket_desc_sorted. }
  apply H. constructor.
Qed.

Lemma firstn_In {A : Type} (n : nat) (l : list A) (x : A) :
  In x (firstn n l) -> In x l.
Proof.
  revert l. induction n as [|n IH]; intros l H; [contradiction|].
  destruct l as [|a l]; [contradiction|]. cbn [firstn] in H.
  destruct H as [<- | H]; [now left|right; now apply IH].
Qed.

Lemma skipn_In {A : Type} (n : nat) (l : list A) (x : A) :
  In x (skipn n l) -> In x l.
Proof.
  revert l. induction n as [|n IH]; intros l H; [exact H|].
  destruct l as [|a l]; [contradiction|]. right. now apply IH.
Qed.

Lemma StronglySorted_skipn {A : Type} (R : A -> A -> Prop) (n : nat)
  (l : list A) : StronglySorted R l -> StronglySorted R (skipn n l).
Proof.
  revert l. induction n as [|n IH]; intros l H; [exact H|].
  destruct l as [|a l]; [exact H|]. cbn [skipn]. apply IH.
  now inversion H.
Qed.

Lemma StronglySorted_firstn {A : Type} (R : A -> A -> Prop) (n : nat)
  (l : list A) : StronglySorted R l -> StronglySorted R (firstn n l).
Proof.
  revert l. induction n as [|n IH]; intros l H; [constructor|].
  destruct l as [|a l]; [constructor|]. cbn [firstn].
  inversion H as [|? ? Hs Hf]; subst. constructor; [now apply IH|].
  rewrite Forall_forall in *. intros x Hx. apply Hf.
  eapply firstn_In; exact Hx.
Qed.

Lemma In_firstn_skipn {A : Type} (skip limit : nat) (l : list A) (x : A) :
  In x (firstn limit (skipn skip l)) -> In x l.
Proof.
  intros H. apply firstn_In in H. eapply skipn_In; exact H.
Qed.

Lemma string_in_In (s : string) (l : list string) :
  string_in s l = true <-> In s l.
Proof.
  unfold string_in. rewrite existsb_exists. split.
  - intros (x & Hx & E). apply String.eqb_eq in E. now subst.
  - intros H. exists s. split; [exact H|apply String.eqb_refl].
Qed.

Lemma filter_in_In {A : Type} (ids : option (list string)) (col : A -> string)
  (rows : list A) (r : A) :
  In r (filter_in ids col rows)
  <-> In r rows /\ (forall l, ids = Some l -> l <> [] -> In (col r) l).
Proof.
  unfold filter_in. destruct ids as [[|i l]|].
  - split; [intros H; split; [exact H|]|tauto].
    intros l E. injection E as <-. contradiction.
  - rewrite filter_In, string_in_In. split.
    + intros [H1 H2]. split; [exact H1|]. intros l' E _. now injection E as <-.
    + intros [H1 H2]. split; [exact H1|]. apply (H2 _ eq_refl). discriminate.
  - split; [intros H; split; [exact H|]|tauto]. intros l E. discriminate.
Qed.

Lemma base_rows_In (query : DataQuery.t) (db : DB) (r : nat * Point) :
  In r (base_rows query db)
  <-> In r (joined_entities db) /\ matches_query query (snd r).
Proof.
  unfold base_rows, matches_query. cbv zeta.
  set (q := filter_in (DataQuery.sensor_types query)
              (fun r : nat * Point => p_sensor_type (snd r))
              (filter_in (DataQuery.equipment_ids query)
                 (fun r : nat * Point => p_equipment_id (snd r))
                 (joined_entities db))).
  assert (Hq : In r q <->
            In r (joined_entities db)
            /\ (forall ids, DataQuery.equipment_ids query = Some ids ->
                            ids <> [] -> In (p_equipment_id (snd r)) ids)
            /\ (forall types, DataQuery.sensor_types query = Some types ->
                              types <> [] -> In (p_sensor_type (snd r)) types)).
  { unfold q. rewrite !filter_in_In. tauto. }
  destruct (DataQuery.start_time query) as [t1|];
    destruct (DataQuery.end_time query) as [t2|];
    rewrite ?filter_In, Hq, ?Z.leb_le.
  - split.
    + intros (((H1 & H2 & H3) & H4) & H5). repeat split; try assumption.
      * intros t E. now injection E as <-.
      * intros t E. now injection E as <-.
    + intros (H1 & H2 & H3 & H4 & H5). repeat split; try assumption.
      * now apply H4.
      * now apply H5.
  - split.
    + intros ((H1 & H2 & H3) & H4). repeat split; try assumption.
      * intros t E. now injection E as <-.
      * intros t E. discriminate.
    + intros (H1 & H2 & H3 & H4 & H5). repeat split; try assumption.
      now apply H4.
  - split.
    + intros ((H1 & H2 & H3) & H5). repeat split; try assumption.
      * intros t E. discriminate.
      * intros t E. now injection E as <-.
    + intros (H1 & H2 & H3 & H4 & H5). repeat split; try assumption.
      now apply H5.
  - split.
    + intros (H1 & H2 & H3). repeat split; try assumption.
      * intros t E. discriminate.
      * intros t E. discriminate.
    + intros (H1 & H2 & H3 & H4 & H5). repeat split; assumption.
Qed.

Lemma StronglySorted_map {A B : Type} (R : B -> B -> Prop) (f : A -> B)
  (l : list A) :
  StronglySorted (fun a b => R (f a) (f b)) l -> StronglySorted R (map f l).
Proof.
  induction 1 as [|a l Hs IH Hf]; cbn [map]; constructor; [exact IH|].
  rewrite Forall_forall in *. intros y Hy.
  apply in_map_iff in Hy as (x & <- & Hx). now apply Hf.
Qed.

(** The entity of a row of the join is a stored reading. *)
Lemma joined_entities_data (db : DB) (r : nat * Point) :
  In r (joined_entities db) -> In (data (snd r)) (sensor_data db).
Proof.
  intros H. apply joined_entities_In in H as (d & e & s & Hk & _ & _ & ->).
  cbn [data]. eapply nth_error_In; exact Hk.
Qed.

Lemma load_entity_data (db : DB) (d : SensorData.t) (p : Point) :
  load_entity db d = Some p -> data p = d.
Proof.
  intros H. apply load_entity_Some in H as (e & s & _ & _ & ->). reflexivity.
Qed.

(** X12. The raw branch of [query_sensor_data].  Offset and limit count
    rows of the join, in which a reading stands once for every sensor of its
    equipment; the response lists the readings of the rows of the page, once
    each.  It has at most [limit] entries, in order of decreasing timestamp;
    every entry is a stored reading, shown with its own sensor, one of whose
    join rows passes all the filters of the query (equipment ids, sensor
    types, start and end time, each applied only when set and non-empty; the
    filter on the sensor type reads the joined sensor, which need not be the
    sensor of the reading); and with no offset and a limit that is not below
    the number of matching join rows, every reading with a matching row is
    listed. *)
Theorem raw_query_page (date_trunc : string -> datetime -> datetime)
  (query : DataQuery.t) (skip limit : nat) (db : DB) :
  let rows := query_raw query skip limit db in
  (List.length rows <= limit)%nat
  /\ StronglySorted (desc_by w_timestamp) rows
  /\ (forall row, In row rows ->
        exists p r, row = raw_row p
                    /\ In (data p) (sensor_data db)
                    /\ load_entity db (data p) = Some p
                    /\ In r (joined_entities db)
                    /\ data (snd r) = data p
                    /\ matches_query query (snd r))
  /\ (skip = O -> (List.length (base_rows query db) <= limit)%nat ->
      forall r p, In r (base_rows query db) ->
                  load_entity db (data (snd r)) = Some p ->
                  In (raw_row p) rows)
  /\ (DataQuery.aggregation query = Some "raw"%string ->
      query_sensor_data date_trunc query skip limit db
      = Ok (RawResponse rows)).
Proof.
  cbv zeta. unfold query_raw, raw_points, raw_page.
  set (sorted := order_by_desc (fun r : nat * Point => p_timestamp (snd r))
                   (base_rows query db)).
  assert (Hperm : Permutation (base_rows query db) sorted)
    by apply order_by_desc_perm.
  split.
  { rewrite length_map.
    etransitivity; [apply all_entities_length|apply firstn_le_length]. }
  split.
  { apply StronglySorted_map.
    apply (all_entities_sorted db SensorData.timestamp).
    apply StronglySorted_firstn, StronglySorted_skipn.
    exact (order_by_desc_sorted (fun r : nat * Point => p_timestamp (snd r))
             (base_rows query db)). }
  split.
  { intros row Hrow. apply in_map_iff in Hrow as (p & <- & Hp).
    apply all_entities_In in Hp as (r & Hr & Hl).
    apply unique_entities_In in Hr as [Hr _].
    apply In_firstn_skipn in Hr.
    apply (Permutation_in _ (Permutation_sym Hperm)) in Hr.
    apply base_rows_In in Hr as [Hj Hm].
    pose proof (load_entity_data _ _ _ Hl) as Hd.
    exists p, r. split; [reflexivity|].
    split; [rewrite Hd; now apply joined_entities_data|].
    split; [now rewrite Hd|]. split; [exact Hj|].
    split; [now symmetry|exact Hm]. }
  split.
  { intros -> Hlen r p Hr Hl. cbn [skipn]. apply in_map.
    rewrite firstn_all2
      by now rewrite <- (Permutation_length Hperm).
    apply all_entities_In.
    destruct (unique_entities_complete [] sorted r) as (r' & H1 & H2 & H3).
    { now apply (Permutation_in _ Hperm). }
    { intros []. }
    exists r'. split; [exact H1|].
    apply (Permutation_in _ (Permutation_sym Hperm)) in H2.
    apply base_rows_In in H2 as [H2 _]. apply base_rows_In in Hr as [Hr _].
    destruct (joined_entities_same db r' r H2 Hr H3) as [E _].
    now rewrite E. }
  intros Hraw. unfold query_sensor_data. cbv zeta. rewrite Hraw. reflexivity.
Qed.

Lemma raw_query_page_witness :
  query_sensor_data date_trunc_week raw_query 0 6 sample_db
  = Ok (RawResponse
          [mkRawRow "pump-1" "vibration" (PyFloat.Fin 2) 50000000010%Z "GOOD";
           mkRawRow "pump-1" "vibration" (PyFloat.Fin 1) 50000000009%Z "GOOD"])
  /\ query_sensor_data date_trunc_week raw_query 0 2 sample_db
     = Ok (RawResponse
             [mkRawRow "pump-1" "vibration" (PyFloat.Fin 2) 50000000010%Z
                "GOOD"]).
Proof.
  split.
  - destruct (raw_query_page date_trunc_week raw_query 0 6 sample_db)
      as (_ & _ & _ & _ & H).
    rewrite (H eq_refl). reflexivity.
  - destruct (raw_query_page date_trunc_week raw_query 0 2 sample_db)
      as (_ & _ & _ & _ & H).
    rewrite (H eq_refl). reflexivity.
Defined.

(** ** The groups of the aggregation *)

Lemma agg_key_eqb_eq (k1 k2 : agg_key) : agg_key_eqb k1 k2 = true <-> k1 = k2.
Proof.
  destruct k1 as [[e1 t1] b1], k2 as [[e2 t2] b2]. cbn [agg_key_eqb].
  rewrite !andb_true_iff, !String.eqb_eq, Z.eqb_eq. split.
  - intros [[-> ->] ->]. reflexivity.
  - intros E. injection E as -> -> ->. auto.
Qed.

Lemma group_add_key_In (k k' : agg_key) (p : Point)
  (g : list (agg_key * list Point)) :
  In k' (map fst (group_add k p g)) <-> k' = k \/ In k' (map fst g).
Proof.
  induction g as [|[a ps] g IH]; cbn [group_add map fst In].
  - intuition.
  - destruct (agg_key_eqb a k) eqn:E; cbn [map fst In].
    + apply agg_key_eqb_eq in E. subst a. intuition.
    + rewrite IH. intuition.
Qed.

Lemma group_add_invariant (k : agg_key) (p : Point)
  (g : list (agg_key * list Point)) :
  NoDup (map fst g) /\ Forall (fun kv => snd kv <> []) g ->
  NoDup (map fst (group_add k p g))
  /\ Forall (fun kv => snd kv <> []) (group_add k p g).
Proof.
  induction g as [|[a ps] g IH]; intros [Hn Hf]; cbn [group_add].
  - split; [repeat constructor; intros []|repeat constructor; discriminate].
  - inversion Hn as [|? ? Ha Hn']; subst. inversion Hf as [|? ? Hps Hf']; subst.
    destruct (agg_key_eqb a k) eqn:E.
    + split; [exact Hn|]. constructor; [|exact Hf'].
      cbn. intros H. now apply app_eq_nil in H as [_ H].
    + destruct (IH (conj Hn' Hf')) as [IH1 IH2].
      split; [|now constructor].
      cbn [map fst]. constructor; [|exact IH1].
      rewrite group_add_key_In. intros [-> | H]; [|contradiction].
      assert (agg_key_eqb k k = true) by now apply agg_key_eqb_eq.
      congruence.
Qed.

Lemma group_rows_invariant (date_trunc : string -> datetime -> datetime)
  (query : DataQuery.t) (rows : list Point) :
  NoDup (map fst (group_rows date_trunc query rows))
  /\ Forall (fun kv => snd kv <> []) (group_rows date_trunc query rows).
Proof.
  unfold group_rows.
  assert (H : forall g,
            NoDup (map fst g) /\ Forall (fun kv => snd kv <> []) g ->
            NoDup (map fst (fold_left
                     (fun g p =>
                        group_add (p_equipment_id p, p_sensor_type p,
                                   time_group date_trunc query p) p g) rows g))
            /\ Forall (fun kv => snd kv <> [])
                 (fold_left
                    (fun g p =>
                       group_add (p_equipment_id p, p_sensor_type p,
                                  time_group date_trunc query p) p g) rows g)).
  { induction rows as [|p rows IH]; intros g Hg; [exact Hg|].
    cbn [fold_left]. apply IH. now apply group_add_invariant. }
  apply H. split; constructor.
Qed.

Lemma agg_func_nonempty (aggregation : option string) (values : list pyfloat) :
  values <> [] -> exists v, agg_func aggregation values = Some v.
Proof.
  intros H. destruct values as [|v vs]; [contradiction|].
  unfold agg_func. destruct aggregation as [a|]; [|eexists; reflexivity].
  destruct (String.eqb a "avg"); [eexists; reflexivity|].
  destruct (String.eqb a "min"); [eexists; reflexivity|].
  destruct (String.eqb a "max"); [eexists; reflexivity|].
  destruct (String.eqb a "count"); eexists; reflexivity.
Qed.

Lemma collect_agg_rows (aggregation : option string)
  (l : list (agg_key * list Point)) :
  Forall (fun kv => snd kv <> []) l ->
  exists rows, collect (agg_row aggregation) l = Ok rows
               /\ map row_key rows = map fst l.
Proof.
  induction 1 as [|[[[e t] b] ps] l Hps _ (rows & IH1 & IH2)].
  - exists []. split; reflexivity.
  - cbn [snd] in Hps. cbn [collect agg_row].
    destruct (agg_func_nonempty aggregation (map p_value ps)) as [v Hv].
    { intros H. apply map_eq_nil in H. contradiction. }
    rewrite Hv, IH1. eexists. split; [reflexivity|].
    cbn [map fst row_key g_equipment_id g_sensor_type g_time_bucket].
    now rewrite IH2.
Qed.

Lemma NoDup_firstn {A : Type} (n : nat) (l : list A) :
  NoDup l -> NoDup (firstn n l).
Proof.
  revert l. induction n as [|n IH]; intros l H; [constructor|].
  destruct l as [|a l]; [constructor|]. cbn [firstn].
  inversion H as [|? ? Ha Hl]; subst. constructor; [|now apply IH].
  intros Hin. apply Ha. eapply firstn_In; exact Hin.
Qed.

Lemma NoDup_skipn {A : Type} (n : nat) (l : list A) :
  NoDup l -> NoDup (skipn n l).
Proof.
  revert l. induction n as [|n IH]; intros l H; [exact H|].
  destruct l as [|a l]; [exact H|]. cbn [skipn]. apply IH.
  now inversion H.
Qed.

Lemma StronglySorted_of_map {A B : Type} (R : B -> B -> Prop) (f : A -> B)
  (l : list A) :
  StronglySorted R (map f l) -> StronglySorted (fun a b => R (f a) (f b)) l.
Proof.
  induction l as [|a l IH]; intros H; [constructor|].
  cbn [map] in H. inversion H as [|? ? Hs Hf]; subst.
  constructor; [now apply IH|].
  rewrite Forall_forall in *. intros x Hx. apply Hf. now apply in_map.
Qed.


(** ** Aggregation and the quality of readings *)

Lemma filter_map_commute {A : Type} (P : A -> bool) (g : A -> A) (l : list A) :
  (forall a, P (g a) = P a) -> filter P (map g l) = map g (filter P l).
Proof.
  intros H; induction l as [|a l IH]; [reflexivity|].
  cbn [map filter]. rewrite H. destruct (P a); cbn [map]; now rewrite IH.
Qed.

Lemma filter_in_map_commute {A : Type} (ids : option (list string))
  (col : A -> string) (g : A -> A) (rows : list A) :
  (forall a, col (g a) = col a) ->
  filter_in ids col (map g rows) = map g (filter_in ids col rows).
Proof.
  intros H. unfold filter_in. destruct ids as [[|i ids]|]; try reflexivity.
  apply filter_map_commute. intros a. now rewrite H.
Qed.

Lemma join_from_requalify (f : SensorData.t -> string) (db : DB) (i : nat)
  (ds : list SensorData.t) :
  join_from (requalify f db) i (map (fun d => set_quality (f d) d) ds)
  = map (fun r => (fst r, requalify_point f (snd r))) (join_from db i ds).
Proof.
  revert i. induction ds as [|d ds IH]; intros i; [reflexivity|].
  cbn [map join_from]. rewrite map_app, IH. f_equal.
  unfold join_reading.
  change (find_equipment_by_pk (requalify f db)) with (find_equipment_by_pk db).
  change (SensorData.equipment_id (set_quality (f d) d))
    with (SensorData.equipment_id d).
  destruct (find_equipment_by_pk db (SensorData.equipment_id d)) as [e|];
    [|reflexivity].
  change (sensors_of (requalify f db) e) with (sensors_of db e).
  rewrite map_map. reflexivity.
Qed.

Lemma base_rows_requalify (f : SensorData.t -> string) (query : DataQuery.t)
  (db : DB) :
  base_rows query (requalify f db)
  = map (fun r => (fst r, requalify_point f (snd r))) (base_rows query db).
Proof.
  unfold base_rows, joined_entities. cbv zeta.
  change (sensor_data (requalify f db))
    with (map (fun d => set_quality (f d) d) (sensor_data db)).
  rewrite join_from_requalify.
  rewrite !filter_in_map_commute by reflexivity.
  destruct (DataQuery.start_time query), (DataQuery.end_time query);
    rewrite ?filter_map_commute by reflexivity; reflexivity.
Qed.

Lemma base_query_requalify (f : SensorData.t -> string) (query : DataQuery.t)
  (db : DB) :
  base_query query (requalify f db)
  = map (requalify_point f) (base_query query db).
Proof.
  unfold base_query. rewrite base_rows_requalify, !map_map. reflexivity.
Qed.

Lemma group_add_requalify (f : SensorData.t -> string) (k : agg_key)
  (p : Point) (g : list (agg_key * list Point)) :
  group_add k (requalify_point f p) (map (requalify_group f) g)
  = map (requalify_group f) (group_add k p g).
Proof.
  induction g as [|[k' ps] g IH]; [reflexivity|].
  cbn [map group_add requalify_group fst snd].
  destruct (agg_key_eqb k' k).
  - cbn [map]. unfold requalify_group. cbn [fst snd]. now rewrite map_app.
  - cbn [map]. unfold requalify_group at 2. cbn [fst snd]. now rewrite IH.
Qed.

Lemma insert_bucket_desc_map {A : Type} (key : A -> datetime) (g : A -> A)
  (a : A) (l : list A) :
  (forall x, key (g x) = key x) ->
  insert_bucket_desc key (g a) (map g l) = map g (insert_bucket_desc key a l).
Proof.
  intros H; induction l as [|b l IH]; [reflexivity|].
  cbn [map insert_bucket_desc]. rewrite !H.
  destruct (key b <? key a)%Z; cbn [map]; [reflexivity|now rewrite IH].
Qed.

Lemma order_by_desc_map {A : Type} (key : A -> datetime) (g : A -> A)
  (l : list A) :
  (forall x, key (g x) = key x) ->
  order_by_desc key (map g l) = map g (order_by_desc key l).
Proof.
  intros H. unfold order_by_desc.
  change (@nil A) with (map g []) at 1. generalize (@nil A) as acc.
  induction l as [|a l IH]; intros acc; [reflexivity|].
  cbn [map fold_left]. rewrite insert_bucket_desc_map by exact H. apply IH.
Qed.

Lemma collect_agg_row_requalify (f : SensorData.t -> string)
  (aggregation : option string) (l : list (agg_key * list Point)) :
  collect (agg_row aggregation) (map (requalify_group f) l)
  = collect (agg_row aggregation) l.
Proof.
  induction l as [|[[[e t] b] ps] l IH]; [reflexivity|].
  cbn [map collect requalify_group fst snd agg_row].
  rewrite map_map. cbn [p_value requalify_point data set_quality
                        SensorData.value].
  change (map (fun x => SensorData.value (data x)) ps) with (map p_value ps).
  now rewrite IH.
Qed.

Lemma group_rows_requalify (date_trunc : string -> datetime -> datetime)
  (f : SensorData.t -> string) (query : DataQuery.t) (rows : list Point) :
  group_rows date_trunc query (map (requalify_point f) rows)
  = map (requalify_group f) (group_rows date_trunc query rows).
Proof.
  unfold group_rows.
  change (@nil (agg_key * list Point)) with (map (requalify_group f) []) at 1.
  generalize (@nil (agg_key * list Point)) as acc.
  induction rows as [|p rows IH]; intros acc; [reflexivity|].
  cbn [map fold_left].
  change (p_equipment_id (requalify_point f p)) with (p_equipment_id p).
  change (p_sensor_type (requalify_point f p)) with (p_sensor_type p).
  change (time_group date_trunc query (requalify_point f p))
    with (time_group date_trunc query p).
  rewrite group_add_requalify. apply IH.
Qed.

Lemma agg_key_eqb_sym (k1 k2 : agg_key) :
  agg_key_eqb k1 k2 = agg_key_eqb k2 k1.
Proof.
  destruct k1 as [[e1 t1] b1], k2 as [[e2 t2] b2]. cbn [agg_key_eqb].
  now rewrite (String.eqb_sym e1), (String.eqb_sym t1), (Z.eqb_sym b1).
Qed.

Lemma agg_get_add (k k' : agg_key) (p : Point)
  (g : list (agg_key * list Point)) :
  agg_get k' (group_add k p g)
  = if agg_key_eqb k k' then
      Some (match agg_get k' g with Some old => old ++ [p] | None => [p] end)
    else agg_get k' g.
Proof.
  induction g as [|[a qs] g IH]; cbn [group_add agg_get].
  - now rewrite agg_key_eqb_sym.
  - destruct (agg_key_eqb a k) eqn:Ea; cbn [agg_get].
    + apply agg_key_eqb_eq in Ea. subst a.
      destruct (agg_key_eqb k k'); reflexivity.
    + rewrite IH. destruct (agg_key_eqb a k') eqn:Ek; [|reflexivity].
      apply agg_key_eqb_eq in Ek. subst a.
      rewrite agg_key_eqb_sym in Ea. now rewrite Ea.
Qed.

Lemma group_rows_snoc (date_trunc : string -> datetime -> datetime)
  (query : DataQuery.t) (rows : list Point) (p : Point) :
  group_rows date_trunc query (rows ++ [p])
  = group_add (key_of date_trunc query p) p (group_rows date_trunc query rows).
Proof. unfold group_rows. now rewrite fold_left_app. Qed.

(** The group of a key holds every row with that key. *)
Lemma group_rows_get (date_trunc : string -> datetime -> datetime)
  (query : DataQuery.t) (rows : list Point) (k : agg_key) :
  agg_get k (group_rows date_trunc query rows)
  = match filter (fun p => agg_key_eqb (key_of date_trunc query p) k) rows with
    | [] => None
    | l => Some l
    end.
Proof.
  induction rows as [|p rows IH] using rev_ind; [reflexivity|].
  rewrite group_rows_snoc, agg_get_add, filter_app, IH.
  cbn [filter]. destruct (agg_key_eqb (key_of date_trunc query p) k).
  - destruct (filter _ rows); reflexivity.
  - now rewrite app_nil_r.
Qed.

Lemma agg_get_In (k : agg_key) (ps : list Point)
  (g : list (agg_key * list Point)) :
  NoDup (map fst g) -> In (k, ps) g -> agg_get k g = Some ps.
Proof.
  induction g as [|[a qs] g IH]; intros Hn; [contradiction|].
  cbn [map fst] in Hn. inversion Hn as [|? ? Ha Hn']; subst.
  cbn [agg_get In]. intros [H | H].
  - injection H as -> ->.
    now rewrite (proj2 (agg_key_eqb_eq k k) eq_refl).
  - destruct (agg_key_eqb a k) eqn:E; [|now apply IH].
    apply agg_key_eqb_eq in E. subst a. exfalso. apply Ha.
    apply in_map_iff. now exists (k, ps).
Qed.

Lemma collect_agg_rows_value (aggregation : option string)
  (l : list (agg_key * list Point)) (rows : list AggRow) (row : AggRow) :
  collect (agg_row aggregation) l = Ok rows -> In row rows ->
  exists ps, In (row_key row, ps) l
             /\ agg_func aggregation (map p_value ps) = Some (g_value row).
Proof.
  revert rows. induction l as [|[[[e t] b] ps] l IH]; intros rows.
  - cbn [collect]. intros H. injection H as <-. contradiction.
  - cbn [collect agg_row].
    destruct (agg_func aggregation (map p_value ps)) as [v|] eqn:Ev;
      [|discriminate].
    destruct (collect (agg_row aggregation) l) as [bs|] eqn:El;
      [|discriminate].
    intros H. injection H as <-. intros [<- | Hin].
    + exists ps. split; [now left|exact Ev].
    + destruct (IH bs eq_refl Hin) as (qs & H1 & H2).
      exists qs. split; [now right|exact H2].
Qed.

(** C1, as the code has it.  The aggregated response does not depend on
    the quality of any reading: whatever quality each reading is given,
    every aggregation (avg, min, max, count, and the avg that stands in for
    an unknown name) returns the same rows.  And readings of every quality
    enter every aggregate: the value of a row of the response is the
    aggregate over the values of all the rows of the filtered join that have
    the key of the row, selected by equipment, sensor type and time bucket
    alone, whatever their quality. *)
Theorem aggregation_ignores_quality
  (date_trunc : string -> datetime -> datetime)
  (f : SensorData.t -> string) (query : DataQuery.t) (skip limit : nat)
  (db : DB) :
  query_aggregated date_trunc query skip limit (requalify f db)
  = query_aggregated date_trunc query skip limit db
  /\ (forall rows row,
        query_aggregated date_trunc query skip limit db = Ok rows ->
        In row rows ->
        agg_func (DataQuery.aggregation query)
          (map p_value
             (filter (fun p => agg_key_eqb (key_of date_trunc query p)
                                 (row_key row))
                (base_query query db)))
        = Some (g_value row)).
Proof.
  split.
  - unfold query_aggregated. cbv zeta.
    rewrite base_query_requalify, group_rows_requalify.
    rewrite order_by_desc_map by reflexivity.
    rewrite skipn_map, firstn_map.
    apply collect_agg_row_requalify.
  - unfold query_aggregated. cbv zeta. intros rows row Hrows Hrow.
    destruct (collect_agg_rows_value _ _ _ _ Hrows Hrow) as (ps & Hin & Hv).
    apply In_firstn_skipn in Hin.
    apply (Permutation_in _ (Permutation_sym (order_by_desc_perm _ _))) in Hin.
    destruct (group_rows_invariant date_trunc query (base_query query db))
      as [Hnd _].
    apply (agg_get_In _ _ _ Hnd) in Hin. rewrite group_rows_get in Hin.
    destruct (filter _ (base_query query db)) as [|q qs] eqn:Ef;
      [discriminate|].
    injection Hin as <-. exact Hv.
Qed.

Lemma aggregation_ignores_quality_witness :
  query_aggregated date_trunc_week avg_query 0 1000
    (requalify (fun _ => "GOOD"%string) quality_db)
  = query_aggregated date_trunc_week avg_query 0 1000 quality_db
  /\ agg_func (Some "avg"%string) [PyFloat.Fin 1; PyFloat.Fin 3]
     = Some (PyFloat.Fin 2).
Proof.
  destruct (aggregation_ignores_quality date_trunc_week
              (fun _ => "GOOD"%string) avg_query 0 1000 quality_db)
    as [H1 H2].
  split; [exact H1|].
  assert (E : query_aggregated date_trunc_week avg_query 0 1000 quality_db
    = Ok [mkAggRow "pump-1" "temperature" (-259200000000)%Z (PyFloat.Fin 2)]).
  { unfold query_aggregated, quality_db, avg_query, base_query, base_rows,
      joined_entities.
    cbn. rewrite (proj2 (Reqb_false (1 + 1) 0)) by lra.
    replace ((0 + 1 + 3) / (1 + 1)) with 2 by lra. reflexivity. }
  exact (H2 _ _ E (or_introl eq_refl)).
Defined.

(** C1, as stated, fails.  With a GOOD reading of 1.0 and a BAD reading
    of 3.0 in one weekly bucket, avg returns 2.0: the BAD reading is
    counted.  Leaving the BAD reading out of the database gives 1.0. *)
Lemma avg_includes_bad_reading :
  query_aggregated date_trunc_week avg_query 0 1000 quality_db
    = Ok [mkAggRow "pump-1" "temperature" (-259200000000)%Z (PyFloat.Fin 2)]
  /\ query_aggregated date_trunc_week avg_query 0 1000 (good_only quality_db)
    = Ok [mkAggRow "pump-1" "temperature" (-259200000000)%Z (PyFloat.Fin 1)]
  /\ query_aggregated date_trunc_week avg_query 0 1000 quality_db
     <> query_aggregated date_trunc_week avg_query 0 1000 (good_only quality_db).
Proof.
  assert (E1 : query_aggregated date_trunc_week avg_query 0 1000 quality_db
    = Ok [mkAggRow "pump-1" "temperature" (-259200000000)%Z (PyFloat.Fin 2)]).
  { unfold query_aggregated, quality_db, avg_query, base_query, base_rows,
      joined_entities.
    cbn. rewrite (proj2 (Reqb_false (1 + 1) 0)) by lra.
    replace ((0 + 1 + 3) / (1 + 1)) with 2 by lra. reflexivity. }
  assert (E2 : query_aggregated date_trunc_week avg_query 0 1000
                 (good_only quality_db)
    = Ok [mkAggRow "pump-1" "temperature" (-259200000000)%Z (PyFloat.Fin 1)]).
  { unfold query_aggregated, quality_db, avg_query, base_query, base_rows,
      joined_entities, good_only.
    cbn. rewrite (proj2 (Reqb_false 1 0)) by lra.
    replace ((0 + 1) / 1) with 1 by lra. reflexivity. }
  split; [exact E1|]. split; [exact E2|].
  rewrite E1, E2. intros H. injection H as H. lra.
Qed.

(** ** The grouping dict of anomaly detection *)

Lemma group_points_snoc (pts : list Point) (p : Point) :
  group_points (pts ++ [p]) = dict_append (group_key p) p (group_points pts).
Proof. unfold group_points. now rewrite fold_left_app. Qed.

Lemma dict_append_key_In (key k : string) (p : Point)
  (g : list (string * list Point)) :
  In k (map fst (dict_append key p g)) <-> k = key \/ In k (map fst g).
Proof.
  induction g as [|[a ps] g IH]; cbn [dict_append map fst In].
  - intuition.
  - destruct (String.eqb a key) eqn:E; cbn [map fst In].
    + apply String.eqb_eq in E. subst a. intuition.
    + rewrite IH. intuition.
Qed.

Lemma dict_append_NoDup (key : string) (p : Point)
  (g : list (string * list Point)) :
  NoDup (map fst g) -> NoDup (map fst (dict_append key p g)).
Proof.
  induction g as [|[a ps] g IH]; intros Hn; cbn [dict_append].
  - repeat constructor. intros [].
  - inversion Hn as [|? ? Ha Hn']; subst.
    destruct (String.eqb a key) eqn:E; [exact Hn|].
    cbn [map fst]. constructor; [|now apply IH].
    rewrite dict_append_key_In. intros [-> | H]; [|contradiction].
    rewrite String.eqb_refl in E. discriminate.
Qed.

Lemma dict_get_append (key k : string) (p : Point)
  (g : list (string * list Point)) :
  dict_get k (dict_append key p g)
  = if String.eqb key k then
      Some (match dict_get k g with Some old => old ++ [p] | None => [p] end)
    else dict_get k g.
Proof.
  induction g as [|[a qs] g IH]; cbn [dict_append dict_get].
  - now rewrite String.eqb_sym.
  - destruct (String.eqb a key) eqn:Ea; cbn [dict_get].
    + apply String.eqb_eq in Ea. subst a.
      destruct (String.eqb key k); reflexivity.
    + rewrite IH. destruct (String.eqb a k) eqn:Ek; [|reflexivity].
      apply String.eqb_eq in Ek. subst a.
      rewrite String.eqb_sym in Ea. now rewrite Ea.
Qed.

Lemma group_points_get (pts : list Point) (k : string) :
  dict_get k (group_points pts)
  = match filter (fun p => String.eqb (group_key p) k) pts with
    | [] => None
    | l => Some l
    end.
Proof.
  induction pts as [|p pts IH] using rev_ind; [reflexivity|].
  rewrite group_points_snoc, dict_get_append, filter_app, IH.
  cbn [filter]. destruct (String.eqb (group_key p) k).
  - destruct (filter _ pts); reflexivity.
  - now rewrite app_nil_r.
Qed.

Lemma group_points_NoDup (pts : list Point) :
  NoDup (map fst (group_points pts)).
Proof.
  induction pts as [|p pts IH] using rev_ind; [constructor|].
  rewrite group_points_snoc. now apply dict_append_NoDup.
Qed.

Lemma dict_get_In {V : Type} (k : string) (v : V) (d : list (string * V)) :
  NoDup (map fst d) -> (In (k, v) d <-> dict_get k d = Some v).
Proof.
  induction d as [|[a x] d IH]; intros Hn; cbn [dict_get In].
  - split; [contradiction|discriminate].
  - inversion Hn as [|? ? Ha Hn']; subst.
    destruct (String.eqb a k) eqn:E.
    + apply String.eqb_eq in E. subst a. split.
      * intros [H | H]; [now injection H as ->|].
        exfalso. apply Ha. apply in_map_iff. now exists (k, v).
      * intros H. injection H as ->. now left.
    + apply String.eqb_neq in E. rewrite <- (IH Hn'). split.
      * intros [H | H]; [injection H as -> _; contradiction|exact H].
      * intros H. now right.
Qed.

(** X14. The grouping of anomaly detection puts every data point in
    exactly one group.  The dict has one entry per key with no key twice,
    and the entry of a key is the list of all data points with that key,
    in their original order; it is never empty. *)
Theorem grouping_is_partition (data_points : list Point) (key : string)
  (points : list Point) :
  NoDup (map fst (group_points data_points))
  /\ (In (key, points) (group_points data_points)
      <-> points <> []
          /\ points = filter (fun p => String.eqb (group_key p) key)
                        data_points).
Proof.
  split; [apply group_points_NoDup|].
  rewrite (dict_get_In key points _ (group_points_NoDup data_points)).
  rewrite group_points_get.
  destruct (filter (fun p => String.eqb (group_key p) key) data_points)
    as [|q qs].
  - split; [discriminate|]. intros [H ->]. contradiction.
  - split.
    + intros H. injection H as <-. split; [discriminate|reflexivity].
    + intros [_ ->]. reflexivity.
Qed.

Lemma string_append_assoc (a b c : string) :
  ((a ++ b) ++ c = a ++ (b ++ c))%string.
Proof.
  induction a as [|x a IH]; [reflexivity|]. cbn [append]. now rewrite IH.
Qed.

(** X15. The grouping key is the equipment id, an underscore and the
    sensor type, so it does not tell the two apart when an underscore can
    be read on either side: the readings of sensor [u] of equipment
    [e_t] and of sensor [t_u] of equipment [e] share one key and are
    analysed as a single group. *)
Theorem group_key_collision (p q : Point) (e t u : string) :
  p_equipment_id p = (e ++ "_" ++ t)%string ->
  p_sensor_type p = u ->
  p_equipment_id q = e ->
  p_sensor_type q = (t ++ "_" ++ u)%string ->
  group_key p = group_key q
  /\ group_points [p; q] = [(group_key p, [p; q])].
Proof.
  intros H1 H2 H3 H4.
  assert (E : group_key p = group_key q).
  { unfold group_key. rewrite H1, H2, H3, H4.
    rewrite !string_append_assoc. reflexivity. }
  split; [exact E|].
  unfold group_points. cbn [fold_left dict_append].
  now rewrite E, String.eqb_refl.
Qed.

Lemma group_key_collision_witness :
  p_equipment_id colliding_p <> p_equipment_id colliding_q
  /\ group_points [colliding_p; colliding_q]
     = [("line_a_temp"%string, [colliding_p; colliding_q])].
Proof.
  split; [discriminate|].
  exact (proj2 (group_key_collision colliding_p colliding_q "line" "a" "temp"
                  eq_refl eq_refl eq_refl eq_refl)).
Defined.

(** ** Anomaly detection over finite values *)

Lemma check_point_fold (mean_val std_val threshold : pyfloat)
  (points : list Point) (st : scan_state) :
  fold_left (check_point mean_val std_val threshold) points st
  = (fst st ++ map (anomaly_of mean_val std_val threshold)
                 (filter (is_flagged mean_val threshold) points),
     (snd st + List.length (filter (is_flagged mean_val threshold) points))%nat).
Proof.
  revert st. induction points as [|p points IH]; intros [l n].
  - cbn. now rewrite app_nil_r, Nat.add_0_r.
  - cbn [fold_left filter]. rewrite IH. unfold check_point at 1 2.
    cbv zeta. fold (is_flagged mean_val threshold p).
    destruct (is_flagged mean_val threshold p); cbn [fst snd map List.length].
    + rewrite <- app_assoc. cbn [app]. f_equal. lia.
    + reflexivity.
Qed.

Lemma fold_add_fin (xs : list R) (a : R) :
  fold_left PyFloat.add (map PyFloat.Fin xs) (PyFloat.Fin a)
  = PyFloat.Fin (fold_left Rplus xs a).
Proof.
  revert a. induction xs as [|x xs IH]; intros a; [reflexivity|].
  cbn [map fold_left PyFloat.add]. apply IH.
Qed.

Lemma np_mean_fin (xs : list R) :
  xs <> [] ->
  np_mean (map PyFloat.Fin xs)
  = PyFloat.Fin (Rsum xs / INR (List.length xs)).
Proof.
  intros H. unfold np_mean, np_sum, PyFloat.zero.
  rewrite fold_add_fin, length_map. unfold PyFloat.of_nat, PyFloat.div.
  rewrite (proj2 (Reqb_false _ _)); [reflexivity|].
  apply not_0_INR. destruct xs; [contradiction|discriminate].
Qed.

Lemma fold_Rplus_squares (ds : list R) (a : R) :
  0 <= a -> 0 <= fold_left Rplus (map (fun d => d * d) ds) a.
Proof.
  revert a. induction ds as [|d ds IH]; intros a Ha; [exact Ha|].
  cbn [map fold_left]. apply IH. nra.
Qed.

Lemma np_std_fin (xs : list R) :
  xs <> [] ->
  exists s, 0 <= s /\ np_std (map PyFloat.Fin xs) = PyFloat.Fin s.
Proof.
  intros H. unfold np_std. cbv zeta. rewrite (np_mean_fin xs H).
  set (m := Rsum xs / INR (List.length xs)).
  rewrite !map_map. cbn [PyFloat.sub PyFloat.neg PyFloat.add PyFloat.mul].
  change (map (fun x => PyFloat.Fin ((x + - m) * (x + - m))) xs)
    with (map (fun x => PyFloat.Fin ((fun d => d * d) ((fun x => x + - m) x)))
            xs).
  rewrite <- (map_map (fun x => (fun d => d * d) ((fun x => x + - m) x))
                PyFloat.Fin).
  rewrite np_mean_fin by (destruct xs; [contradiction|discriminate]).
  rewrite length_map. unfold PyFloat.sqrt.
  assert (Hn : 0 < INR (List.length xs))
    by (apply lt_0_INR; destruct xs; [contradiction|cbn; lia]).
  assert (Hs : 0 <= Rsum (map (fun x => (x + - m) * (x + - m)) xs)).
  { unfold Rsum. rewrite <- (map_map (fun x => x + - m) (fun d => d * d)).
    apply fold_Rplus_squares. lra. }
  assert (Hq : 0 <= Rsum (map (fun x => (x + - m) * (x + - m)) xs)
                    / INR (List.length xs)).
  { apply Rmult_le_pos; [exact Hs|]. left. now apply Rinv_0_lt_compat. }
  rewrite Rltb_intro_false by lra.
  eexists. split; [apply sqrt_pos|reflexivity].
Qed.

(** Every anomaly that the scan of a finite group adds, in closed form. *)
Lemma finite_group_anomaly (k : R) (points : list Point) (xs : list R)
  (a : Anomaly) :
  map p_value points = map PyFloat.Fin xs ->
  In a (fst (analyze_group (PyFloat.Fin k) ([], O) points)) ->
  exists m s v p,
    0 <= s
    /\ np_mean (map p_value points) = PyFloat.Fin m
    /\ np_std (map p_value points) = PyFloat.Fin s
    /\ In p points /\ p_value p = PyFloat.Fin v
    /\ k * s < Rabs (v + - m)
    /\ a = anomaly_of (PyFloat.Fin m) (PyFloat.Fin s) (PyFloat.Fin (k * s)) p.
Proof.
  intros Hv. unfold analyze_group.
  destruct (List.length points <? 5)%nat eqn:Hlen; [contradiction|].
  cbv zeta. rewrite check_point_fold. cbn [fst app].
  assert (Hne : xs <> []).
  { intros ->. destruct points; [discriminate|discriminate]. }
  rewrite Hv, (np_mean_fin xs Hne).
  destruct (np_std_fin xs Hne) as (s & Hs & Hstd). rewrite Hstd.
  cbn [PyFloat.mul]. intros Hin.
  apply in_map_iff in Hin as (p & <- & Hp).
  apply filter_In in Hp as [Hp Hflag].
  assert (Hpv : exists v, p_value p = PyFloat.Fin v).
  { assert (Hi : In (p_value p) (map PyFloat.Fin xs))
      by (rewrite <- Hv; now apply in_map).
    apply in_map_iff in Hi as (v & Ev & _). now exists v. }
  destruct Hpv as [v Ev].
  exists (Rsum xs / INR (List.length xs)), s, v, p.
  repeat split; try assumption; try reflexivity.
  unfold is_flagged in Hflag. rewrite Ev in Hflag.
  cbn [PyFloat.sub PyFloat.neg PyFloat.add PyFloat.abs] in Hflag.
  unfold PyFloat.gtb, PyFloat.ltb in Hflag. now apply Rltb_true in Hflag.
Qed.

(** ** The ranking of the anomalies *)

Lemma insert_desc_perm (a : Anomaly) (l : list Anomaly) :
  Permutation (a :: l) (insert_desc a l).
Proof.
  induction l as [|b l IH]; [reflexivity|].
  cbn [insert_desc].
  destruct (PyFloat.ltb (a_deviation b) (a_deviation a)); [reflexivity|].
  rewrite perm_swap. now apply perm_skip.
Qed.

Lemma sort_by_deviation_perm (l : list Anomaly) :
  Permutation l (sort_by_deviation l).
Proof.
  unfold sort_by_deviation.
  assert (H : forall acc, Permutation (acc ++ l)
                            (fold_left (fun acc a => insert_desc a acc) l acc)).
  { induction l as [|a l IH]; intros acc; cbn [fold_left].
    - now rewrite app_nil_r.
    - rewrite <- IH. rewrite <- Permutation_middle.
      change (a :: acc ++ l) with ((a :: acc) ++ l).
      apply Permutation_app_tail. apply insert_desc_perm. }
  exact (H []).
Qed.

Lemma ltb_asym (x y : pyfloat) :
  PyFloat.ltb x y = true -> PyFloat.ltb y x = false.
Proof.
  destruct x as [x| | |], y as [y| | |]; cbn; try reflexivity;
    try discriminate.
  rewrite Rltb_true. intros H. apply Rltb_intro_false. lra.
Qed.

Lemma ltb_false_trans (x y z : pyfloat) :
  y <> PyFloat.NaN ->
  PyFloat.ltb x y = false -> PyFloat.ltb y z = false ->
  PyFloat.ltb x z = false.
Proof.
  destruct x as [x| | |], y as [y| | |], z as [z| | |]; cbn;
    try reflexivity; try discriminate; try congruence.
  rewrite !Rltb_false. intros _ H1 H2. lra.
Qed.

Lemma insert_desc_sorted (a : Anomaly) (l : list Anomaly) :
  Forall (fun b => a_deviation b <> PyFloat.NaN) l ->
  StronglySorted dev_ge l -> StronglySorted dev_ge (insert_desc a l).
Proof.
  intros Hn Hs. induction Hs as [|b l Hs IH Hb]; cbn [insert_desc].
  - repeat constructor.
  - inversion Hn as [|? ? Hnb Hnl]; subst.
    destruct (PyFloat.ltb (a_deviation b) (a_deviation a)) eqn:E.
    + constructor; [now constructor|].
      assert (Hab : dev_ge a b) by (unfold dev_ge; now apply ltb_asym).
      constructor; [exact Hab|].
      rewrite Forall_forall in *. intros x Hx.
      unfold dev_ge in *.
      exact (ltb_false_trans _ _ _ Hnb Hab (Hb x Hx)).
    + constructor; [now apply IH|].
      rewrite Forall_forall in *. intros x Hx.
      apply (Permutation_in _ (Permutation_sym (insert_desc_perm a l))) in Hx.
      destruct Hx as [<- | Hx]; [exact E|now apply Hb].
Qed.

Lemma sort_by_deviation_sorted (l : list Anomaly) :
  Forall (fun b => a_deviation b <> PyFloat.NaN) l ->
  StronglySorted dev_ge (sort_by_deviation l).
Proof.
  unfold sort_by_deviation. intros Hl.
  assert (H : forall acc,
            Forall (fun b => a_deviation b <> PyFloat.NaN) acc ->
            StronglySorted dev_ge acc ->
            StronglySorted dev_ge
              (fold_left (fun acc a => insert_desc a acc) l acc)).
  { induction Hl as [|a l Ha Hl IH]; intros acc Hacc Hs; [exact Hs|].
    cbn [fold_left]. apply IH.
    - rewrite Forall_forall in *. intros x Hx.
      apply (Permutation_in _ (Permutation_sym (insert_desc_perm a acc))) in Hx.
      destruct Hx as [<- | Hx]; [exact Ha|now apply Hacc].
    - now apply insert_desc_sorted. }
  apply H; constructor.
Qed.

Lemma analyze_group_app (multiplier : pyfloat) (st : scan_state)
  (points : list Point) :
  fst (analyze_group multiplier st points)
  = fst st ++ fst (analyze_group multiplier ([], O) points).
Proof.
  unfold analyze_group.
  destruct (List.length points <? 5)%nat; [now rewrite app_nil_r|].
  cbv zeta. now rewrite !check_point_fold.
Qed.

Lemma scan_groups_found (multiplier : pyfloat)
  (groups : list (string * list Point)) (a : Anomaly) :
  In a (fst (scan_groups multiplier groups)) ->
  exists kv, In kv groups
             /\ In a (fst (analyze_group multiplier ([], O) (snd kv))).
Proof.
  unfold scan_groups.
  assert (H : forall st,
            In a (fst (fold_left
                         (fun st kv => analyze_group multiplier st (snd kv))
                         groups st)) ->
            In a (fst st)
            \/ exists kv, In kv groups
                          /\ In a (fst (analyze_group multiplier ([], O)
                                          (snd kv)))).
  { induction groups as [|kv groups IH]; intros st Hin; [now left|].
    cbn [fold_left] in Hin. apply IH in Hin as [Hin | (kv' & H1 & H2)].
    - rewrite analyze_group_app in Hin. apply in_app_or in Hin as [Hin | Hin].
      + now left.
      + right. exists kv. split; [now left|exact Hin].
    - right. exists kv'. split; [now right|exact H2]. }
  intros Hin. apply H in Hin as [[] | Hin]. exact Hin.
Qed.

Lemma finite_values_list (points : list Point) :
  Forall finite_value points ->
  exists xs, map p_value points = map PyFloat.Fin xs.
Proof.
  induction 1 as [|p points [v Hv] _ [xs IH]].
  - now exists [].
  - exists (v :: xs). cbn [map]. now rewrite Hv, IH.
Qed.

Lemma finite_group_deviation (k : R) (points : list Point) (xs : list R)
  (a : Anomaly) :
  map p_value points = map PyFloat.Fin xs ->
  In a (fst (analyze_group (PyFloat.Fin k) ([], O) points)) ->
  a_deviation a <> PyFloat.NaN.
Proof.
  intros Hv Ha.
  destruct (finite_group_anomaly k points xs a Hv Ha)
    as (m & s & v & p & Hs & _ & _ & _ & Ev & Hout & ->).
  unfold anomaly_of. cbv zeta. rewrite Ev.
  cbn [a_deviation PyFloat.sub PyFloat.neg PyFloat.add PyFloat.abs
       PyFloat.div].
  destruct (Reqb s 0) eqn:Es; [|discriminate].
  apply Reqb_true in Es. subst s.
  unfold PyFloat.Rsgn.
  destruct (Rlt_dec (Rabs (v + - m)) 0) as [H|H]; [discriminate|].
  destruct (Rlt_dec 0 (Rabs (v + - m))) as [H'|H']; [discriminate|].
  exfalso. apply H'. lra.
Qed.

Lemma group_points_members (data_points : list Point) (key : string)
  (points : list Point) (p : Point) :
  In (key, points) (group_points data_points) -> In p points ->
  In p data_points.
Proof.
  intros Hg Hp.
  apply (dict_get_In key points _ (group_points_NoDup data_points)) in Hg.
  rewrite group_points_get in Hg.
  destruct (filter (fun q => String.eqb (group_key q) key) data_points)
    as [|q qs] eqn:Ef; [discriminate|].
  injection Hg as <-. rewrite <- Ef in Hp.
  now apply filter_In in Hp.
Qed.

(** ** Anomaly detection: the endpoint *)

Lemma detect_anomalies_raises (request : AnomalyDetectionRequest)
  (now : datetime) (db : DB) (e : exn) :
  window_start now (lookback_hours request) = Raise e ->
  detect_anomalies request now db = Raise e.
Proof. intros H. unfold detect_anomalies. cbv zeta. now rewrite H. Qed.

Lemma detect_anomalies_few (request : AnomalyDetectionRequest)
  (now start : datetime) (db : DB) :
  window_start now (lookback_hours request) = Ok start ->
  (List.length (anomaly_query request start db) < 10)%nat ->
  detect_anomalies request now db = Ok insufficient_data.
Proof.
  intros H Hl. unfold detect_anomalies. cbv zeta. rewrite H.
  now rewrite (proj2 (Nat.ltb_lt _ _) Hl).
Qed.

Lemma detect_anomalies_enough (request : AnomalyDetectionRequest)
  (now start : datetime) (db : DB) :
  window_start now (lookback_hours request) = Ok start ->
  (10 <= List.length (anomaly_query request start db))%nat ->
  detect_anomalies request now db
  = Ok [("analysis_period", FPeriod start now (lookback_hours request));
        ("threshold_multiplier", FFloat (threshold_multiplier request));
        ("total_points_analyzed",
         FInt (Z.of_nat (List.length (anomaly_query request start db))));
        ("anomalies_detected",
         FInt (Z.of_nat
                 (List.length
                    (sort_by_deviation
                       (fst (scan_groups (threshold_multiplier request)
                               (group_points
                                  (anomaly_query request start db))))))));
        ("anomalies",
         FAnomalies
           (firstn 50
              (sort_by_deviation
                 (fst (scan_groups (threshold_multiplier request)
                         (group_points
                            (anomaly_query request start db)))))))]%string.
Proof.
  intros H Hl. unfold detect_anomalies. cbv zeta. rewrite H.
  now rewrite (proj2 (Nat.ltb_ge _ _) Hl).
Qed.

Lemma scan_groups_app (multiplier : pyfloat)
  (g1 g2 : list (string * list Point)) :
  scan_groups multiplier (g1 ++ g2)
  = fold_left (fun st kv => analyze_group multiplier st (snd kv)) g2
      (scan_groups multiplier g1).
Proof. unfold scan_groups. apply fold_left_app. Qed.

(** A group that the scan leaves the state unchanged at can be taken out
    of the dict. *)
Lemma scan_groups_without (multiplier : pyfloat)
  (g1 g2 : list (string * list Point)) (key : string) (points : list Point) :
  (forall st, analyze_group multiplier st points = st) ->
  scan_groups multiplier (g1 ++ (key, points) :: g2)
  = scan_groups multiplier (g1 ++ g2).
Proof.
  intros H. rewrite !scan_groups_app. cbn [fold_left snd]. now rewrite H.
Qed.

(** The scan of a dict in which every group but one is too small. *)
Lemma scan_groups_single (multiplier : pyfloat)
  (groups : list (string * list Point)) (key : string) (points : list Point) :
  NoDup (map fst groups) ->
  In (key, points) groups ->
  (forall key' points', In (key', points') groups -> key' <> key ->
                        (List.length points' < 5)%nat) ->
  scan_groups multiplier groups = analyze_group multiplier ([], O) points.
Proof.
  intros Hnd Hin Hsmall.
  destruct (in_split _ _ Hin) as (g1 & g2 & E). rewrite E in *.
  rewrite map_app in Hnd. cbn [map fst] in Hnd.
  pose proof (NoDup_remove_2 _ _ _ Hnd) as Hkey.
  assert (Hs : forall kv, In kv (g1 ++ g2) -> (List.length (snd kv) < 5)%nat).
  { intros [k ps] Hkv. cbn [snd]. apply (Hsmall k ps).
    - apply in_app_or in Hkv as [H|H]; apply in_or_app;
        [now left|right; now right].
    - intros ->. apply Hkey. rewrite <- map_app.
      apply in_map_iff. now exists (key, ps). }
  assert (H1 : scan_groups multiplier g1 = ([], O)).
  { unfold scan_groups. apply scan_small_groups.
    apply Forall_forall. intros kv Hkv. apply Hs, in_or_app. now left. }
  rewrite scan_groups_app, H1. cbn [fold_left snd].
  apply scan_small_groups.
  apply Forall_forall. intros kv Hkv. apply Hs, in_or_app. now right.
Qed.

Lemma small_groups_check (groups : list (string * list Point)) :
  forallb (fun kv => (List.length (snd kv) <? 5)%nat) groups = true ->
  Forall (fun kv => (List.length (snd kv) < 5)%nat) groups.
Proof.
  intros H. apply Forall_forall. intros kv Hin.
  apply Nat.ltb_lt. revert kv Hin. now apply forallb_forall.
Qed.

(** The response when the only group of five or more has the values of the
    worked example. *)
Lemma example_group_response (request : AnomalyDetectionRequest)
  (now start : datetime) (db : DB) (key : string) (points : list Point) :
  threshold_multiplier request = PyFloat.Fin 2 ->
  window_start now (lookback_hours request) = Ok start ->
  (10 <= List.length (anomaly_query request start db))%nat ->
  In (key, points) (group_points (anomaly_query request start db)) ->
  map p_value points = example_values ->
  (forall key' points',
     In (key', points') (group_points (anomaly_query request start db)) ->
     key' <> key -> (List.length points' < 5)%nat) ->
  exists p,
    nth_error points 5 = Some p
    /\ p_value p = PyFloat.Fin 100
    /\ analyze_group (PyFloat.Fin 2) ([], O) points
       = ([example_anomaly p], 1%nat)
    /\ detect_anomalies request now db
       = Ok [("analysis_period", FPeriod start now (lookback_hours request));
             ("threshold_multiplier", FFloat (PyFloat.Fin 2));
             ("total_points_analyzed",
              FInt (Z.of_nat
                      (List.length (anomaly_query request start db))));
             ("anomalies_detected", FInt 1);
             ("anomalies", FAnomalies [example_anomaly p])]%string.
Proof.
  intros Hk Hw Hlen Hin Hvals Hsmall.
  destruct (example_group_scan points ([], O) Hvals) as (p & Hnth & Hp & Hrun).
  exists p. split; [exact Hnth|]. split; [exact Hp|]. split; [exact Hrun|].
  rewrite (detect_anomalies_enough request now start db Hw Hlen), Hk.
  rewrite (scan_groups_single (PyFloat.Fin 2) _ key points
             (group_points_NoDup _) Hin Hsmall).
  rewrite Hrun. reflexivity.
Qed.

(** C8, at the input where the code leaves the claim.  Six readings are
    stored, fewer than ten.  A request that looks twenty million hours back
    from 2023-11-14 is answered by no result at all: the subtraction of line
    222 leaves the range of [datetime] and raises OverflowError before any
    reading is selected.  Looking seventeen million hours back, the same six
    readings give the insufficient-data result. *)
Theorem lookback_overflow_raises :
  (List.length (sensor_data short_db) < 10)%nat
  /\ window_start late_now (lookback_hours far_request) = Raise OverflowError
  /\ detect_anomalies far_request late_now short_db = Raise OverflowError
  /\ detect_anomalies far_request late_now short_db <> Ok insufficient_data
  /\ List.length (anomaly_query wide_request
                    (late_now - timedelta_hours 17000000) short_db) = 6%nat
  /\ detect_anomalies wide_request late_now short_db = Ok insufficient_data.
Proof.
  assert (Hw : window_start late_now (lookback_hours far_request)
               = Raise OverflowError) by reflexivity.
  assert (E : detect_anomalies far_request late_now short_db
              = Raise OverflowError)
    by exact (detect_anomalies_raises far_request late_now short_db _ Hw).
  assert (Hl : List.length (anomaly_query wide_request
                              (late_now - timedelta_hours 17000000) short_db)
               = 6%nat) by (vm_compute; reflexivity).
  split; [cbn; lia|]. split; [exact Hw|]. split; [exact E|].
  split; [rewrite E; discriminate|]. split; [exact Hl|].
  apply (detect_anomalies_few wide_request late_now
           (late_now - timedelta_hours 17000000)%Z short_db);
    [reflexivity|rewrite Hl; lia].
Qed.

(** X31. With a window start that [datetime] can hold and fewer than ten
    data points, the response is the insufficient-data dict, which carries a
    ["message"] key; every response over ten or more points, whatever its
    anomaly list, has no such key and so differs from it. *)
Theorem insufficient_data_explicit (request : AnomalyDetectionRequest)
  (now start : datetime) (db : DB) :
  window_start now (lookback_hours request) = Ok start ->
  (List.length (anomaly_query request start db) < 10)%nat ->
  detect_anomalies request now db = Ok insufficient_data
  /\ dict_get "message" insufficient_data
     = Some (FStr "Insufficient data for anomaly detection")
  /\ dict_get "total_points_analyzed" insufficient_data = None
  /\ forall request' now' start' db',
       window_start now' (lookback_hours request') = Ok start' ->
       (10 <= List.length (anomaly_query request' start' db'))%nat ->
       exists resp,
         detect_anomalies request' now' db' = Ok resp
         /\ dict_get "message" resp = None
         /\ dict_get "total_points_analyzed" resp
            = Some (FInt (Z.of_nat
                            (List.length
                               (anomaly_query request' start' db'))))
         /\ resp <> insufficient_data.
Proof.
  intros Hw Hl.
  split; [exact (detect_anomalies_few request now start db Hw Hl)|].
  split; [reflexivity|]. split; [reflexivity|].
  intros request' now' start' db' Hw' Hl'.
  eexists. split; [exact (detect_anomalies_enough _ _ _ _ Hw' Hl')|].
  split; [reflexivity|]. split; [reflexivity|]. discriminate.
Qed.

Lemma insufficient_data_explicit_witness :
  (List.length (anomaly_query default_request 13600000000 short_db) < 10)%nat
  /\ detect_anomalies default_request sample_now short_db
     = Ok insufficient_data
  /\ detect_anomalies default_request sample_now sample_db
     <> Ok insufficient_data.
Proof.
  assert (H : (List.length (anomaly_query default_request 13600000000 short_db)
               < 10)%nat)
    by (apply Nat.ltb_lt; vm_compute; reflexivity).
  destruct (insufficient_data_explicit default_request sample_now
              13600000000%Z short_db eq_refl H) as (E & _ & _ & Hother).
  split; [exact H|]. split; [exact E|].
  destruct (Hother default_request sample_now 13600000000%Z sample_db eq_refl)
    as (resp & E' & _ & _ & Hne).
  { apply Nat.leb_le; vm_compute; reflexivity. }
  rewrite E'. intros Heq. injection Heq as Heq. contradiction.
Defined.



Lemma merged_small_points :
  anomaly_query default_request 13600000000 merged_small_db
  = [line_point 50000000001 10; pressure_point 50000000002 3;
     line_point 50000000003 10; pressure_point 50000000004 3;
     line_point 50000000005 10; pressure_point 50000000006 4;
     line_point 50000000007 10; pressure_point 50000000008 90;
     line_a_point 50000000009 10; line_a_point 50000000010 100].
Proof. reflexivity. Qed.

Lemma merged_constant_points :
  anomaly_query default_request 13600000000 merged_constant_db
  = [line_point 50000000001 10; pressure_point 50000000002 3;
     line_point 50000000003 10; pressure_point 50000000004 3;
     line_point 50000000005 10; pressure_point 50000000006 3;
     line_point 50000000007 10; pressure_point 50000000008 3;
     line_point 50000000009 10; line_a_point 50000000010 100].
Proof. reflexivity. Qed.

(** The response over a window whose groups are the six points [points]
    under one key, with the values of the worked example, and four points
    under another. *)
Lemma merged_group_response (db : DB) (points others : list Point) :
  group_points (anomaly_query default_request 13600000000 db)
  = [("line_a_temp"%string, points); ("pump-1_pressure"%string, others)] ->
  List.length (anomaly_query default_request 13600000000 db) = 10%nat ->
  map p_value points = example_values ->
  (List.length others < 5)%nat ->
  nth_error points 5 = Some (line_a_point 50000000010 100) ->
  detect_anomalies default_request sample_now db
  = Ok [("analysis_period", FPeriod 13600000000 sample_now 24);
        ("threshold_multiplier", FFloat (PyFloat.Fin 2));
        ("total_points_analyzed", FInt 10);
        ("anomalies_detected", FInt 1);
        ("anomalies",
         FAnomalies [example_anomaly (line_a_point 50000000010 100)])]%string.
Proof.
  intros Hg Hlen Hvals Hothers Hnth.
  destruct (example_group_response default_request sample_now 13600000000%Z
              db "line_a_temp" points eq_refl eq_refl)
    as (p & Hp & _ & _ & E).
  - rewrite Hlen. lia.
  - rewrite Hg. now left.
  - exact Hvals.
  - intros key' points' Hin Hne. rewrite Hg in Hin.
    destruct Hin as [H | [H | []]].
    + injection H as <- _. contradiction.
    + injection H as _ <-. exact Hothers.
  - rewrite Hp in Hnth. injection Hnth as ->.
    rewrite E, Hlen. reflexivity.
Qed.

(** No (equipment, sensor) pair has [n] points when no pair of a point of
    the list has. *)
Lemma pair_points_bound (n : nat) (points : list Point) :
  (0 < n)%nat ->
  Forall (fun p =>
            (List.length
               (pair_points (p_equipment_id p) (p_sensor_type p) points)
             < n)%nat) points ->
  forall e t, (List.length (pair_points e t points) < n)%nat.
Proof.
  intros Hn Hall e t.
  destruct (pair_points e t points) as [|p l] eqn:E; [exact Hn|].
  assert (Hp : In p (pair_points e t points)) by (rewrite E; now left).
  unfold pair_points in Hp. apply filter_In in Hp as [Hin Hc].
  apply andb_true_iff in Hc as [H1 H2].
  apply String.eqb_eq in H1. apply String.eqb_eq in H2. subst e t.
  rewrite Forall_forall in Hall. specialize (Hall p Hin).
  now rewrite E in Hall.
Qed.



Lemma example_db_points :
  anomaly_query default_request 13600000000 example_db
  = [temperature_point 50000000001 10; pressure_point 50000000002 3;
     temperature_point 50000000003 10; pressure_point 50000000004 3;
     temperature_point 50000000005 10; pressure_point 50000000006 4;
     temperature_point 50000000007 10; pressure_point 50000000008 90;
     temperature_point 50000000009 10; temperature_point 50000000010 100].
Proof. reflexivity. Qed.



Lemma group_points_nonempty (data_points : list Point) (key : string)
  (points : list Point) :
  In (key, points) (group_points data_points) -> points <> [].
Proof.
  intros Hg.
  apply (dict_get_In key points _ (group_points_NoDup data_points)) in Hg.
  rewrite group_points_get in Hg.
  destruct (filter (fun q => String.eqb (group_key q) key) data_points)
    as [|q qs]; [discriminate|].
  injection Hg as <-. discriminate.
Qed.


Lemma steady_db_points :
  anomaly_query default_request 13600000000 steady_db
  = [temperature_point 50000000001 7; pressure_point 50000000002 3;
     temperature_point 50000000003 7; pressure_point 50000000004 3;
     temperature_point 50000000005 7; pressure_point 50000000006 4;
     temperature_point 50000000007 7; pressure_point 50000000008 90;
     temperature_point 50000000009 7; temperature_point 50000000010 7].
Proof. reflexivity. Qed.

Lemma steady_mean : np_mean (map p_value steady_points) = PyFloat.Fin 7.
Proof.
  unfold np_mean, np_sum, steady_points, PyFloat.zero, PyFloat.of_nat.
  cbn [map fold_left PyFloat.add List.length PyFloat.div p_value data
       temperature_point reading_of SensorData.value].
  assert (H6 : INR 6 = 6) by (simpl; lra).
  rewrite H6. rewrite (proj2 (Reqb_false 6 0)) by lra.
  f_equal. lra.
Qed.


Lemma single_value_std (x : R) :
  np_std [PyFloat.Fin x] = PyFloat.Fin 0.
Proof.
  assert (Hm : np_mean (repeat (PyFloat.Fin x) 1) = PyFloat.Fin x).
  { unfold np_mean, np_sum, PyFloat.zero, PyFloat.of_nat.
    cbn [repeat fold_left PyFloat.add List.length PyFloat.div].
    assert (H1 : INR 1 = 1) by reflexivity.
    rewrite H1. rewrite (proj2 (Reqb_false 1 0)) by lra. f_equal. lra. }
  destruct (np_std_at_mean (PyFloat.Fin x) 0 Hm) as [[_ E]|[E _]];
    [exact E|].
  cbn [PyFloat.sub PyFloat.neg PyFloat.add] in E. discriminate.
Qed.


(** X18. With a window start that [datetime] can hold, ten or more data
    points in the window, all of finite value, and a finite multiplier that
    is not negative, the response ranks what the scan found:
    [anomalies_detected] counts all anomalies found, and [anomalies] is the
    first fifty of them in an order where no deviation is smaller than a
    later one. *)
Theorem anomalies_ranked (request : AnomalyDetectionRequest)
  (now start : datetime) (db : DB) (k : R) :
  threshold_multiplier request = PyFloat.Fin k ->
  0 <= k ->
  window_start now (lookback_hours request) = Ok start ->
  Forall finite_value (anomaly_query request start db) ->
  (10 <= List.length (anomaly_query request start db))%nat ->
  let found :=
    fst (scan_groups (threshold_multiplier request)
           (group_points (anomaly_query request start db))) in
  exists ranked resp,
    detect_anomalies request now db = Ok resp
    /\ Permutation found ranked
    /\ StronglySorted dev_ge ranked
    /\ dict_get "anomalies_detected" resp
       = Some (FInt (Z.of_nat (List.length found)))
    /\ dict_get "anomalies" resp = Some (FAnomalies (firstn 50 ranked))
    /\ List.length (firstn 50 ranked) = Nat.min 50 (List.length found).
Proof.
  intros Hk _ Hw Hfin Hlen. cbv zeta.
  set (found := fst (scan_groups (threshold_multiplier request)
                       (group_points (anomaly_query request start db)))).
  exists (sort_by_deviation found).
  pose proof (sort_by_deviation_perm found) as Hperm.
  eexists. split; [exact (detect_anomalies_enough _ _ _ _ Hw Hlen)|].
  fold found.
  split; [exact Hperm|]. split.
  { apply sort_by_deviation_sorted. apply Forall_forall. intros a Ha.
    unfold found in Ha. apply scan_groups_found in Ha as ([key ps] & Hg & Ha).
    cbn [snd] in Ha. rewrite Hk in Ha.
    assert (Hps : Forall finite_value ps).
    { apply Forall_forall. intros p Hp.
      rewrite Forall_forall in Hfin. apply Hfin.
      exact (group_points_members _ _ _ _ Hg Hp). }
    destruct (finite_values_list ps Hps) as [xs Hxs].
    exact (finite_group_deviation k ps xs a Hxs Ha). }
  split; [|split].
  - cbn [dict_get String.eqb Ascii.eqb Bool.eqb].
    now rewrite (Permutation_length Hperm).
  - reflexivity.
  - rewrite length_firstn, (Permutation_length Hperm). reflexivity.
Qed.

Lemma anomalies_ranked_witness :
  Forall finite_value (anomaly_query default_request 13600000000 example_db)
  /\ (10 <= List.length
              (anomaly_query default_request 13600000000 example_db))%nat
  /\ exists ranked resp,
       detect_anomalies default_request sample_now example_db = Ok resp
       /\ StronglySorted dev_ge ranked
       /\ dict_get "anomalies" resp = Some (FAnomalies (firstn 50 ranked)).
Proof.
  assert (H1 : Forall finite_value
                 (anomaly_query default_request 13600000000 example_db)).
  { rewrite example_db_points.
    repeat (constructor; [eexists; reflexivity|]). constructor. }
  assert (H2 : (10 <= List.length
                        (anomaly_query default_request 13600000000
                           example_db))%nat)
    by (rewrite example_db_points; cbn; lia).
  split; [exact H1|]. split; [exact H2|].
  destruct (anomalies_ranked default_request sample_now 13600000000%Z
              example_db 2 eq_refl) as (ranked & resp & E & _ & Hs & _ & Ha & _);
    [lra|reflexivity|exact H1|exact H2|].
  exists ranked, resp. split; [exact E|]. split; [exact Hs|exact Ha].
Defined.

(** ** Alerts *)

Lemma filter_eq_In {A : Type} (text : option string) (col : A -> string)
  (rows : list A) (r : A) :
  In r (filter_eq text col rows)
  <-> In r rows
      /\ (forall t, text = Some t -> t <> ""%string -> col r = t).
Proof.
  unfold filter_eq. destruct text as [t|].
  - destruct (String.eqb t "") eqn:E.
    + apply String.eqb_eq in E. subst t. split; [|tauto].
      intros H. split; [exact H|]. intros t E. injection E as <-. contradiction.
    + apply String.eqb_neq in E. rewrite filter_In, String.eqb_eq. split.
      * intros [H1 H2]. split; [exact H1|]. intros t' E' _. now injection E' as <-.
      * intros [H1 H2]. split; [exact H1|]. now apply H2.
  - split; [|tauto]. intros H. split; [exact H|]. intros t E. discriminate.
Qed.

Lemma active_alerts_In (severity equipment_id : option string)
  (skip limit : nat) (db : DB) (alerts : list Alert.t) (a : Alert.t) :
  In a (active_alerts severity equipment_id skip limit db alerts) ->
  In a alerts
  /\ Alert.is_acknowledged a = false
  /\ (forall t, severity = Some t -> t <> ""%string -> Alert.severity a = t)
  /\ (forall eid, equipment_id = Some eid -> eid <> ""%string ->
      alert_of_equipment db eid a = true).
Proof.
  unfold active_alerts. cbv zeta. intros H.
  apply In_firstn_skipn in H.
  apply (Permutation_in _ (Permutation_sym (order_by_desc_perm _ _))) in H.
  assert (Hbase : forall q : unit,
            In a (filter_eq severity Alert.severity
                    (filter (fun a => negb (Alert.is_acknowledged a)) alerts)) ->
            In a alerts /\ Alert.is_acknowledged a = false
            /\ (forall t, severity = Some t -> t <> ""%string ->
                          Alert.severity a = t)).
  { intros _ Hq. apply filter_eq_In in Hq as [Hq Hs].
    apply filter_In in Hq as [Hq Hack]. apply negb_true_iff in Hack. auto. }
  destruct equipment_id as [eid|].
  - destruct (String.eqb eid "") eqn:E.
    + apply String.eqb_eq in E. subst eid.
      destruct (Hbase tt H) as (H1 & H2 & H3). repeat split; try assumption.
      intros eid E. injection E as <-. contradiction.
    + apply filter_In in H as [H Heq].
      destruct (Hbase tt H) as (H1 & H2 & H3). repeat split; try assumption.
      intros eid' E' _. now injection E' as <-.
  - destruct (Hbase tt H) as (H1 & H2 & H3). repeat split; try assumption.
    intros eid E. discriminate.
Qed.

(** X19. [get_active_alerts] lists only unacknowledged alerts, each
    matching the severity and the equipment asked for when these are given
    and not empty; it lists at most [limit] of them, most recently
    triggered first. *)
Theorem active_alerts_listing (severity equipment_id : option string)
  (skip limit : nat) (now : datetime) (db : DB) (alerts : list Alert.t) :
  let listing :=
    get_active_alerts severity equipment_id skip limit now db alerts in
  (List.length listing <= limit)%nat
  /\ StronglySorted (desc_by ae_triggered_at) listing
  /\ (forall entry, In entry listing ->
        exists a,
          In a alerts /\ entry = alert_entry now a
          /\ Alert.is_acknowledged a = false
          /\ (forall t, severity = Some t -> t <> ""%string ->
                        ae_severity entry = t)
          /\ (forall eid, equipment_id = Some eid -> eid <> ""%string ->
              exists e, In e (equipment db)
                        /\ Equipment.id e = ae_equipment_id entry
                        /\ Equipment.equipment_id e = eid)).
Proof.
  cbv zeta. unfold get_active_alerts. split; [|split].
  - rewrite length_map. unfold active_alerts. apply firstn_le_length.
  - apply StronglySorted_map. unfold active_alerts. cbv zeta.
    apply StronglySorted_firstn, StronglySorted_skipn.
    apply (order_by_desc_sorted Alert.triggered_at).
  - intros entry Hin. apply in_map_iff in Hin as (a & <- & Ha).
    apply active_alerts_In in Ha as (H1 & H2 & H3 & H4).
    exists a. repeat split; try assumption.
    intros eid E Hne. specialize (H4 eid E Hne).
    unfold alert_of_equipment, find_equipment_by_pk in H4.
    destruct (find _ (equipment db)) as [e|] eqn:Hf; [|discriminate].
    apply find_some in Hf as [Hin Hid].
    exists e. split; [exact Hin|]. split.
    + now apply Z.eqb_eq in Hid.
    + now apply String.eqb_eq in H4.
Qed.

Lemma NoDup_map_eq {A B : Type} (f : A -> B) (l : list A) (a b : A) :
  NoDup (map f l) -> In a l -> In b l -> f a = f b -> a = b.
Proof.
  induction l as [|x l IH]; intros Hn Ha Hb E; [contradiction|].
  cbn [map] in Hn. inversion Hn as [|? ? Hx Hn']; subst.
  destruct Ha as [<- | Ha], Hb as [<- | Hb]; try reflexivity.
  - exfalso. apply Hx. rewrite E. now apply in_map.
  - exfalso. apply Hx. rewrite <- E. now apply in_map.
  - now apply IH.
Qed.

Lemma acknowledge_alert_found (alert_id acknowledged_by : string)
  (now : datetime) (alerts : list Alert.t) (a : Alert.t) :
  NoDup (map Alert.alert_id alerts) ->
  In a alerts -> Alert.alert_id a = alert_id ->
  acknowledge_alert alert_id acknowledged_by now alerts
  = (map (fun b => if Z.eqb (Alert.id b) (Alert.id a)
                   then Alert.acknowledge acknowledged_by now b else b) alerts,
     Success tt).
Proof.
  intros Hn Ha Hid. unfold acknowledge_alert.
  destruct (find (fun b => String.eqb (Alert.alert_id b) alert_id) alerts)
    as [f|] eqn:Hf.
  - apply find_some in Hf as [Hin Heq]. apply String.eqb_eq in Heq.
    assert (f = a) by (apply (NoDup_map_eq Alert.alert_id alerts); congruence).
    now subst f.
  - pose proof (find_none _ _ Hf a Ha) as H. cbn beta in H.
    rewrite Hid, String.eqb_refl in H. discriminate.
Qed.

(** X20. Acknowledging an alert, with alert ids unique in the table.
    An id that no alert has gives 404 and leaves the table as it was.
    Otherwise the call succeeds, and afterwards [get_active_alerts] lists
    no alert with that id, whatever filters and paging are asked for; the
    other alerts keep their acknowledgement state.  Acknowledging the same
    alert again is not refused: it succeeds and overwrites who acknowledged
    it. *)
Theorem acknowledged_alert_leaves_listing
  (alert_id acknowledged_by : string) (now : datetime)
  (alerts : list Alert.t) :
  NoDup (map Alert.alert_id alerts) ->
  ((forall a, In a alerts -> Alert.alert_id a <> alert_id) ->
   acknowledge_alert alert_id acknowledged_by now alerts
   = (alerts, HTTPError 404 "Alert not found"))
  /\ (forall a, In a alerts -> Alert.alert_id a = alert_id ->
      let alerts' :=
        fst (acknowledge_alert alert_id acknowledged_by now alerts) in
      snd (acknowledge_alert alert_id acknowledged_by now alerts) = Success tt
      /\ map Alert.alert_id alerts' = map Alert.alert_id alerts
      /\ (forall severity equipment_id skip limit now' db entry,
            In entry (get_active_alerts severity equipment_id skip limit now'
                        db alerts') ->
            ae_alert_id entry <> alert_id)
      /\ (forall b, In b alerts -> Alert.id b <> Alert.id a -> In b alerts')
      /\ (forall by2 now2,
            snd (acknowledge_alert alert_id by2 now2 alerts') = Success tt
            /\ forall b,
                 In b (fst (acknowledge_alert alert_id by2 now2 alerts')) ->
                 Alert.alert_id b = alert_id ->
                 Alert.acknowledged_by b = Some by2)).
Proof.
  intros Hn. split.
  - intros Hnone. unfold acknowledge_alert.
    destruct (find (fun a => String.eqb (Alert.alert_id a) alert_id) alerts)
      as [f|] eqn:Hf; [|reflexivity].
    apply find_some in Hf as [Hin Heq]. apply String.eqb_eq in Heq.
    exfalso. exact (Hnone f Hin Heq).
  - intros a Ha Hid. cbv zeta.
    rewrite (acknowledge_alert_found _ acknowledged_by now _ a Hn Ha Hid).
    cbn [fst snd].
    set (upd := fun by_ t (b : Alert.t) =>
                  if Z.eqb (Alert.id b) (Alert.id a)
                  then Alert.acknowledge by_ t b else b).
    assert (Hids : forall by_ t l,
              map Alert.alert_id (map (upd by_ t) l) = map Alert.alert_id l).
    { intros by_ t l. rewrite map_map. apply map_ext. intros b. unfold upd.
      destruct (Z.eqb (Alert.id b) (Alert.id a)); reflexivity. }
    assert (Hrow : forall by_ t b',
              In b' (map (upd by_ t) alerts) -> Alert.alert_id b' = alert_id ->
              b' = Alert.acknowledge by_ t a).
    { intros by_ t b' Hb' Hid'. apply in_map_iff in Hb' as (b & <- & Hb).
      assert (Eb : Alert.alert_id b = alert_id).
      { revert Hid'. unfold upd.
        destruct (Z.eqb (Alert.id b) (Alert.id a)); intros H; exact H. }
      assert (b = a)
        by (apply (NoDup_map_eq Alert.alert_id alerts); congruence).
      subst b. unfold upd. now rewrite Z.eqb_refl. }
    split; [reflexivity|]. split; [apply (Hids acknowledged_by now)|].
    split; [|split].
    + intros severity equipment_id skip limit now' db entry Hin Heq.
      unfold get_active_alerts in Hin.
      apply in_map_iff in Hin as (b' & <- & Hb').
      apply active_alerts_In in Hb' as (H1 & H2 & _).
      cbn [alert_entry ae_alert_id] in Heq.
      rewrite (Hrow acknowledged_by now b' H1 Heq) in H2. discriminate.
    + intros b Hb Hne. apply in_map_iff. exists b. split; [|exact Hb].
      now rewrite (proj2 (Z.eqb_neq _ _) Hne).
    + intros by2 now2.
      assert (Ha' : In (Alert.acknowledge acknowledged_by now a)
                      (map (upd acknowledged_by now) alerts)).
      { apply in_map_iff. exists a. split; [|exact Ha].
        unfold upd. now rewrite Z.eqb_refl. }
      assert (Hn' : NoDup (map Alert.alert_id (map (upd acknowledged_by now)
                                                 alerts)))
        by now rewrite Hids.
      pose proof (acknowledge_alert_found alert_id by2 now2 _ _ Hn' Ha' Hid)
        as Hack.
      change (map (fun b : Alert.t =>
                     if Z.eqb (Alert.id b) (Alert.id a)
                     then Alert.acknowledge acknowledged_by now b else b)
                alerts)
        with (map (upd acknowledged_by now) alerts).
      rewrite Hack. cbn [fst snd]. split; [reflexivity|].
      intros b Hb Hb_id. apply in_map_iff in Hb as (c & <- & Hc).
      cbn [Alert.acknowledge Alert.id] in *.
      destruct (Z.eqb (Alert.id c) (Alert.id a)) eqn:E; [reflexivity|].
      rewrite (Hrow acknowledged_by now c Hc Hb_id) in E.
      cbn [Alert.acknowledge Alert.id] in E. rewrite Z.eqb_refl in E.
      discriminate.
Qed.

Lemma acknowledged_alert_leaves_listing_witness :
  NoDup (map Alert.alert_id [overheat_alert; drift_alert])
  /\ map ae_alert_id
       (get_active_alerts None None 0 50 3000000 live_db
          [overheat_alert; drift_alert]) = ["a-2"; "a-1"]%string
  /\ forall entry,
       In entry
         (get_active_alerts None None 0 50 3000000 live_db
            (fst (acknowledge_alert "a-1" "operator" 2500000
                    [overheat_alert; drift_alert]))) ->
       ae_alert_id entry <> "a-1"%string.
Proof.
  assert (Hn : NoDup (map Alert.alert_id [overheat_alert; drift_alert])).
  { repeat constructor; cbn; intuition discriminate. }
  split; [exact Hn|]. split; [reflexivity|].
  destruct (acknowledged_alert_leaves_listing "a-1" "operator" 2500000%Z
              [overheat_alert; drift_alert] Hn) as [_ H].
  destruct (H overheat_alert (or_introl eq_refl) eq_refl)
    as (_ & _ & H3 & _).
  intros entry. apply H3.
Defined.

(** ** Counting by group *)

Lemma count_add_sum (k : string) (d : list (string * nat)) :
  list_sum (map snd (count_add k d)) = S (list_sum (map snd d)).
Proof.
  induction d as [|[a n] d IH]; [reflexivity|].
  cbn [count_add]. unfold list_sum in *.
  destruct (String.eqb a k); cbn [map snd fold_right].
  - reflexivity.
  - rewrite IH. lia.
Qed.

Lemma count_add_get (k k' : string) (d : list (string * nat)) :
  dict_get k' (count_add k d)
  = if String.eqb k k' then
      Some (S (match dict_get k' d with Some n => n | None => O end))
    else dict_get k' d.
Proof.
  induction d as [|[a n] d IH]; cbn [count_add dict_get].
  - now rewrite String.eqb_sym.
  - destruct (String.eqb a k) eqn:Ea; cbn [dict_get].
    + apply String.eqb_eq in Ea. subst a.
      destruct (String.eqb k k'); reflexivity.
    + rewrite IH. destruct (String.eqb a k') eqn:Ek; [|reflexivity].
      apply String.eqb_eq in Ek. subst a.
      rewrite String.eqb_sym in Ea. now rewrite Ea.
Qed.

Lemma count_add_key_In (k k' : string) (d : list (string * nat)) :
  In k' (map fst (count_add k d)) <-> k' = k \/ In k' (map fst d).
Proof.
  induction d as [|[a n] d IH]; cbn [count_add map fst In].
  - intuition.
  - destruct (String.eqb a k) eqn:E; cbn [map fst In].
    + apply String.eqb_eq in E. subst a. intuition.
    + rewrite IH. intuition.
Qed.

Lemma count_add_NoDup (k : string) (d : list (string * nat)) :
  NoDup (map fst d) -> NoDup (map fst (count_add k d)).
Proof.
  induction d as [|[a n] d IH]; intros Hn; cbn [count_add].
  - repeat constructor. intros [].
  - inversion Hn as [|? ? Ha Hn']; subst.
    destruct (String.eqb a k) eqn:E; [exact Hn|].
    cbn [map fst]. constructor; [|now apply IH].
    rewrite count_add_key_In. intros [-> | H]; [|contradiction].
    rewrite String.eqb_refl in E. discriminate.
Qed.

Lemma count_by_snoc {A : Type} (col : A -> string) (rows : list A) (r : A) :
  count_by col (rows ++ [r]) = count_add (col r) (count_by col rows).
Proof. unfold count_by. now rewrite fold_left_app. Qed.

(** What a GROUP BY with count gives: no key twice, the counts add up to
    the number of rows, and the count under a key is the number of rows
    with that key (the key is absent when there is none). *)
Lemma count_by_spec {A : Type} (col : A -> string) (rows : list A) :
  NoDup (map fst (count_by col rows))
  /\ list_sum (map snd (count_by col rows)) = List.length rows
  /\ forall k,
       dict_get k (count_by col rows)
       = match count_where (fun r => String.eqb (col r) k) rows with
         | O => None
         | n => Some n
         end.
Proof.
  induction rows as [|r rows (IH1 & IH2 & IH3)] using rev_ind.
  - repeat split. constructor.
  - rewrite count_by_snoc. split; [now apply count_add_NoDup|]. split.
    + rewrite count_add_sum, IH2, length_app. cbn. lia.
    + intros k. rewrite count_add_get, IH3. unfold count_where.
      rewrite filter_app, length_app. cbn [filter].
      destruct (String.eqb (col r) k); cbn [List.length].
      * rewrite Nat.add_1_r. now destruct (List.length (filter _ rows)).
      * now rewrite Nat.add_0_r.
Qed.

Lemma count_where_le {A : Type} (f : A -> bool) (rows : list A) :
  (count_where f rows <= List.length rows)%nat.
Proof.
  unfold count_where. induction rows as [|r rows IH]; [constructor|].
  cbn [filter]. destruct (f r); cbn [List.length]; lia.
Qed.

Lemma count_where_impl {A : Type} (f g : A -> bool) (rows : list A) :
  (forall r, f r = true -> g r = true) ->
  (count_where f rows <= count_where g rows)%nat.
Proof.
  intros H. unfold count_where. induction rows as [|r rows IH]; [constructor|].
  cbn [filter]. destruct (f r) eqn:Ef.
  - rewrite (H r Ef). cbn [List.length]. lia.
  - destruct (g r); cbn [List.length]; lia.
Qed.

Lemma filter_filter_andb {A : Type} (f g : A -> bool) (l : list A) :
  filter g (filter f l) = filter (fun x => f x && g x) l.
Proof.
  induction l as [|x l IH]; [reflexivity|].
  cbn [filter]. destruct (f x); cbn [filter andb]; now rewrite IH.
Qed.

(** X21. The numbers of the dashboard fit together: active and
    connected equipment are each at most the total; critical alerts are at
    most the open alerts; today's data points are at most the stored
    readings; and the protocol summary has each protocol once, counts the
    active equipment of each protocol, and adds up to the number of active
    equipment. *)
Theorem dashboard_counts_consistent (now : datetime) (db : DB)
  (alerts : list Alert.t) :
  let d := get_dashboard_overview now db alerts in
  (active_equipment d <= total_equipment d)%nat
  /\ (connected_equipment d <= total_equipment d)%nat
  /\ (critical_alerts d <= total_alerts d)%nat
  /\ (total_alerts d <= List.length alerts)%nat
  /\ (data_points_today d <= List.length (sensor_data db))%nat
  /\ NoDup (map fst (protocols_summary d))
  /\ list_sum (map snd (protocols_summary d)) = active_equipment d
  /\ forall protocol,
       dict_get protocol (protocols_summary d)
       = match count_where
                 (fun e => Equipment.is_active e
                           && String.eqb (Equipment.protocol e) protocol)
                 (equipment db) with
         | O => None
         | n => Some n
         end.
Proof.
  cbv zeta. unfold get_dashboard_overview. cbv zeta.
  cbn [total_equipment active_equipment connected_equipment total_alerts
       critical_alerts data_points_today protocols_summary].
  destruct (count_by_spec Equipment.protocol
              (filter Equipment.is_active (equipment db))) as (H1 & H2 & H3).
  repeat split; try apply count_where_le; try assumption.
  - apply count_where_impl. intros a H. apply andb_true_iff in H.
    exact (proj2 H).
  - intros protocol. rewrite H3. unfold count_where.
    now rewrite filter_filter_andb.
Qed.

(** ** Equipment health: summary and data quality *)

Lemma health_status_cases (e : Equipment.t) (now : datetime) :
  (Equipment.is_connected e = true
   /\ (health_status e now = "HEALTHY"%string
       \/ health_status e now = "DEGRADED"%string))
  \/ (Equipment.is_connected e = false
      /\ health_status e now = "OFFLINE"%string).
Proof.
  unfold health_status. destruct (Equipment.is_connected e); [left|right].
  - split; [reflexivity|].
    destruct (heartbeat_fresh (time_since_heartbeat e now)); auto.
  - split; reflexivity.
Qed.

Lemma count_where_map {A B : Type} (f : A -> B) (p : B -> bool) (l : list A) :
  count_where p (map f l) = count_where (fun x => p (f x)) l.
Proof.
  unfold count_where. induction l as [|x l IH]; [reflexivity|].
  cbn [map filter]. destruct (p (f x)); cbn [List.length]; now rewrite IH.
Qed.

Lemma count_where_filter {A : Type} (f g : A -> bool) (l : list A) :
  count_where g (filter f l) = count_where (fun x => f x && g x) l.
Proof. unfold count_where. now rewrite filter_filter_andb. Qed.

Lemma count_where_ext {A : Type} (f g : A -> bool) (l : list A) :
  (forall x, In x l -> f x = g x) -> count_where f l = count_where g l.
Proof.
  unfold count_where. intros H. induction l as [|x l IH]; [reflexivity|].
  cbn [filter]. rewrite (H x (or_introl eq_refl)).
  assert (IH' : List.length (filter f l) = List.length (filter g l)).
  { apply IH. intros y Hy. apply H. now right. }
  destruct (g x); cbn [List.length]; now rewrite IH'.
Qed.

(** X22. The summary of the equipment-health response is a partition
    of its entries: there is one entry per active equipment row, every entry
    is HEALTHY, DEGRADED or OFFLINE (none keeps the initial UNKNOWN), so
    healthy + degraded + offline = total; and the offline ones are exactly the
    active rows that are not connected. *)
Theorem health_summary_partition (now : datetime) (db : DB) :
  let s := health_summary now db in
  hs_total s = count_where Equipment.is_active (equipment db)
  /\ (hs_healthy s + hs_degraded s + hs_offline s = hs_total s)%nat
  /\ hs_offline s
     = count_where (fun e => Equipment.is_active e
                             && negb (Equipment.is_connected e))
         (equipment db)
  /\ Forall (fun h => h_health_status h <> "UNKNOWN"%string)
       (health_data now db).
Proof.
  cbv zeta. unfold health_summary, health_data. cbv zeta.
  cbn [hs_total hs_healthy hs_degraded hs_offline].
  rewrite length_map. rewrite !count_where_map.
  cbn [health_entry h_health_status].
  set (act := filter Equipment.is_active (equipment db)).
  repeat split.
  - unfold count_where. fold act.
    induction act as [|e l IH]; [reflexivity|].
    unfold count_where in *. cbn [filter List.length].
    destruct (health_status_cases e now) as [[_ [H|H]]|[_ H]];
      rewrite H; cbn; lia.
  - unfold act. rewrite count_where_filter. apply count_where_ext.
    intros e _. f_equal.
    destruct (health_status_cases e now) as [[Hc [H|H]]|[Hc H]];
      rewrite H, Hc; reflexivity.
  - apply Forall_forall. intros h Hh. apply in_map_iff in Hh.
    destruct Hh as (e & <- & _). cbn [health_entry h_health_status].
    destruct (health_status_cases e now) as [[_ [H|H]]|[_ H]];
      rewrite H; discriminate.
Qed.

Lemma INR_scaled_lt (a b g n : nat) :
  (a * g < b * n)%nat <-> INR a * INR g < INR b * INR n.
Proof. rewrite <- !mult_INR. split; [apply lt_INR | apply INR_lt]. Qed.

Lemma quality_ratio_geb (g n a b : nat) :
  (0 < n)%nat -> (0 < b)%nat ->
  float_geb (PyFloat.div (PyFloat.of_nat g) (PyFloat.of_nat n))
    (PyFloat.Fin (INR a / INR b))
  = (a * n <=? b * g)%nat.
Proof.
  intros Hn Hb. apply lt_INR in Hn, Hb. cbn [INR] in Hn, Hb.
  unfold PyFloat.of_nat. cbn [PyFloat.div].
  assert (Hz : Reqb (INR n) 0 = false) by (apply Reqb_false; lra).
  rewrite Hz. cbn [float_geb PyFloat.ltb].
  assert (E : INR g / INR n < INR a / INR b <-> INR b * INR g < INR a * INR n).
  { split; intros H.
    - apply (Rmult_lt_compat_r (INR n * INR b)) in H; [|nra].
      replace (INR g / INR n * (INR n * INR b)) with (INR b * INR g) in H
        by (field; lra).
      replace (INR a / INR b * (INR n * INR b)) with (INR a * INR n) in H
        by (field; lra).
      exact H.
    - apply (Rmult_lt_reg_r (INR n * INR b)); [nra|].
      replace (INR g / INR n * (INR n * INR b)) with (INR b * INR g)
        by (field; lra).
      replace (INR a / INR b * (INR n * INR b)) with (INR a * INR n)
        by (field; lra).
      exact H. }
  destruct (Nat.leb_spec (a * n) (b * g)) as [H|H].
  - rewrite Rltb_intro_false; [reflexivity|].
    rewrite E, <- INR_scaled_lt. lia.
  - rewrite Rltb_intro_true; [reflexivity|].
    rewrite E, <- INR_scaled_lt. lia.
Qed.

Lemma good_quality_le (rows : list SensorData.t) :
  (good_quality rows <= List.length rows)%nat.
Proof. apply (count_where_le _ rows). Qed.

(** X23. The data-quality label of an equipment is decided by the share
    of GOOD readings among its readings of the last hour: UNKNOWN exactly
    when there is none, EXCELLENT from 90 % on, GOOD from 70 % to below
    90 %, POOR below 70 %. *)
Theorem data_quality_by_good_share (rows : list SensorData.t) :
  let n := List.length rows in
  let g := good_quality rows in
  (data_quality rows = "UNKNOWN"%string <-> rows = [])
  /\ (data_quality rows = "EXCELLENT"%string
      <-> rows <> [] /\ (9 * n <= 10 * g)%nat)
  /\ (data_quality rows = "GOOD"%string
      <-> rows <> [] /\ (7 * n <= 10 * g < 9 * n)%nat)
  /\ (data_quality rows = "POOR"%string
      <-> rows <> [] /\ (10 * g < 7 * n)%nat).
Proof.
  cbv zeta. destruct rows as [|r rows].
  - cbn [data_quality]. repeat split; try discriminate; try tauto;
      intros [H _]; now elim H.
  - set (l := r :: rows). assert (Hn : (0 < List.length l)%nat) by (cbn; lia).
    assert (Hl : l <> []) by discriminate.
    unfold data_quality. change (match l with [] => "UNKNOWN"%string | _ :: _ =>
      let quality_ratio :=
        PyFloat.div (PyFloat.of_nat (good_quality l))
          (PyFloat.of_nat (List.length l)) in
      if float_geb quality_ratio (PyFloat.Fin (9 / 10)) then "EXCELLENT"%string
      else if float_geb quality_ratio (PyFloat.Fin (7 / 10)) then "GOOD"%string
      else "POOR"%string end)
    with (if float_geb (PyFloat.div (PyFloat.of_nat (good_quality l))
                          (PyFloat.of_nat (List.length l))) (PyFloat.Fin (9 / 10))
          then "EXCELLENT"%string
          else if float_geb (PyFloat.div (PyFloat.of_nat (good_quality l))
                               (PyFloat.of_nat (List.length l)))
                    (PyFloat.Fin (7 / 10))
          then "GOOD"%string else "POOR"%string).
    replace (9 / 10) with (INR 9 / INR 10) by (cbn [INR]; lra).
    replace (7 / 10) with (INR 7 / INR 10) by (cbn [INR]; lra).
    rewrite !quality_ratio_geb by lia.
    destruct (Nat.leb_spec (9 * List.length l) (10 * good_quality l));
      [|destruct (Nat.leb_spec (7 * List.length l) (10 * good_quality l))];
      repeat split; try discriminate; try assumption; try lia;
      try (intros [_ H']; lia); try (intros H'; discriminate H').
Qed.

(** ** Connection status *)

Lemma dict_update_get {V : Type} (k k' : string) (f : V -> V) (d0 : V)
  (d : list (string * V)) :
  dict_get k' (dict_update k f d0 d)
  = if String.eqb k k' then
      Some (f (match dict_get k' d with Some v => v | None => d0 end))
    else dict_get k' d.
Proof.
  induction d as [|[a v] d IH]; cbn [dict_update dict_get].
  - now rewrite String.eqb_sym.
  - destruct (String.eqb a k) eqn:Ea; cbn [dict_get].
    + apply String.eqb_eq in Ea. subst a.
      destruct (String.eqb k k'); reflexivity.
    + rewrite IH. destruct (String.eqb a k') eqn:Ek; [|reflexivity].
      apply String.eqb_eq in Ek. subst a.
      rewrite String.eqb_sym in Ea. now rewrite Ea.
Qed.

Lemma dict_update_key_In {V : Type} (k k' : string) (f : V -> V) (d0 : V)
  (d : list (string * V)) :
  In k' (map fst (dict_update k f d0 d)) <-> k' = k \/ In k' (map fst d).
Proof.
  induction d as [|[a n] d IH]; cbn [dict_update map fst In].
  - intuition.
  - destruct (String.eqb a k) eqn:E; cbn [map fst In].
    + apply String.eqb_eq in E. subst a. intuition.
    + rewrite IH. intuition.
Qed.

Lemma dict_update_NoDup {V : Type} (k : string) (f : V -> V) (d0 : V)
  (d : list (string * V)) :
  NoDup (map fst d) -> NoDup (map fst (dict_update k f d0 d)).
Proof.
  induction d as [|[a n] d IH]; intros Hn; cbn [dict_update].
  - repeat constructor. intros [].
  - inversion Hn as [|? ? Ha Hn']; subst.
    destruct (String.eqb a k) eqn:E; [exact Hn|].
    cbn [map fst]. constructor; [|now apply IH].
    rewrite dict_update_key_In. intros [-> | H]; [|contradiction].
    rewrite String.eqb_refl in E. discriminate.
Qed.

Lemma dict_update_sum {V : Type} (m : V -> nat) (c : nat) (k : string)
  (f : V -> V) (d0 : V) (d : list (string * V)) :
  (forall v, m (f v) = (m v + c)%nat) -> m d0 = O ->
  list_sum (map (fun kv => m (snd kv)) (dict_update k f d0 d))
  = (list_sum (map (fun kv => m (snd kv)) d) + c)%nat.
Proof.
  intros Hf H0. unfold list_sum.
  induction d as [|[a v] d IH]; cbn [dict_update map fold_right snd].
  - rewrite Hf, H0. lia.
  - destruct (String.eqb a k); cbn [map fold_right snd].
    + rewrite Hf. lia.
    + rewrite IH. lia.
Qed.

Lemma protocol_status_snoc (l : list Equipment.t) (e : Equipment.t) :
  protocol_status (l ++ [e])
  = dict_update (Equipment.protocol e) (record_equipment e)
      new_protocol_status (protocol_status l).
Proof. unfold protocol_status. now rewrite fold_left_app. Qed.

Lemma status_of_snoc (p : string) (l : list Equipment.t) (e : Equipment.t) :
  status_of p (l ++ [e])
  = if String.eqb (Equipment.protocol e) p
    then record_equipment e (status_of p l) else status_of p l.
Proof. unfold status_of. now rewrite fold_left_app. Qed.

Lemma status_of_absent (p : string) (l : list Equipment.t) :
  existsb (fun e => String.eqb (Equipment.protocol e) p) l = false ->
  status_of p l = new_protocol_status.
Proof.
  induction l as [|e l IH] using rev_ind; [reflexivity|].
  rewrite existsb_app. cbn [existsb]. rewrite orb_false_r.
  intros H. apply orb_false_iff in H as [Hl He].
  rewrite status_of_snoc, He. now apply IH.
Qed.

Lemma protocol_status_get (p : string) (l : list Equipment.t) :
  dict_get p (protocol_status l)
  = if existsb (fun e => String.eqb (Equipment.protocol e) p) l
    then Some (status_of p l) else None.
Proof.
  induction l as [|e l IH] using rev_ind; [reflexivity|].
  rewrite protocol_status_snoc, dict_update_get, IH, existsb_app,
    status_of_snoc.
  cbn [existsb]. rewrite orb_false_r.
  destruct (String.eqb (Equipment.protocol e) p) eqn:He.
  - rewrite orb_true_r.
    destruct (existsb _ l) eqn:Hl; [reflexivity|].
    now rewrite (status_of_absent p l Hl).
  - now rewrite orb_false_r.
Qed.

Lemma protocol_status_NoDup (l : list Equipment.t) :
  NoDup (map fst (protocol_status l)).
Proof.
  induction l as [|e l IH] using rev_ind; [constructor|].
  rewrite protocol_status_snoc. now apply dict_update_NoDup.
Qed.

Lemma count_where_snoc {A : Type} (f : A -> bool) (l : list A) (x : A) :
  count_where f (l ++ [x])
  = (count_where f l + if f x then 1 else 0)%nat.
Proof.
  unfold count_where. rewrite filter_app, length_app. cbn [filter].
  now destruct (f x).
Qed.

Lemma status_of_counts (p : string) (l : list Equipment.t) :
  let of_p e := String.eqb (Equipment.protocol e) p in
  ps_total_equipment (status_of p l) = count_where of_p l
  /\ ps_connected (status_of p l)
     = count_where (fun e => of_p e && Equipment.is_connected e) l
  /\ ps_disconnected (status_of p l)
     = count_where (fun e => of_p e && negb (Equipment.is_connected e)) l.
Proof.
  cbv zeta. induction l as [|e l (IH1 & IH2 & IH3)] using rev_ind.
  - repeat split.
  - rewrite status_of_snoc, !count_where_snoc.
    destruct (String.eqb (Equipment.protocol e) p); cbn [andb].
    + unfold record_equipment.
      cbn [ps_total_equipment ps_connected ps_disconnected].
      rewrite IH1, IH2, IH3.
      destruct (Equipment.is_connected e); cbn [negb]; repeat split; lia.
    + rewrite IH1, IH2, IH3. repeat split; lia.
Qed.

Lemma status_of_last_activity (p : string) (l : list Equipment.t) :
  let beats hb :=
    exists e, In e l /\ Equipment.protocol e = p
              /\ Equipment.last_heartbeat e = Some hb in
  match ps_last_activity (status_of p l) with
  | None => forall hb, ~ beats hb
  | Some la => beats la /\ forall hb, beats hb -> (hb <= la)%Z
  end.
Proof.
  cbv zeta. induction l as [|e l IH] using rev_ind.
  - cbn. intros hb (e & [] & _).
  - rewrite status_of_snoc.
    assert (Hold : forall hb,
      (exists x, In x (l ++ [e]) /\ Equipment.protocol x = p
                 /\ Equipment.last_heartbeat x = Some hb)
      <-> (exists x, In x l /\ Equipment.protocol x = p
                     /\ Equipment.last_heartbeat x = Some hb)
          \/ (Equipment.protocol e = p
              /\ Equipment.last_heartbeat e = Some hb)).
    { intros hb. split.
      - intros (x & Hx & H1 & H2). apply in_app_iff in Hx as [Hx|[<-|[]]].
        + left. now exists x.
        + now right.
      - intros [(x & Hx & H1 & H2)|[H1 H2]].
        + exists x. split; [apply in_app_iff; now left|easy].
        + exists e. split; [apply in_app_iff; right; now left|easy]. }
    destruct (String.eqb (Equipment.protocol e) p) eqn:He.
    + apply String.eqb_eq in He.
      unfold record_equipment. cbn [ps_last_activity].
      destruct (Equipment.last_heartbeat e) as [hb|] eqn:Hhb.
      * destruct (ps_last_activity (status_of p l)) as [la|].
        -- destruct IH as [Hla Hmax].
           destruct (Z.ltb_spec la hb) as [Hlt|Hge].
           ++ split; [apply Hold; now right|].
              intros hb' Hb. apply Hold in Hb as [Hb|[_ Hb]].
              ** specialize (Hmax hb' Hb). lia.
              ** injection Hb as <-. lia.
           ++ split; [apply Hold; now left|].
              intros hb' Hb. apply Hold in Hb as [Hb|[_ Hb]].
              ** now apply Hmax.
              ** injection Hb as <-. exact Hge.
        -- split; [apply Hold; now right|].
           intros hb' Hb. apply Hold in Hb as [Hb|[_ Hb]].
           ++ now elim (IH hb').
           ++ injection Hb as <-. lia.
      * destruct (ps_last_activity (status_of p l)) as [la|].
        -- destruct IH as [Hla Hmax]. split; [apply Hold; now left|].
           intros hb' Hb. apply Hold in Hb as [Hb|[_ Hb]]; [|discriminate].
           now apply Hmax.
        -- intros hb' Hb. apply Hold in Hb as [Hb|[_ Hb]]; [|discriminate].
           now elim (IH hb').
    + assert (Hne : Equipment.protocol e <> p).
      { intros E. rewrite E, String.eqb_refl in He. discriminate. }
      destruct (ps_last_activity (status_of p l)) as [la|].
      * destruct IH as [Hla Hmax]. split; [apply Hold; now left|].
        intros hb' Hb. apply Hold in Hb as [Hb|[Hb _]]; [|contradiction].
        now apply Hmax.
      * intros hb' Hb. apply Hold in Hb as [Hb|[Hb _]]; [|contradiction].
        now elim (IH hb').
Qed.

Lemma protocol_status_sums (l : list Equipment.t) :
  list_sum (map (fun kv => ps_total_equipment (snd kv)) (protocol_status l))
  = List.length l
  /\ list_sum (map (fun kv => ps_connected (snd kv)) (protocol_status l))
     = count_where Equipment.is_connected l.
Proof.
  induction l as [|e l [IH1 IH2]] using rev_ind; [split; reflexivity|].
  rewrite protocol_status_snoc. split.
  - rewrite (dict_update_sum ps_total_equipment 1); [| |reflexivity].
    + rewrite IH1, length_app. reflexivity.
    + intros v. cbn. lia.
  - rewrite (dict_update_sum ps_connected
               (if Equipment.is_connected e then 1 else 0)); [| |reflexivity].
    + now rewrite IH2, count_where_snoc.
    + intros v. cbn. destruct (Equipment.is_connected e); lia.
Qed.

(** X24. The connection status counts the active equipment by protocol.
    Each protocol with active equipment has one entry, and no other protocol
    has one.  In an entry, [total_equipment] is the number of active
    equipment of the protocol, [connected] and [disconnected] split it by the
    connection flag, and [last_activity] is the latest heartbeat among them
    ([None] when none has a heartbeat).  The summary adds up to the number of
    active equipment and of active connected equipment. *)
Theorem connection_status_counts (db : DB) :
  let active := filter Equipment.is_active (equipment db) in
  let protocols := fst (get_connection_status db) in
  let summary := snd (get_connection_status db) in
  NoDup (map fst protocols)
  /\ (forall p,
        dict_get p protocols = None
        <-> forall e, In e active -> Equipment.protocol e <> p)
  /\ (forall p s,
        dict_get p protocols = Some s ->
        let of_p e := String.eqb (Equipment.protocol e) p in
        let beats hb :=
          exists e, In e active /\ Equipment.protocol e = p
                    /\ Equipment.last_heartbeat e = Some hb in
        ps_total_equipment s = count_where of_p active
        /\ (1 <= ps_total_equipment s)%nat
        /\ ps_connected s
           = count_where (fun e => of_p e && Equipment.is_connected e) active
        /\ (ps_connected s + ps_disconnected s = ps_total_equipment s)%nat
        /\ match ps_last_activity s with
           | None => forall hb, ~ beats hb
           | Some la => beats la /\ forall hb, beats hb -> (hb <= la)%Z
           end)
  /\ total_protocols summary = List.length protocols
  /\ cs_total_equipment summary
     = count_where Equipment.is_active (equipment db)
  /\ total_connected summary
     = count_where (fun e => Equipment.is_active e && Equipment.is_connected e)
         (equipment db).
Proof.
  cbv zeta. unfold get_connection_status. cbv zeta. cbn [fst snd].
  cbn [total_protocols cs_total_equipment total_connected].
  set (active := filter Equipment.is_active (equipment db)).
  destruct (protocol_status_sums active) as [Hs1 Hs2].
  split; [apply protocol_status_NoDup|]. split; [|split].
  - intros p. rewrite protocol_status_get.
    destruct (existsb _ active) eqn:Hex.
    + split; [discriminate|]. intros H.
      apply existsb_exists in Hex as (e & He & Hp).
      apply String.eqb_eq in Hp. now elim (H e He).
    + split; [|reflexivity]. intros _ e He Hp.
      assert (existsb (fun e => String.eqb (Equipment.protocol e) p) active
              = true) as Habs.
      { apply existsb_exists. exists e. split; [exact He|].
        now apply String.eqb_eq. }
      rewrite Habs in Hex. discriminate.
  - intros p s. rewrite protocol_status_get.
    destruct (existsb _ active) eqn:Hex; [|discriminate].
    intros E. injection E as <-.
    destruct (status_of_counts p active) as (H1 & H2 & H3).
    pose proof (status_of_last_activity p active) as H4. cbv zeta in H4.
    assert (Hsplit : (count_where (fun e => String.eqb (Equipment.protocol e) p
                                            && Equipment.is_connected e) active
                      + count_where (fun e => String.eqb (Equipment.protocol e) p
                                              && negb (Equipment.is_connected e))
                          active
                      = count_where (fun e => String.eqb (Equipment.protocol e) p)
                          active)%nat).
    { clear. induction active as [|e l IH] using rev_ind; [reflexivity|].
      rewrite !count_where_snoc.
      destruct (String.eqb (Equipment.protocol e) p),
        (Equipment.is_connected e); cbn [andb negb]; lia. }
    split; [exact H1|]. split.
    { rewrite H1. apply existsb_exists in Hex as (e & He & Hp).
      unfold count_where.
      assert (Hin : In e (filter (fun e => String.eqb (Equipment.protocol e) p)
                            active)) by (apply filter_In; now split).
      destruct (filter _ active); [destruct Hin|cbn; lia]. }
    split; [exact H2|]. split; [rewrite H1, H2, H3; exact Hsplit|exact H4].
  - split; [reflexivity|]. split.
    + rewrite Hs1. reflexivity.
    + rewrite Hs2. unfold active. apply count_where_filter.
Qed.

(** ** Statistics *)

Lemma float_or_zero_fin (x : R) :
  float_or_zero (Some (PyFloat.Fin x)) = PyFloat.Fin x.
Proof.
  unfold float_or_zero, PyFloat.truthy, PyFloat.zero.
  destruct (Reqb x 0) eqn:E; cbn [negb]; [|reflexivity].
  apply Reqb_true in E. now subst x.
Qed.

Lemma fold_pg_min_fin (xs : list R) (a : R) :
  exists lo,
    fold_left pg_min (map PyFloat.Fin xs) (PyFloat.Fin a) = PyFloat.Fin lo
    /\ In lo (a :: xs) /\ forall x, In x (a :: xs) -> lo <= x.
Proof.
  revert a. induction xs as [|x xs IH]; intros a.
  - exists a. split; [reflexivity|]. split; [now left|].
    intros x [<-|[]]. lra.
  - cbn [map fold_left]. unfold pg_min at 2. cbn [pg_ltb PyFloat.ltb].
    destruct (Rltb x a) eqn:E.
    + apply Rltb_true in E. destruct (IH x) as (lo & H1 & H2 & H3).
      exists lo. split; [exact H1|]. split.
      * right. exact H2.
      * intros y [<-|Hy]; [|now apply H3].
        specialize (H3 x (or_introl eq_refl)). lra.
    + apply Rltb_false in E. destruct (IH a) as (lo & H1 & H2 & H3).
      exists lo. split; [exact H1|]. split.
      * destruct H2 as [H2|H2]; [now left|right; now right].
      * intros y [<-|[<-|Hy]].
        -- apply H3. now left.
        -- specialize (H3 a (or_introl eq_refl)). lra.
        -- apply H3. now right.
Qed.

Lemma fold_pg_max_fin (xs : list R) (a : R) :
  exists hi,
    fold_left pg_max (map PyFloat.Fin xs) (PyFloat.Fin a) = PyFloat.Fin hi
    /\ In hi (a :: xs) /\ forall x, In x (a :: xs) -> x <= hi.
Proof.
  revert a. induction xs as [|x xs IH]; intros a.
  - exists a. split; [reflexivity|]. split; [now left|].
    intros x [<-|[]]. lra.
  - cbn [map fold_left]. unfold pg_max at 2. cbn [pg_ltb PyFloat.ltb].
    destruct (Rltb a x) eqn:E.
    + apply Rltb_true in E. destruct (IH x) as (hi & H1 & H2 & H3).
      exists hi. split; [exact H1|]. split.
      * right. exact H2.
      * intros y [<-|Hy]; [|now apply H3].
        specialize (H3 x (or_introl eq_refl)). lra.
    + apply Rltb_false in E. destruct (IH a) as (hi & H1 & H2 & H3).
      exists hi. split; [exact H1|]. split.
      * destruct H2 as [H2|H2]; [now left|right; now right].
      * intros y [<-|[<-|Hy]].
        -- apply H3. now left.
        -- specialize (H3 a (or_introl eq_refl)). lra.
        -- apply H3. now right.
Qed.

(** X25. The statistics of a selection.  The selection is made of rows
    of the join, in which a reading stands once for every sensor of its
    equipment: [count] is the number of selected rows, and the quality
    distribution lists each quality once with the number of selected rows
    that have it, so it adds up to [count].  Over an empty selection every
    statistic is 0 and the distribution is empty; over a single row the
    standard deviation is 0.  Over finite values the minimum and the maximum
    are the least and the greatest selected value. *)
Theorem statistics_of_selection (equipment_id sensor_type : option string)
  (hours : Z) (now : datetime) (db : DB) :
  let rows := statistics_query equipment_id sensor_type hours now db in
  let st := fst (get_data_statistics equipment_id sensor_type hours now db) in
  let dist := snd (get_data_statistics equipment_id sensor_type hours now db) in
  st_count st = List.length rows
  /\ (forall p, In p rows -> In p (joined db))
  /\ NoDup (map fst dist)
  /\ list_sum (map snd dist) = st_count st
  /\ (forall q,
        dict_get q dist
        = match count_where (fun p => String.eqb (p_quality p) q) rows with
          | O => None
          | n => Some n
          end)
  /\ (rows = [] ->
      st = mkStatistics 0 PyFloat.zero PyFloat.zero PyFloat.zero PyFloat.zero
      /\ dist = [])
  /\ (List.length rows = 1%nat -> st_std_deviation st = PyFloat.zero)
  /\ (forall xs,
        map p_value rows = map PyFloat.Fin xs -> xs <> [] ->
        exists lo hi,
          st_minimum st = PyFloat.Fin lo /\ st_maximum st = PyFloat.Fin hi
          /\ In lo xs /\ In hi xs
          /\ (forall x, In x xs -> lo <= x <= hi)).
Proof.
  cbv zeta. unfold get_data_statistics. cbv zeta. cbn [fst snd].
  set (rows := statistics_query equipment_id sensor_type hours now db).
  cbn [st_count st_average st_minimum st_maximum st_std_deviation].
  destruct (count_by_spec p_quality rows) as (H1 & H2 & H3).
  split; [apply length_map|]. split.
  { intros p Hp. unfold rows, statistics_query in Hp. cbv zeta in Hp.
    apply filter_eq_In in Hp as [Hp _]. apply filter_eq_In in Hp as [Hp _].
    now apply filter_In in Hp. }
  split; [exact H1|].
  split; [now rewrite H2, length_map|]. split; [exact H3|].
  split; [|split].
  - intros ->. split; reflexivity.
  - intros Hlen. destruct rows as [|r [|r' rows']]; try discriminate.
    reflexivity.
  - intros xs Hxs Hne. rewrite Hxs.
    destruct xs as [|a xs]; [contradiction|].
    destruct (fold_pg_min_fin xs a) as (lo & Hlo & Hlo_in & Hlo_le).
    destruct (fold_pg_max_fin xs a) as (hi & Hhi & Hhi_in & Hhi_ge).
    exists lo, hi.
    change (sql_min (map PyFloat.Fin (a :: xs)))
      with (Some (fold_left pg_min (map PyFloat.Fin xs) (PyFloat.Fin a))).
    change (sql_max (map PyFloat.Fin (a :: xs)))
      with (Some (fold_left pg_max (map PyFloat.Fin xs) (PyFloat.Fin a))).
    rewrite Hlo, Hhi, !float_or_zero_fin.
    repeat split; try assumption; try (now apply Hlo_le);
      try (now apply Hhi_ge).
Qed.

(** Ten readings of a pump with three sensors are thirty rows. *)
Lemma statistics_of_selection_witness :
  st_count (fst (get_data_statistics None None 24 sample_now sample_db))
  = 30%nat
  /\ snd (get_data_statistics None None 24 sample_now sample_db)
     = [("GOOD"%string, 30%nat)].
Proof.
  destruct (statistics_of_selection None None 24 sample_now sample_db)
    as (H & _).
  split; [rewrite H; vm_compute; reflexivity|reflexivity].
Defined.

(** ** Export jobs *)

Lemma find_snoc_absent {A : Type} (f : A -> bool) (l : list A) (x : A) :
  find f l = None -> find f (l ++ [x]) = if f x then Some x else None.
Proof.
  induction l as [|y l IH]; [reflexivity|].
  cbn [app find]. destruct (f y); [discriminate|exact IH].
Qed.

Lemma find_snoc_other {A : Type} (f : A -> bool) (l : list A) (x : A) :
  f x = false -> find f (l ++ [x]) = find f l.
Proof.
  intros H. induction l as [|y l IH]; cbn [app find].
  - now rewrite H.
  - destruct (f y); [reflexivity|exact IH].
Qed.

(** X27. An export request and the job it creates.  With a job id that
    no stored job has, [export_data] succeeds, answers with that id, the
    status QUEUED and a completion estimate five minutes ahead, and stores the
    job; [get_processing_job] then finds it and reports the status PENDING
    (not QUEUED), no start or completion time, zero records processed and no
    result file or error.  Looking up any other id gives what it gave before;
    an id that no job has gives 404. *)
Theorem export_job_round_trip (export_request : DataExportRequest.t)
  (uuid : string) (pk : Z) (db_now now : datetime)
  (jobs : list DataProcessingJob.t) :
  (forall j, In j jobs -> DataProcessingJob.job_id j <> uuid) ->
  let jobs' := fst (export_data export_request uuid pk db_now now jobs) in
  snd (export_data export_request uuid pk db_now now jobs)
  = Ok (mkExportResponse uuid "QUEUED"
          "Export job created and queued for processing"
          (now + 300000000)%Z)
  /\ get_processing_job uuid jobs = HTTPError 404 "Job not found"
  /\ get_processing_job uuid jobs'
     = Success (mkJobView uuid "export" "PENDING" db_now None None 0 None None)
  /\ forall other, other <> uuid ->
       get_processing_job other jobs' = get_processing_job other jobs.
Proof.
  intros Hfresh. cbv zeta. unfold export_data.
  assert (Hex : existsb (fun j => String.eqb (DataProcessingJob.job_id j) uuid)
                  jobs = false).
  { destruct (existsb _ jobs) eqn:E; [|reflexivity].
    apply existsb_exists in E as (j & Hj & Hid). apply String.eqb_eq in Hid.
    now elim (Hfresh j Hj). }
  assert (Hfind : find (fun j => String.eqb (DataProcessingJob.job_id j) uuid)
                    jobs = None).
  { destruct (find _ jobs) as [j|] eqn:E; [|reflexivity].
    apply find_some in E as [Hj Hid]. apply String.eqb_eq in Hid.
    now elim (Hfresh j Hj). }
  rewrite Hex. cbn [fst snd]. split; [reflexivity|]. split; [|split].
  - unfold get_processing_job. now rewrite Hfind.
  - unfold get_processing_job. rewrite (find_snoc_absent _ _ _ Hfind).
    cbn [DataProcessingJob.job_id]. now rewrite String.eqb_refl.
  - intros other Hne. unfold get_processing_job.
    rewrite find_snoc_other; [reflexivity|].
    cbn [DataProcessingJob.job_id]. apply String.eqb_neq. congruence.
Qed.

Lemma export_job_round_trip_witness :
  get_processing_job "job-1"
    (fst (export_data
            (DataExportRequest.mk None None 0%Z 10%Z "csv" true)
            "job-1" 1 5 7 []))
  = Success (mkJobView "job-1" "export" "PENDING" 5%Z None None 0 None None).
Proof.
  refine (proj1 (proj2 (proj2
    (export_job_round_trip
       (DataExportRequest.mk None None 0%Z 10%Z "csv" true)
       "job-1" 1%Z 5%Z 7%Z [] _)))).
  intros j [].
Defined.

(** ** Real-time data: the latest readings *)

Lemma max_timestamp_snoc (pk : Z) (rows : list SensorData.t)
  (d : SensorData.t) :
  max_timestamp pk (rows ++ [d])
  = if Z.eqb (SensorData.sensor_id d) pk then
      match max_timestamp pk rows with
      | None => Some (SensorData.timestamp d)
      | Some m => Some (Z.max m (SensorData.timestamp d))
      end
    else max_timestamp pk rows.
Proof. unfold max_timestamp. now rewrite fold_left_app. Qed.

Lemma max_timestamp_spec (pk : Z) (rows : list SensorData.t) :
  match max_timestamp pk rows with
  | None => forall d, In d rows -> SensorData.sensor_id d <> pk
  | Some m =>
      (exists d, In d rows /\ SensorData.sensor_id d = pk
                 /\ SensorData.timestamp d = m)
      /\ forall d, In d rows -> SensorData.sensor_id d = pk ->
                   (SensorData.timestamp d <= m)%Z
  end.
Proof.
  induction rows as [|r rows IH] using rev_ind.
  - cbn. intros d [].
  - rewrite max_timestamp_snoc.
    destruct (Z.eqb_spec (SensorData.sensor_id r) pk) as [E|E].
    + destruct (max_timestamp pk rows) as [m|].
      * destruct IH as [(d & Hd & Hpk & Hts) Hmax]. split.
        -- destruct (Z.max_spec m (SensorData.timestamp r)) as [[_ ->]|[_ ->]].
           ++ exists r. split; [apply in_app_iff; right; now left|easy].
           ++ exists d. split; [apply in_app_iff; now left|easy].
        -- intros x Hx Hxpk. apply in_app_iff in Hx as [Hx|[<-|[]]].
           ++ specialize (Hmax x Hx Hxpk). lia.
           ++ lia.
      * split.
        -- exists r. split; [apply in_app_iff; right; now left|easy].
        -- intros x Hx Hxpk. apply in_app_iff in Hx as [Hx|[<-|[]]].
           ++ now elim (IH x Hx).
           ++ lia.
    + destruct (max_timestamp pk rows) as [m|].
      * destruct IH as [(d & Hd & Hpk & Hts) Hmax]. split.
        -- exists d. split; [apply in_app_iff; now left|easy].
        -- intros x Hx Hxpk. apply in_app_iff in Hx as [Hx|[<-|[]]].
           ++ now apply Hmax.
           ++ contradiction.
      * intros x Hx. apply in_app_iff in Hx as [Hx|[<-|[]]].
        -- now apply IH.
        -- exact E.
Qed.

(** A joined reading is a latest one exactly when no reading of its sensor
    in the table is later. *)
Lemma is_latest_spec (db : DB) (p : Point) :
  In (data p) (sensor_data db) ->
  (is_latest db p = true
   <-> forall d, In d (sensor_data db) ->
                 SensorData.sensor_id d = SensorData.sensor_id (data p) ->
                 (SensorData.timestamp d <= p_timestamp p)%Z).
Proof.
  intros Hin. unfold is_latest.
  pose proof (max_timestamp_spec (SensorData.sensor_id (data p))
                (sensor_data db)) as H.
  destruct (max_timestamp _ (sensor_data db)) as [m|].
  - destruct H as [(d & Hd & Hpk & Hts) Hmax]. rewrite Z.eqb_eq. split.
    + intros E x Hx Hxpk. rewrite E. now apply Hmax.
    + intros Hall. specialize (Hall d Hd Hpk).
      specialize (Hmax (data p) Hin eq_refl). unfold p_timestamp in *. lia.
  - now elim (H (data p) Hin).
Qed.

Lemma latest_rows_In (ids : option (list string)) (db : DB)
  (row : nat * Point) :
  In row (latest_rows ids db)
  <-> In row (joined_entities db)
      /\ is_latest db (snd row) = true
      /\ (forall l, ids = Some l -> l <> [] -> In (p_equipment_id (snd row)) l).
Proof.
  unfold latest_rows. rewrite filter_in_In, filter_In. tauto.
Qed.

(** The entity of a row of the join has the reading and the equipment of
    the row. *)
Lemma entity_of_row (db : DB) (row : nat * Point) (r : Point) :
  In row (joined_entities db) ->
  load_entity db (data (snd row)) = Some r ->
  data r = data (snd row) /\ p_equipment r = p_equipment (snd row).
Proof.
  intros Hrow Hl.
  apply joined_entities_In in Hrow as (d & e & s & _ & He & _ & E).
  rewrite E in Hl |- *. cbn [data p_equipment] in *.
  apply load_entity_Some in Hl as (e' & s' & He' & _ & ->).
  rewrite He in He'. injection He' as <-. now split.
Qed.



(** ** Rate limiter *)

Lemma requests_of_set (ip ip' : string) (v : list Z)
  (d : list (string * list Z)) :
  requests_of ip (dict_set ip' v d)
  = if String.eqb ip' ip then v else requests_of ip d.
Proof.
  unfold requests_of. rewrite dict_get_set.
  now destruct (String.eqb ip' ip).
Qed.

Lemma filter_ltb_filter_ltb (c c' : Z) (l : list Z) :
  (c <= c')%Z ->
  filter (fun x => (c' <? x)%Z) (filter (fun x => (c <? x)%Z) l)
  = filter (fun x => (c' <? x)%Z) l.
Proof.
  intros H. induction l as [|x l IH]; [reflexivity|]. cbn [filter].
  destruct (Z.ltb_spec c x) as [H1|H1]; cbn [filter].
  - now rewrite IH.
  - rewrite IH. destruct (Z.ltb_spec c' x); [lia|reflexivity].
Qed.

Lemma filter_length_le {A : Type} (f : A -> bool) (l : list A) :
  (List.length (filter f l) <= List.length l)%nat.
Proof. apply (count_where_le f l). Qed.

(** What one [dispatch] does, in terms of the client's recorded times of
    the last window. *)
Lemma dispatch_spec (max_requests : Z) (ip : string) (t : Z)
  (requests : list (string * list Z)) :
  let recent :=
    filter (fun x => (t - window_size <? x)%Z) (requests_of ip requests) in
  let out := dispatch max_requests ip t requests in
  (forall ip', ip' <> ip ->
               requests_of ip' (fst out) = requests_of ip' requests)
  /\ ((max_requests <= Z.of_nat (List.length recent))%Z ->
      snd out = TooManyRequests 60 /\ requests_of ip (fst out) = recent)
  /\ ((Z.of_nat (List.length recent) < max_requests)%Z ->
      snd out
      = Forwarded max_requests
          (max_requests - Z.of_nat (List.length recent) - 1)
          (Z.quot (t + window_size) 1000000)
      /\ requests_of ip (fst out) = recent ++ [t]).
Proof.
  cbv zeta. unfold dispatch, cleanup_old_requests. cbv zeta.
  rewrite !requests_of_set, String.eqb_refl.
  set (recent := filter (fun x => (t - window_size <? x)%Z)
                   (requests_of ip requests)).
  destruct (Z.leb_spec max_requests (Z.of_nat (List.length recent)))
    as [Hfull|Hroom]; cbn [fst snd].
  - split; [|split].
    + intros ip' Hne. rewrite requests_of_set.
      destruct (String.eqb_spec ip ip'); [congruence|reflexivity].
    + intros _. rewrite requests_of_set, String.eqb_refl. now split.
    + lia.
  - split; [|split].
    + intros ip' Hne. rewrite !requests_of_set.
      destruct (String.eqb_spec ip ip'); [congruence|reflexivity].
    + lia.
    + intros _. rewrite !requests_of_set, String.eqb_refl. split; [|reflexivity].
      rewrite length_app. cbn [List.length]. f_equal. lia.
Qed.

Lemma run_limiter_snoc (max_requests : Z) (events : list (string * Z))
  (ev : string * Z) :
  run_limiter max_requests (events ++ [ev])
  = limiter_step max_requests (run_limiter max_requests events) ev.
Proof. unfold run_limiter. now rewrite fold_left_app. Qed.

Lemma forwarded_times_snoc (ip : string)
  (log : list (string * Z * limiter_response)) (ip' : string) (t : Z)
  (r : limiter_response) :
  forwarded_times ip (log ++ [(ip', t, r)])
  = forwarded_times ip log
    ++ (if String.eqb ip' ip && is_forwarded r then [t] else []).
Proof.
  unfold forwarded_times. rewrite filter_app, map_app. cbn [filter fst snd].
  now destruct (String.eqb ip' ip && is_forwarded r).
Qed.

Lemma StronglySorted_snoc_inv {A : Type} (R : A -> A -> Prop) (l : list A)
  (x : A) :
  StronglySorted R (l ++ [x]) ->
  StronglySorted R l /\ Forall (fun y => R y x) l.
Proof.
  induction l as [|a l IH]; intros H.
  - split; constructor.
  - cbn [app] in H. apply StronglySorted_inv in H as [Hs Hf].
    destruct (IH Hs) as [IH1 IH2]. split.
    + constructor; [exact IH1|].
      rewrite Forall_forall in *. intros y Hy. apply Hf.
      apply in_app_iff. now left.
    + constructor; [|exact IH2].
      rewrite Forall_forall in Hf. apply Hf. apply in_app_iff. right. now left.
Qed.

(** The state of the limiter after a run in which the clock never went
    backwards and stayed at or below [T]: what is recorded for a client are
    its forwarded requests later than some cutoff that lies at least a window
    before [T]; and never more than [max_requests] of them. *)
Lemma run_limiter_invariant (max_requests : Z) (events : list (string * Z))
  (T : Z) :
  nondecreasing events ->
  Forall (fun ev => (snd ev <= T)%Z) events ->
  forall ip,
    (exists c, (c <= T - window_size)%Z
               /\ requests_of ip (fst (run_limiter max_requests events))
                  = filter (fun x => (c <? x)%Z)
                      (forwarded_times ip
                         (snd (run_limiter max_requests events))))
    /\ (Z.of_nat (List.length
                    (requests_of ip (fst (run_limiter max_requests events))))
        <= Z.max 0 max_requests)%Z.
Proof.
  revert T. induction events as [|[ip0 t] events IH] using rev_ind;
    intros T Hs Hf ip.
  - cbn. split; [|lia]. exists (T - window_size)%Z. split; [lia|reflexivity].
  - apply StronglySorted_snoc_inv in Hs as [Hs Hle]. cbn [snd] in Hle.
    assert (Ht : (t <= T)%Z).
    { rewrite Forall_forall in Hf. apply (Hf (ip0, t)).
      apply in_app_iff. right. now left. }
    assert (IHt := IH t Hs Hle).
    rewrite run_limiter_snoc. unfold limiter_step. cbn [fst snd].
    set (st := run_limiter max_requests events) in *.
    destruct (dispatch_spec max_requests ip0 t (fst st))
      as (Hother & Hfull & Hroom). cbv zeta in Hother, Hfull, Hroom.
    rewrite forwarded_times_snoc.
    destruct (IHt ip0) as [(c0 & Hc0 & Hreq0) Hlen0].
    assert (Hrecent :
      filter (fun x => (t - window_size <? x)%Z) (requests_of ip0 (fst st))
      = filter (fun x => (t - window_size <? x)%Z)
          (forwarded_times ip0 (snd st))).
    { rewrite Hreq0. now apply filter_ltb_filter_ltb. }
    destruct (String.eqb_spec ip0 ip) as [->|Hne].
    + cbn [andb].
      destruct (Z.leb_spec max_requests
                  (Z.of_nat (List.length
                     (filter (fun x => (t - window_size <? x)%Z)
                        (requests_of ip (fst st)))))) as [Hcase|Hcase].
      * destruct (Hfull Hcase) as [Hresp Hstate].
        rewrite Hresp, Hstate. cbn [is_forwarded]. rewrite app_nil_r. split.
        -- exists (t - window_size)%Z. split; [lia|exact Hrecent].
        -- pose proof (filter_length_le (fun x => (t - window_size <? x)%Z)
                         (requests_of ip (fst st))). lia.
      * destruct (Hroom Hcase) as [Hresp Hstate].
        rewrite Hresp, Hstate. cbn [is_forwarded]. split.
        -- exists (t - window_size)%Z. split; [lia|].
           rewrite filter_app, Hrecent. cbn [filter].
           destruct (Z.ltb_spec (t - window_size) t) as [_|Hbad];
             [reflexivity|unfold window_size in Hbad; lia].
        -- rewrite length_app. cbn [List.length]. lia.
    + cbn [andb]. rewrite app_nil_r.
      rewrite (Hother ip (fun E => Hne (eq_sym E))).
      destruct (IHt ip) as [(c & Hc & Hreq) Hlen]. split; [|exact Hlen].
      exists c. split; [lia|exact Hreq].
Qed.

(** X29. The rate limiter over a run in which the clock never goes
    backwards.  When a request arrives, [recent] are the times of the client's
    earlier requests that were passed on less than 60 seconds before it.
    There are never more than [max_requests] of them.  With [max_requests] of
    them the request is answered 429 and is not recorded; with fewer it is
    passed on, recorded, and [remaining] tells how many more would be passed
    on now.  Requests of other clients and rejected requests do not count. *)
Theorem rate_limit_window (max_requests : Z) (events : list (string * Z))
  (client_ip : string) (current_time : Z) :
  nondecreasing (events ++ [(client_ip, current_time)]) ->
  let before := run_limiter max_requests events in
  let recent :=
    filter (fun x => (current_time - window_size <? x)%Z)
      (forwarded_times client_ip (snd before)) in
  let out := dispatch max_requests client_ip current_time (fst before) in
  (Z.of_nat (List.length recent) <= Z.max 0 max_requests)%Z
  /\ ((max_requests <= Z.of_nat (List.length recent))%Z ->
      snd out = TooManyRequests 60
      /\ requests_of client_ip (fst out) = recent)
  /\ ((Z.of_nat (List.length recent) < max_requests)%Z ->
      snd out
      = Forwarded max_requests
          (max_requests - Z.of_nat (List.length recent) - 1)
          (Z.quot (current_time + window_size) 1000000)
      /\ requests_of client_ip (fst out) = recent ++ [current_time]).
Proof.
  intros Hs. cbv zeta.
  apply StronglySorted_snoc_inv in Hs as [Hs Hle]. cbn [snd] in Hle.
  destruct (run_limiter_invariant max_requests events current_time Hs Hle
              client_ip) as [(c & Hc & Hreq) Hlen].
  set (st := run_limiter max_requests events) in *.
  assert (Hrecent :
    filter (fun x => (current_time - window_size <? x)%Z)
      (requests_of client_ip (fst st))
    = filter (fun x => (current_time - window_size <? x)%Z)
        (forwarded_times client_ip (snd st))).
  { rewrite Hreq. now apply filter_ltb_filter_ltb. }
  destruct (dispatch_spec max_requests client_ip current_time (fst st))
    as (_ & Hfull & Hroom). cbv zeta in Hfull, Hroom.
  rewrite Hrecent in Hfull, Hroom.
  split; [|split; assumption].
  rewrite <- Hrecent.
  pose proof (filter_length_le (fun x => (current_time - window_size <? x)%Z)
                (requests_of client_ip (fst st))). lia.
Qed.

Lemma rate_limit_window_witness :
  snd (dispatch 2 "10.0.0.1" 30000000
         (fst (run_limiter 2 [("10.0.0.1"%string, 0%Z); ("10.0.0.2"%string, 5000000%Z);
                              ("10.0.0.1"%string, 10000000%Z)])))
  = TooManyRequests 60.
Proof.
  refine (proj1 (proj1 (proj2
    (rate_limit_window 2 [("10.0.0.1"%string, 0%Z); ("10.0.0.2"%string, 5000000%Z);
                          ("10.0.0.1"%string, 10000000%Z)]
       "10.0.0.1" 30000000%Z _)) _)).
  - repeat constructor; cbn; lia.
  - vm_compute. discriminate.
Defined.

(** ** Performance metrics *)

Lemma timedelta_hours_mono (h h' : Z) :
  (h <= h')%Z -> (timedelta_hours h <= timedelta_hours h')%Z.
Proof. unfold timedelta_hours. lia. Qed.

(** X30. The performance metrics of a period.  [total_points] is the
    number of stored readings since the start of the period; the protocol
    breakdown and the quality metrics each list every value once with the
    number of these readings that have it, so both add up to [total_points].
    [active_connections] counts the equipment, active or not, whose last
    heartbeat lies in the period; equipment without a heartbeat never counts.
    A longer period never gives fewer points or fewer active connections. *)
Theorem performance_metrics_consistent (round2 : pyfloat -> pyfloat)
  (hours : Z) (now : datetime) (db : DB) :
  let m := get_performance_metrics round2 hours now db in
  let in_period (d : SensorData.t) :=
    (now - timedelta_hours hours <=? SensorData.timestamp d)%Z in
  pm_total_points m = count_where in_period (sensor_data db)
  /\ NoDup (map fst (pm_protocol_breakdown m))
  /\ NoDup (map fst (pm_quality_metrics m))
  /\ list_sum (map snd (pm_protocol_breakdown m)) = pm_total_points m
  /\ list_sum (map snd (pm_quality_metrics m)) = pm_total_points m
  /\ (forall q,
        dict_get q (pm_quality_metrics m)
        = match count_where
                  (fun d => in_period d && String.eqb (SensorData.quality d) q)
                  (sensor_data db) with
          | O => None
          | n => Some n
          end)
  /\ (forall protocol,
        dict_get protocol (pm_protocol_breakdown m)
        = match count_where
                  (fun d => in_period d
                            && String.eqb (SensorData.source_protocol d)
                                 protocol)
                  (sensor_data db) with
          | O => None
          | n => Some n
          end)
  /\ (pm_active_connections m
      <= count_where
           (fun e => match Equipment.last_heartbeat e with
                     | Some _ => true
                     | None => false
                     end) (equipment db))%nat
  /\ (forall hours',
        (hours <= hours')%Z ->
        let m' := get_performance_metrics round2 hours' now db in
        (pm_total_points m <= pm_total_points m')%nat
        /\ (pm_active_connections m <= pm_active_connections m')%nat).
Proof.
  cbv zeta. unfold get_performance_metrics. cbv zeta.
  cbn [pm_total_points pm_protocol_breakdown pm_quality_metrics
       pm_active_connections].
  set (in_period := fun d : SensorData.t =>
         (now - timedelta_hours hours <=? SensorData.timestamp d)%Z).
  destruct (count_by_spec SensorData.source_protocol
              (filter in_period (sensor_data db))) as (P1 & P2 & P3).
  destruct (count_by_spec SensorData.quality
              (filter in_period (sensor_data db))) as (Q1 & Q2 & Q3).
  split; [reflexivity|]. split; [exact P1|]. split; [exact Q1|].
  split; [exact P2|]. split; [exact Q2|]. split; [|split; [|split]].
  - intros q. rewrite Q3. now rewrite count_where_filter.
  - intros protocol. rewrite P3. now rewrite count_where_filter.
  - apply count_where_impl. intros e. unfold heartbeat_since.
    now destruct (Equipment.last_heartbeat e).
  - intros hours' Hle. pose proof (timedelta_hours_mono hours hours' Hle) as Hd.
    split.
    + apply (count_where_impl in_period). intros d Hd'. unfold in_period in Hd'.
      apply Z.leb_le in Hd'. apply Z.leb_le. lia.
    + apply count_where_impl. intros e. unfold heartbeat_since.
      destruct (Equipment.last_heartbeat e) as [hb|]; [|discriminate].
      intros H. apply Z.leb_le in H. apply Z.leb_le. lia.
Qed.
